(** * TCanvasPainter: the canvas painter over a web window (ROOT 7 prototype)

    A shallow embedding of [TCanvasPainter.cxx] (the connection list, the
    command queue, the pending canvas updates, the push pass
    [CheckDataToSend] and the inbound dispatcher [ProcessData]) together
    with the properties of its protocol.

    Conventions of the embedding:
    - [unsigned] and [uint64_t] values are [Z] numbers; the two places where
      the code does arithmetic or a cast on them wrap explicitly ([wrap64]).
    - [std::string] is [string]; a [const char *] view of it stops at the
      first NUL character ([c_str]).
    - a [CanvasCallback_t] is [option nat]: [None] is the empty function
      ([nullptr]), [Some k] a callable known by the tag [k].  Calling it is
      recorded in the painter's trace of outside effects.
    - the web window and the canvas are outside collaborators: they are
      abstract types with the operations the painter calls on them.
    - a C++ exception, and the undefined behaviour of dereferencing a null
      window or taking the front of an empty list, end the running method
      with an [Abort] outcome that carries the state reached so far.
    - a blocking call ([async] false) is modelled up to its call of
      [WaitFor]; what is polled there is a function of the painter's state,
      and the messages handled meanwhile are further events. *)

From Stdlib Require Import ZArith QArith List String Ascii Bool Lia.
From Stdlib Require Import DecimalString DecimalPos DecimalN.
From Stdlib Require Import Sorted.
Import ListNotations.

Open Scope string_scope.
Open Scope Z_scope.

(** ** Strings and numbers as the code uses them *)

Definition wrap64 (v : Z) : Z := v mod 2 ^ 64.

Definition LLONG_MIN : Z := - 2 ^ 63.
Definition LLONG_MAX : Z := 2 ^ 63 - 1.

(** [std::to_string] and [TString::ULLtoa(v, 10)] of an unsigned value. *)
Definition to_string (v : Z) : string :=
  NilZero.string_of_uint (N.to_uint (Z.to_N v)).

(** an [int] written to a stream *)
Definition int_to_string (v : Z) : string :=
  if v <? 0 then "-" ++ to_string (- v) else to_string v.

(** [s.find(pre) == 0] *)
Definition starts_with (pre s : string) : bool := String.prefix pre s.

(** [s.erase(0, n)] for [n <= s.length()] *)
Definition erase_front (n : nat) (s : string) : string :=
  substring n (String.length s - n) s.

(** [s.find(c)]: position of the first occurrence of [c], [None] for [npos] *)
Fixpoint find_char (c : ascii) (s : string) : option nat :=
  match s with
  | EmptyString => None
  | String a r =>
      if Ascii.eqb a c then Some O
      else match find_char c r with
           | Some i => Some (S i)
           | None => None
           end
  end.

(** what a [const char *] obtained with [c_str()] shows: up to the first NUL *)
Fixpoint c_str (s : string) : string :=
  match s with
  | EmptyString => EmptyString
  | String a r => if Ascii.eqb a zero then EmptyString else String a (c_str r)
  end.

Definition isspace (c : ascii) : bool :=
  let n := nat_of_ascii c in
  (Nat.eqb n 32 || (Nat.leb 9 n && Nat.leb n 13))%bool.

Definition digit_of (c : ascii) : option Z :=
  let n := nat_of_ascii c in
  if (Nat.leb 48 n && Nat.leb n 57)%bool then Some (Z.of_nat (n - 48)) else None.

Fixpoint skip_space (s : string) : string :=
  match s with
  | String c r => if isspace c then skip_space r else s
  | EmptyString => s
  end.

Fixpoint read_digits (s : string) (acc : option Z) : option Z :=
  match s with
  | String c r =>
      match digit_of c with
      | Some d =>
          read_digits r (Some (10 * match acc with Some a => a | None => 0 end + d))
      | None => acc
      end
  | EmptyString => acc
  end.

Inductive Abort : Type :=
| Exception (what : string)
| Undefined (what : string).

(** [std::stoll]: leading white space, an optional sign, decimal digits;
    throws without digits or outside the range of [long long]. *)
Definition stoll (s : string) : Z + Abort :=
  let s1 := skip_space s in
  let '(neg, s2) :=
    match s1 with
    | String "-" r => (true, r)
    | String "+" r => (false, r)
    | _ => (false, s1)
    end in
  match read_digits s2 None with
  | None => inr (Exception "std::invalid_argument")
  | Some m =>
      let v := if neg then - m else m in
      if ((LLONG_MIN <=? v) && (v <=? LLONG_MAX))%bool then inl v
      else inr (Exception "std::out_of_range")
  end.

(** ** Data model *)

Definition CanvasCallback_t : Type := option nat.

Module WebConn.
Record t : Type := Build {
  fConnId : Z;        (* connection id *)
  fDrawReady : bool;  (* when first drawing is performed *)
  fGetMenu : string;  (* object id for menu request *)
  fSend : Z;          (* version sent to the connection *)
  fDelivered : Z      (* version confirmed from the canvas *)
}.
(** [WebConn(unsigned connid)] *)
Definition make (connid : Z) : t := Build connid false "" 0 0.
Definition set_fDrawReady (b : bool) (c : t) : t :=
  Build (fConnId c) b (fGetMenu c) (fSend c) (fDelivered c).
Definition set_fGetMenu (s : string) (c : t) : t :=
  Build (fConnId c) (fDrawReady c) s (fSend c) (fDelivered c).
Definition set_fSend (v : Z) (c : t) : t :=
  Build (fConnId c) (fDrawReady c) (fGetMenu c) v (fDelivered c).
Definition set_fDelivered (v : Z) (c : t) : t :=
  Build (fConnId c) (fDrawReady c) (fGetMenu c) (fSend c) v.
End WebConn.

Module WebCommand.
Record t : Type := Build {
  fId : string;                 (* command identifier *)
  fName : string;               (* command name *)
  fArg : string;                (* command arguments *)
  fRunning : bool;              (* true when command submitted *)
  fReady : bool;                (* true when command finished *)
  fResult : bool;               (* result of command execution *)
  fCallback : CanvasCallback_t; (* callback function of the command *)
  fConnId : Z                   (* connection for the command, 0: any *)
}.
Definition make (id name arg : string) (callback : CanvasCallback_t)
    (connid : Z) : t :=
  Build id name arg false false false callback connid.
Definition set_fRunning (b : bool) (c : t) : t :=
  Build (fId c) (fName c) (fArg c) b (fReady c) (fResult c) (fCallback c)
    (fConnId c).
Definition set_fReady (b : bool) (c : t) : t :=
  Build (fId c) (fName c) (fArg c) (fRunning c) b (fResult c) (fCallback c)
    (fConnId c).
Definition set_fResult (b : bool) (c : t) : t :=
  Build (fId c) (fName c) (fArg c) (fRunning c) (fReady c) b (fCallback c)
    (fConnId c).
Definition set_fCallback (f : CanvasCallback_t) (c : t) : t :=
  Build (fId c) (fName c) (fArg c) (fRunning c) (fReady c) (fResult c) f
    (fConnId c).
Definition set_fConnId (v : Z) (c : t) : t :=
  Build (fId c) (fName c) (fArg c) (fRunning c) (fReady c) (fResult c)
    (fCallback c) v.
End WebCommand.

Module WebUpdate.
Record t : Type := Build {
  fVersion : Z;                (* canvas version *)
  fCallback : CanvasCallback_t (* callback function of the update *)
}.
Definition set_fCallback (f : CanvasCallback_t) (u : t) : t :=
  Build (fVersion u) f.
End WebUpdate.

(** What the painter does to the world outside of its own fields, in order. *)
Inductive Effect : Type :=
| Invoke (cb : nat) (res : bool)            (* a callback is called *)
| SendTo (connid : Z) (buf : string)        (* fWindow->Send *)
| ErrorLog (msg : string)                   (* R__ERROR_HERE *)
| InfoLog (msg : string)                    (* R__INFO_HERE *)
| DebugLog (msg : string)                   (* R__DEBUG_HERE *)
| WriteFile (fname : string) (content : string)   (* std::ofstream, write *)
| ExportToFile (fname : string)             (* TBufferJSON::ExportToFile *)
| ExecuteOn (id : string) (cdata : string)  (* drawable->Execute *)
| Terminate                                 (* TWebWindowsManager::Terminate *)
| SetInterrupt.                             (* gROOT->SetInterrupt *)

(** ** The collaborators of the painter *)

(** [TWebWindow] (and the [TWebWindowsManager] that creates it): only the
    calls the painter makes.  A window value is the whole state of the
    channel layer; its answers may change after every call.  The messages
    that the window delivers while it is synced, waited on or run reach the
    painter as calls of [ProcessData], which are events of their own below;
    so [Sync] acts on the window only, and [WaitFor] and [Run] are left to
    the window. *)
Class TWebWindow (Win : Type) : Type := {
  ManagerCreateWindow : Win;            (* Instance()->CreateWindow(), configured *)
  CanSend : Win -> Z -> bool;           (* CanSend(connid, true) *)
  Send : Win -> Z -> string -> Win;
  Sync : Win -> Win;
  IsShown : Win -> bool;
  MakeBatch : Win -> Z * Win;
  HasConnection : Win -> Z -> bool;     (* HasConnection(connid, false) *)
  CloseConnections : Win -> Win;
  Show : Win -> string -> Win;
  NumConnections : Win -> Z;
  RelativeAddr : Win -> Win -> string
}.

(** [RCanvas], its drawables, and the JSON and base64 coders. *)
Class RCanvas (Canvas Drawable : Type) : Type := {
  ToJSON : Canvas -> string;            (* PaintDrawables, then TBufferJSON::ToJSON *)
  CanvasFindDrawable : Canvas -> string -> option Drawable;
  ProduceJSON : Drawable -> string;     (* PopulateMenu(items); items.ProduceJSON() *)
  Execute : Canvas -> Drawable -> string -> Canvas;
  TBase64_Decode : string -> string
}.

Section Painter.

Context {Win Canvas Drawable : Type}.
Context {window_ops : TWebWindow Win} {canvas_ops : RCanvas Canvas Drawable}.

(** ** The painter *)

Record TCanvasPainter : Type := BuildPainter {
  fCanvas : Canvas;                     (* the canvas we are painting *)
  fWindow : option Win;                 (* configured display, may be null *)
  fWebConn : list WebConn.t;            (* connections list *)
  fHadWebConn : bool;                   (* true if any connection were existing *)
  fCmds : list WebCommand.t;            (* list of submitted commands *)
  fCmdsCnt : Z;                         (* commands counter *)
  fSnapshotVersion : Z;                 (* version of snapshot *)
  fSnapshot : string;                   (* last produced snapshot *)
  fSnapshotDelivered : Z;               (* minimal version delivered to all connections *)
  fUpdatesLst : list WebUpdate.t;       (* list of callbacks for canvas update *)
  fNextDumpName : string;               (* next filename for dumping JSON *)
  (* not fields of the class: *)
  fReleased : list WebCommand.t;        (* commands erased from fCmds, as their
                                           other shared_ptr owners still see them *)
  fTrace : list Effect                  (* effects on the outside, oldest first *)
}.

(** [TCanvasPainter(const RCanvas &canv)] *)
Definition new_TCanvasPainter (canv : Canvas) : TCanvasPainter :=
  BuildPainter canv None [] false [] 0 0 "" 0 [] "" [] [].

Definition set_fCanvas (x : Canvas) (p : TCanvasPainter) : TCanvasPainter :=
  BuildPainter x (fWindow p) (fWebConn p) (fHadWebConn p) (fCmds p) (fCmdsCnt p)
    (fSnapshotVersion p) (fSnapshot p) (fSnapshotDelivered p) (fUpdatesLst p)
    (fNextDumpName p) (fReleased p) (fTrace p).
Definition set_fWindow (x : option Win) (p : TCanvasPainter) : TCanvasPainter :=
  BuildPainter (fCanvas p) x (fWebConn p) (fHadWebConn p) (fCmds p) (fCmdsCnt p)
    (fSnapshotVersion p) (fSnapshot p) (fSnapshotDelivered p) (fUpdatesLst p)
    (fNextDumpName p) (fReleased p) (fTrace p).
Definition set_fWebConn (x : list WebConn.t) (p : TCanvasPainter) : TCanvasPainter :=
  BuildPainter (fCanvas p) (fWindow p) x (fHadWebConn p) (fCmds p) (fCmdsCnt p)
    (fSnapshotVersion p) (fSnapshot p) (fSnapshotDelivered p) (fUpdatesLst p)
    (fNextDumpName p) (fReleased p) (fTrace p).
Definition set_fHadWebConn (x : bool) (p : TCanvasPainter) : TCanvasPainter :=
  BuildPainter (fCanvas p) (fWindow p) (fWebConn p) x (fCmds p) (fCmdsCnt p)
    (fSnapshotVersion p) (fSnapshot p) (fSnapshotDelivered p) (fUpdatesLst p)
    (fNextDumpName p) (fReleased p) (fTrace p).
Definition set_fCmds (x : list WebCommand.t) (p : TCanvasPainter) : TCanvasPainter :=
  BuildPainter (fCanvas p) (fWindow p) (fWebConn p) (fHadWebConn p) x (fCmdsCnt p)
    (fSnapshotVersion p) (fSnapshot p) (fSnapshotDelivered p) (fUpdatesLst p)
    (fNextDumpName p) (fReleased p) (fTrace p).
Definition set_fCmdsCnt (x : Z) (p : TCanvasPainter) : TCanvasPainter :=
  BuildPainter (fCanvas p) (fWindow p) (fWebConn p) (fHadWebConn p) (fCmds p) x
    (fSnapshotVersion p) (fSnapshot p) (fSnapshotDelivered p) (fUpdatesLst p)
    (fNextDumpName p) (fReleased p) (fTrace p).
Definition set_fSnapshotVersion (x : Z) (p : TCanvasPainter) : TCanvasPainter :=
  BuildPainter (fCanvas p) (fWindow p) (fWebConn p) (fHadWebConn p) (fCmds p)
    (fCmdsCnt p) x (fSnapshot p) (fSnapshotDelivered p) (fUpdatesLst p)
    (fNextDumpName p) (fReleased p) (fTrace p).
Definition set_fSnapshot (x : string) (p : TCanvasPainter) : TCanvasPainter :=
  BuildPainter (fCanvas p) (fWindow p) (fWebConn p) (fHadWebConn p) (fCmds p)
    (fCmdsCnt p) (fSnapshotVersion p) x (fSnapshotDelivered p) (fUpdatesLst p)
    (fNextDumpName p) (fReleased p) (fTrace p).
Definition set_fSnapshotDelivered (x : Z) (p : TCanvasPainter) : TCanvasPainter :=
  BuildPainter (fCanvas p) (fWindow p) (fWebConn p) (fHadWebConn p) (fCmds p)
    (fCmdsCnt p) (fSnapshotVersion p) (fSnapshot p) x (fUpdatesLst p)
    (fNextDumpName p) (fReleased p) (fTrace p).
Definition set_fUpdatesLst (x : list WebUpdate.t) (p : TCanvasPainter) : TCanvasPainter :=
  BuildPainter (fCanvas p) (fWindow p) (fWebConn p) (fHadWebConn p) (fCmds p)
    (fCmdsCnt p) (fSnapshotVersion p) (fSnapshot p) (fSnapshotDelivered p) x
    (fNextDumpName p) (fReleased p) (fTrace p).
Definition set_fNextDumpName (x : string) (p : TCanvasPainter) : TCanvasPainter :=
  BuildPainter (fCanvas p) (fWindow p) (fWebConn p) (fHadWebConn p) (fCmds p)
    (fCmdsCnt p) (fSnapshotVersion p) (fSnapshot p) (fSnapshotDelivered p)
    (fUpdatesLst p) x (fReleased p) (fTrace p).
Definition set_fReleased (x : list WebCommand.t) (p : TCanvasPainter) : TCanvasPainter :=
  BuildPainter (fCanvas p) (fWindow p) (fWebConn p) (fHadWebConn p) (fCmds p)
    (fCmdsCnt p) (fSnapshotVersion p) (fSnapshot p) (fSnapshotDelivered p)
    (fUpdatesLst p) (fNextDumpName p) x (fTrace p).
Definition set_fTrace (x : list Effect) (p : TCanvasPainter) : TCanvasPainter :=
  BuildPainter (fCanvas p) (fWindow p) (fWebConn p) (fHadWebConn p) (fCmds p)
    (fCmdsCnt p) (fSnapshotVersion p) (fSnapshot p) (fSnapshotDelivered p)
    (fUpdatesLst p) (fNextDumpName p) (fReleased p) x.

(** ** Methods run on the painter: state passing with abrupt termination *)

Inductive Outcome (A : Type) : Type :=
| Normal (a : A) (p : TCanvasPainter)
| Aborted (why : Abort) (p : TCanvasPainter).
Arguments Normal {A} a p.
Arguments Aborted {A} why p.

Definition M (A : Type) : Type := TCanvasPainter -> Outcome A.

Definition ret {A} (a : A) : M A := fun p => Normal a p.
Definition bind {A B} (c : M A) (k : A -> M B) : M B :=
  fun p => match c p with
           | Normal a p' => k a p'
           | Aborted why p' => Aborted why p'
           end.
Definition raise {A} (why : Abort) : M A := fun p => Aborted why p.
Definition gets {A} (f : TCanvasPainter -> A) : M A := fun p => Normal (f p) p.
Definition modify (f : TCanvasPainter -> TCanvasPainter) : M unit :=
  fun p => Normal tt (f p).
Definition emit (e : Effect) : M unit :=
  modify (fun p => set_fTrace (fTrace p ++ [e]) p).

(** the painter a method leaves behind, however it ended *)
Definition final {A} (o : Outcome A) : TCanvasPainter :=
  match o with
  | Normal _ p => p
  | Aborted _ p => p
  end.

End Painter.

Arguments TCanvasPainter : clear implicits.
Arguments Outcome : clear implicits.
Arguments M : clear implicits.
Arguments Normal {Win Canvas A} a p.
Arguments Aborted {Win Canvas A} why p.

Declare Scope painter_scope.
Delimit Scope painter_scope with painter.
Notation "x <- c ;; k" := (bind c (fun x => k))
  (at level 61, c at next level, right associativity) : painter_scope.
Notation "c ;; k" := (bind c (fun _ => k))
  (at level 61, right associativity) : painter_scope.

Section Methods.

Context {Win Canvas Drawable : Type}.
Context {window_ops : TWebWindow Win} {canvas_ops : RCanvas Canvas Drawable}.

Abbreviation Painter := (TCanvasPainter Win Canvas).
Abbreviation Run := (M Win Canvas).

Open Scope painter_scope.

(** a call of a [std::function]: the empty one throws *)
Definition call (f : CanvasCallback_t) (res : bool) : Run unit :=
  match f with
  | Some cb => emit (Invoke cb res)
  | None => raise (Exception "std::bad_function_call")
  end.

(** [if (callback) callback(res);] *)
Definition call_if_set (f : CanvasCallback_t) (res : bool) : Run unit :=
  match f with
  | Some cb => emit (Invoke cb res)
  | None => ret tt
  end.

(** [WebCommand::CallBack] *)
Definition WebCommand_CallBack (res : bool) (cmd : WebCommand.t) : Run WebCommand.t :=
  call_if_set (WebCommand.fCallback cmd) res ;;
  ret (WebCommand.set_fCallback None cmd).

(** [WebUpdate::CallBack] *)
Definition WebUpdate_CallBack (res : bool) (upd : WebUpdate.t) : Run WebUpdate.t :=
  call_if_set (WebUpdate.fCallback upd) res ;;
  ret (WebUpdate.set_fCallback None upd).

(** [fWindow->...]: the window behind the pointer *)
Definition window : Run Win :=
  fun p => match fWindow p with
           | Some w => Normal w p
           | None => Aborted (Undefined "fWindow is null") p
           end.

(** [l.empty()] *)
Definition empty {A} (l : list A) : bool :=
  match l with
  | [] => true
  | _ :: _ => false
  end.

(** [CheckDeliveredVersion] *)
Definition CheckDeliveredVersion (ver : Z) (p : Painter) : Z :=
  if (empty (fWebConn p) && fHadWebConn p)%bool then -1
  else if fSnapshotDelivered p >=? ver then 1
  else 0.

(** [CancelUpdates]: the loop calls [curr->fCallback(false)] without a test
    and erases [curr]; as every entry before [curr] is erased already, the
    list left after the erasure is the part behind [curr]. *)
Fixpoint CancelUpdates_loop (l : list WebUpdate.t) : Run unit :=
  match l with
  | [] => ret tt
  | curr :: rest =>
      call (WebUpdate.fCallback curr) false ;;
      modify (set_fUpdatesLst rest) ;;
      CancelUpdates_loop rest
  end.

Definition CancelUpdates : Run unit :=
  modify (set_fSnapshotDelivered 0) ;;
  l <- gets fUpdatesLst ;;
  CancelUpdates_loop l.

(** [CancelCommands]: the loop returns the commands it keeps; the erased ones
    are handed to [fReleased] with the flags the loop gave them. *)
Definition release (cmd : WebCommand.t) : Run unit :=
  modify (fun p => set_fReleased (fReleased p ++ [cmd])%list p).

Fixpoint CancelCommands_loop (connid : Z) (l : list WebCommand.t)
    : Run (list WebCommand.t) :=
  match l with
  | [] => ret []
  | cmd :: rest =>
      if ((connid =? 0) || (WebCommand.fConnId cmd =? connid))%bool then
        cmd' <- WebCommand_CallBack false cmd ;;
        release (WebCommand.set_fRunning false (WebCommand.set_fReady true cmd')) ;;
        CancelCommands_loop connid rest
      else
        kept <- CancelCommands_loop connid rest ;;
        ret (cmd :: kept)
  end.

Definition CancelCommands (connid : Z) : Run unit :=
  l <- gets fCmds ;;
  kept <- CancelCommands_loop connid l ;;
  modify (set_fCmds kept).

(** [FindDrawable]: the id up to an extra specifier behind [#] *)
Definition FindDrawable (can : Canvas) (id : string) : option Drawable :=
  let search :=
    match find_char "#" id with
    | Some pos => substring 0 pos id
    | None => id
    end in
  CanvasFindDrawable can search.

(** [CreateSnapshot]: the result is [std::string(res.Data())], the JSON
    text up to its first NUL *)
Definition CreateSnapshot : Run string :=
  can <- gets fCanvas ;;
  let res := ToJSON can in
  dump <- gets fNextDumpName ;;
  (if negb (String.eqb dump "") then
     emit (ExportToFile (c_str dump)) ;;
     modify (set_fNextDumpName "")
   else ret tt) ;;
  ret (c_str res).

(** the head of the queue when this connection may run it:
    [conn.fDrawReady && !fCmds.empty() && !fCmds.front()->fRunning &&
     (fCmds.front()->fConnId == 0 || fCmds.front()->fConnId == conn.fConnId)] *)
Definition front_to_run (conn : WebConn.t) (cmds : list WebCommand.t)
    : option (WebCommand.t * list WebCommand.t) :=
  match cmds with
  | cmd :: rest =>
      if (WebConn.fDrawReady conn && negb (WebCommand.fRunning cmd) &&
          ((WebCommand.fConnId cmd =? 0) ||
           (WebCommand.fConnId cmd =? WebConn.fConnId conn)))%bool
      then Some (cmd, rest) else None
  | [] => None
  end.

(** the choice of the payload for one connection that can take data:
    the connection as it is left, and [buf] *)
Definition choose_payload (conn : WebConn.t) : Run (WebConn.t * string) :=
  cmds <- gets fCmds ;;
  match front_to_run conn cmds with
  | Some (cmd, rest) =>
      let cmd := WebCommand.set_fConnId (WebConn.fConnId conn)
                   (WebCommand.set_fRunning true cmd) in
      modify (set_fCmds (cmd :: rest)) ;;
      ret (conn, "CMD:" ++ WebCommand.fId cmd ++ ":" ++ WebCommand.fName cmd)%string
  | None =>
      if negb (String.eqb (WebConn.fGetMenu conn) "") then
        can <- gets fCanvas ;;
        emit (DebugLog ("Request menu for object " ++ WebConn.fGetMenu conn)%string) ;;
        let buf :=
          match FindDrawable can (WebConn.fGetMenu conn) with
          | Some drawable =>
              ("MENU:" ++ WebConn.fGetMenu conn ++ ":" ++ ProduceJSON drawable)%string
          | None => ""
          end in
        ret (WebConn.set_fGetMenu "" conn, buf)
      else
        ver <- gets fSnapshotVersion ;;
        if negb (WebConn.fSend conn =? ver) then
          snap <- gets fSnapshot ;;
          ret (WebConn.set_fSend ver conn,
               ("SNAP:" ++ to_string ver ++ ":" ++ snap)%string)
        else ret (conn, "")
  end.

(** [fWindow->Send(conn.fConnId, buf.Data())] *)
Definition send (connid : Z) (buf : string) : Run unit :=
  w <- window ;;
  modify (set_fWindow (Some (Send w connid (c_str buf)))) ;;
  emit (SendTo connid (c_str buf)).

(** the part of [CheckDataToSend] that [min_delivered] takes from one
    connection *)
Definition next_min_delivered (min_delivered : Z) (conn : WebConn.t) : Z :=
  if (negb (WebConn.fDelivered conn =? 0) &&
      ((min_delivered =? 0) || (min_delivered <? WebConn.fDelivered conn)))%bool
  then WebConn.fDelivered conn
  else min_delivered.

(** one turn of the loop of [CheckDataToSend] *)
Definition CheckDataToSend_conn (conn : WebConn.t) (min_delivered : Z)
    : Run (WebConn.t * Z) :=
  let min_delivered := next_min_delivered min_delivered conn in
  w <- window ;;
  if negb (CanSend w (WebConn.fConnId conn)) then ret (conn, min_delivered)
  else
    r <- choose_payload conn ;;
    (if (0 <? Z.of_nat (String.length (snd r)))%Z then
       send (WebConn.fConnId conn) (snd r)
     else ret tt) ;;
    ret (fst r, min_delivered).

Fixpoint CheckDataToSend_loop (conns : list WebConn.t) (min_delivered : Z)
    : Run (list WebConn.t * Z) :=
  match conns with
  | [] => ret ([], min_delivered)
  | conn :: rest =>
      r <- CheckDataToSend_conn conn min_delivered ;;
      r' <- CheckDataToSend_loop rest (snd r) ;;
      ret (fst r :: fst r', snd r')
  end.

(** the loop that completes the updates a delivered version has reached *)
Fixpoint complete_updates (delivered : Z) (l : list WebUpdate.t)
    : Run (list WebUpdate.t) :=
  match l with
  | [] => ret []
  | curr :: rest =>
      if WebUpdate.fVersion curr <=? delivered then
        WebUpdate_CallBack true curr ;;
        complete_updates delivered rest
      else
        kept <- complete_updates delivered rest ;;
        ret (curr :: kept)
  end.

(** [CheckDataToSend] *)
Definition CheckDataToSend : Run unit :=
  conns <- gets fWebConn ;;
  r <- CheckDataToSend_loop conns 0 ;;
  modify (set_fWebConn (fst r)) ;;
  let min_delivered := snd r in
  delivered <- gets fSnapshotDelivered ;;
  if (empty (fst r) && negb (delivered =? 0))%bool then CancelUpdates
  else if negb (delivered =? min_delivered) then
    modify (set_fSnapshotDelivered min_delivered) ;;
    l <- gets fUpdatesLst ;;
    kept <- complete_updates min_delivered l ;;
    modify (set_fUpdatesLst kept)
  else ret tt.

(** [CreateWindow] *)
Definition CreateWindow : Run unit :=
  w <- gets fWindow ;;
  match w with
  | Some _ => ret tt
  | None => modify (set_fWindow (Some ManagerCreateWindow))
  end.

(** [CanvasUpdated].  The method is modelled up to its last statement, the
    call of [fWindow->WaitFor] made when [async] is false: that call hands
    control to the window, which polls [CheckDeliveredVersion ver] while it
    delivers further messages to [ProcessData]. *)
Definition CanvasUpdated (ver : Z) (async : bool) (callback : CanvasCallback_t)
    : Run unit :=
  modify (fun p => set_fWindow (option_map Sync (fWindow p)) p) ;;
  delivered <- gets fSnapshotDelivered ;;
  if (negb (ver =? 0) && negb (delivered =? 0) && (ver <=? delivered))%bool then
    call_if_set callback true
  else
    modify (set_fSnapshotVersion ver) ;;
    snap <- CreateSnapshot ;;
    modify (set_fSnapshot snap) ;;
    w <- gets fWindow ;;
    if match w with
       | None => true
       | Some w => negb (IsShown w)
       end
    then call_if_set callback false
    else
      CheckDataToSend ;;
      match callback with
      | Some _ =>
          modify (fun p => set_fUpdatesLst
                             (fUpdatesLst p ++ [WebUpdate.Build ver callback])%list p)
      | None => ret tt
      end.

(** [DoWhenReady], up to the call of [fWindow->WaitFor] made when [async]
    is false (see [DoWhenReady_poll] and [DoWhenReady_done]). *)
Definition DoWhenReady (name arg : string) (async : bool)
    (callback : CanvasCallback_t) : Run unit :=
  if String.eqb name "JSON" then
    modify (set_fNextDumpName arg)
  else
    CreateWindow ;;
    w <- window ;;
    let connid := fst (MakeBatch w) in
    modify (set_fWindow (Some (snd (MakeBatch w)))) ;;
    if connid =? 0 then call_if_set callback false
    else
      cnt <- gets fCmdsCnt ;;
      modify (set_fCmdsCnt (wrap64 (cnt + 1))) ;;
      let cmd := WebCommand.make (to_string (wrap64 (cnt + 1))) name arg callback
                   connid in
      modify (fun p => set_fCmds (fCmds p ++ [cmd])%list p) ;;
      CheckDataToSend.

(** the command object with identifier [id] as a holder of its
    [shared_ptr] sees it: in the queue, or released from it *)
Definition find_command (id : string) (p : Painter) : option WebCommand.t :=
  find (fun c => String.eqb (WebCommand.fId c) id) (fCmds p ++ fReleased p)%list.

(** the function [DoWhenReady] gives to [WaitFor]: [cmd] is the command as
    it is now, [w] the window, [tm] the time waited so far *)
Definition DoWhenReady_poll (cmd : WebCommand.t) (w : Win) (tm : Q) : Z :=
  if WebCommand.fReady cmd then
    (if WebCommand.fResult cmd then 1 else -1)
  else if negb (HasConnection w (WebCommand.fConnId cmd)) then -2
  else if negb (Qle_bool tm 100) then -3
  else 0.

(** the end of a blocking [DoWhenReady], once [WaitFor] returned [res] *)
Definition DoWhenReady_done (name arg : string) (res : Z) : Run unit :=
  if res <=? 0 then
    emit (ErrorLog (name ++ " fail with " ++ arg ++ " result = "
                      ++ int_to_string res)%string)
  else ret tt.

(** [SaveCreatedFile] *)
Definition SaveCreatedFile (reply : string) : Run unit :=
  match find_char ":" reply with
  | None => emit (ErrorLog "SaveCreatedFile does not found ':' separator")
  | Some O => emit (ErrorLog "SaveCreatedFile does not found ':' separator")
  | Some pos =>
      let fname := substring 0 pos reply in
      let reply := erase_front (pos + 1) reply in
      let binary := TBase64_Decode (c_str reply) in
      emit (WriteFile (c_str fname) binary) ;;
      emit (InfoLog (" Save file from GUI " ++ fname ++ " len "
                       ++ to_string (Z.of_nat (String.length binary)))%string)
  end.

(** [FrontCommandReplied] *)
Definition FrontCommandReplied (reply : string) : Run unit :=
  cmds <- gets fCmds ;;
  match cmds with
  | [] => raise (Undefined "front() of an empty list")
  | cmd :: rest =>
      modify (set_fCmds rest) ;;
      let cmd := WebCommand.set_fReady true cmd in
      result <-
        (if (String.eqb (WebCommand.fName cmd) "SVG" ||
             String.eqb (WebCommand.fName cmd) "PNG" ||
             String.eqb (WebCommand.fName cmd) "JPEG")%bool then
           if Nat.eqb (String.length reply) 0 then
             emit (ErrorLog ("Fail to produce image" ++ WebCommand.fArg cmd)%string) ;;
             ret false
           else
             let content := TBase64_Decode (c_str reply) in
             emit (WriteFile (c_str (WebCommand.fArg cmd)) content) ;;
             emit (InfoLog (WebCommand.fName cmd ++ " create file "
                              ++ WebCommand.fArg cmd ++ " length "
                              ++ to_string (Z.of_nat (String.length content)))%string) ;;
             ret true
         else if starts_with "ADDPANEL:" (WebCommand.fName cmd) then
           emit (DebugLog ("get reply for ADDPANEL " ++ reply)%string) ;;
           ret (String.eqb reply "true")
         else
           emit (ErrorLog ("Unknown command " ++ WebCommand.fName cmd)%string) ;;
           ret false) ;;
      cmd' <- WebCommand_CallBack result (WebCommand.set_fResult result cmd) ;;
      release cmd'
  end.

(** the search of [ProcessData] for the connection: the entries before the
    first one with the id, that entry, and the entries behind it *)
Fixpoint find_conn (connid : Z) (l : list WebConn.t)
    : option (list WebConn.t * WebConn.t * list WebConn.t) :=
  match l with
  | [] => None
  | c :: rest =>
      if WebConn.fConnId c =? connid then Some ([], c, rest)
      else match find_conn connid rest with
           | Some (before, conn, after) => Some (c :: before, conn, after)
           | None => None
           end
  end.

(** the id in front of the first [:] of a reply, and what is behind it *)
Definition reply_id (sid : string) : string :=
  match find_char ":" sid with
  | Some i => substring 0 i sid
  | None => ""
  end.

(** the branches of [ProcessData] for a message of a known connection,
    found as [conn] between [before] and [after]; [false] is returned by the
    one branch that leaves the method at once *)
Definition ProcessData_branch (connid : Z) (arg : string)
    (before : list WebConn.t) (conn : WebConn.t) (after : list WebConn.t)
    : Run bool :=
  let store (c : WebConn.t) : Run unit :=
    modify (set_fWebConn (before ++ c :: after)%list) in
  if String.eqb arg "CONN_CLOSED" then
    modify (set_fWebConn (before ++ after)%list) ;;
    CancelCommands connid ;;
    ret true
  else if starts_with "READY" arg then
    ret true
  else if starts_with "SNAPDONE:" arg then
    let cdata := erase_front 9 arg in
    store (WebConn.set_fDrawReady true conn) ;;
    match stoll cdata with
    | inl v =>
        store (WebConn.set_fDelivered (wrap64 v) (WebConn.set_fDrawReady true conn)) ;;
        ret true
    | inr exn => raise exn
    end
  else if starts_with "RREADY:" arg then
    store (WebConn.set_fDrawReady true conn) ;;
    ret true
  else if starts_with "GETMENU:" arg then
    store (WebConn.set_fGetMenu (erase_front 8 arg) conn) ;;
    ret true
  else if String.eqb arg "QUIT" then
    emit Terminate ;;
    ret false
  else if String.eqb arg "RELOAD" then
    store (WebConn.set_fSend 0 conn) ;;
    ret true
  else if String.eqb arg "INTERRUPT" then
    emit SetInterrupt ;;
    ret true
  else if starts_with "REPLY:" arg then
    let sid := c_str (erase_front 6 arg) in
    let id := reply_id sid in
    cmds <- gets fCmds ;;
    match cmds with
    | [] =>
        emit (ErrorLog "Get REPLY without command") ;;
        ret true
    | front :: _ =>
        if negb (WebCommand.fRunning front) then
          emit (ErrorLog "Front command is not running when get reply") ;;
          ret true
        else if negb (String.eqb (WebCommand.fId front) id) then
          emit (ErrorLog "Mismatch with front command and ID in REPLY") ;;
          ret true
        else
          match find_char ":" sid with
          | Some i =>
              FrontCommandReplied (erase_front (i + 1) sid) ;;
              ret true
          | None => raise (Undefined "separ is null")
          end
    end
  else if starts_with "SAVE:" arg then
    SaveCreatedFile (erase_front 5 arg) ;;
    ret true
  else if starts_with "OBJEXEC:" arg then
    let cdata := erase_front 8 arg in
    match find_char ":" cdata with
    | None => ret true
    | Some O => ret true
    | Some pos =>
        let id := substring 0 pos cdata in
        let cdata := erase_front (pos + 1) cdata in
        can <- gets fCanvas ;;
        match FindDrawable can id with
        | Some drawable =>
            if negb (Nat.eqb (String.length cdata) 0) then
              emit (DebugLog ("execute " ++ cdata ++ " for drawable " ++ id)%string) ;;
              modify (set_fCanvas (Execute can drawable cdata)) ;;
              emit (ExecuteOn id cdata) ;;
              ret true
            else if String.eqb id "canvas" then
              emit (DebugLog ("execute " ++ cdata
                                ++ " for canvas itself (ignored)")%string) ;;
              ret true
            else ret true
        | None =>
            if String.eqb id "canvas" then
              emit (DebugLog ("execute " ++ cdata
                                ++ " for canvas itself (ignored)")%string) ;;
              ret true
            else ret true
        end
    end
  else
    emit (ErrorLog ("Got not recognized reply" ++ arg)%string) ;;
    ret true.

(** [ProcessData] *)
Definition ProcessData (connid : Z) (arg : string) : Run unit :=
  if String.eqb arg "CONN_READY" then
    modify (fun p => set_fWebConn (fWebConn p ++ [WebConn.make connid])%list p) ;;
    modify (set_fHadWebConn true) ;;
    CheckDataToSend
  else
    conns <- gets fWebConn ;;
    match find_conn connid conns with
    | None => ret tt
    | Some (before, conn, after) =>
        continue <- ProcessData_branch connid arg before conn after ;;
        if continue then CheckDataToSend else ret tt
    end.

(** [NewDisplay] *)
Definition NewDisplay (where_ : string) : Run unit :=
  CreateWindow ;;
  w <- window ;;
  modify (set_fWindow (Some (Show w where_))).

(** [NumDisplays] *)
Definition NumDisplays (p : Painter) : Z :=
  match fWindow p with
  | None => 0
  | Some w => NumConnections w
  end.

(** [IsCanvasModified] *)
Definition IsCanvasModified (id : Z) (p : Painter) : bool :=
  negb (fSnapshotDelivered p =? id).

(** [AddPanel] *)
Definition AddPanel (win : Win) : Run bool :=
  w <- gets fWindow ;;
  match w with
  | None =>
      emit (ErrorLog "Canvas not yet shown in AddPanel") ;;
      ret false
  | Some w =>
      if negb (IsShown w) then
        emit (ErrorLog "Canvas window was not shown to call AddPanel") ;;
        ret false
      else
        let addr := RelativeAddr w win in
        if Nat.eqb (String.length addr) 0 then
          emit (ErrorLog "Cannot attach panel to canvas") ;;
          ret false
        else
          DoWhenReady ("ADDPANEL:" ++ addr)%string "AddPanel" true None ;;
          ret true
  end.

(** [~TCanvasPainter] *)
Definition destructor : Run unit :=
  CancelCommands 0 ;;
  CancelUpdates ;;
  modify (fun p => set_fWindow (option_map CloseConnections (fWindow p)) p).

End Methods.

(** ** The painter in use: calls of its methods and messages of the window *)

Section Events.

Context {Win Canvas Drawable : Type}.
Context {window_ops : TWebWindow Win} {canvas_ops : RCanvas Canvas Drawable}.

Abbreviation Painter := (TCanvasPainter Win Canvas).
Abbreviation Run := (M Win Canvas).

Open Scope painter_scope.

Inductive Event : Type :=
| CallCanvasUpdated (ver : Z) (async : bool) (callback : CanvasCallback_t)
| CallDoWhenReady (name arg : string) (async : bool) (callback : CanvasCallback_t)
| DoneDoWhenReady (name arg : string) (res : Z)  (* a blocking DoWhenReady ends *)
| CallNewDisplay (where_ : string)
| CallAddPanel (win : Win)
| DataCallBack (connid : Z) (arg : string)       (* the window calls ProcessData *)
| WindowActivity (f : Win -> Win)                (* the channel layer on its own *)
| CanvasChanged (can : Canvas).                  (* the user draws on the canvas *)

(** The data callback exists once [CreateWindow] installed it on the window;
    before that no message can reach [ProcessData]. *)
Definition handle (ev : Event) : Run unit :=
  match ev with
  | CallCanvasUpdated ver async callback => CanvasUpdated ver async callback
  | CallDoWhenReady name arg async callback => DoWhenReady name arg async callback
  | DoneDoWhenReady name arg res => DoWhenReady_done name arg res
  | CallNewDisplay where_ => NewDisplay where_
  | CallAddPanel win => AddPanel win ;; ret tt
  | DataCallBack connid arg =>
      w <- gets fWindow ;;
      match w with
      | Some _ => ProcessData connid arg
      | None => ret tt
      end
  | WindowActivity f => modify (fun p => set_fWindow (option_map f (fWindow p)) p)
  | CanvasChanged can => modify (set_fCanvas can)
  end.

Definition step (p : Painter) (ev : Event) : Painter := final (handle ev p).

Definition run (evs : list Event) (p : Painter) : Painter := fold_left step evs p.

(** the states a painter can be in *)
Inductive reachable : Painter -> Prop :=
| reachable_new (canv : Canvas) : reachable (new_TCanvasPainter canv)
| reachable_step (p : Painter) (ev : Event) :
    reachable p -> reachable (step p ev).

End Events.

Arguments Event : clear implicits.

(** ** A small window and canvas to run the painter on *)

Module Demo.

(** a window that is shown or not, refuses data for the connections in
    [busy], hands out [batch] as the id of the next batch job, and keeps
    what was sent *)
Record Window : Type := BuildWindow {
  shown : bool;
  busy : list Z;
  batch : Z;
  outbox : list (Z * string)
}.

Definition set_busy (l : list Z) (w : Window) : Window :=
  BuildWindow (shown w) l (batch w) (outbox w).

Definition ManagerWindow : Window := BuildWindow false [] 1 [].

#[global] Instance window_ops : TWebWindow Window := {
  ManagerCreateWindow := ManagerWindow;
  CanSend w connid := negb (existsb (Z.eqb connid) (busy w));
  Send w connid buf := BuildWindow (shown w) (busy w) (batch w)
                         (outbox w ++ [(connid, buf)]);
  Sync w := w;
  IsShown w := shown w;
  MakeBatch w := (batch w, BuildWindow (shown w) (busy w) (batch w + 1) (outbox w));
  HasConnection w connid := true;
  CloseConnections w := w;
  Show w where_ := BuildWindow true (busy w) (batch w) (outbox w);
  NumConnections w := 0;
  RelativeAddr w win := "../panel/"
}.

(** a canvas with a fixed JSON text and the menus of its drawables;
    base64 is left undecoded *)
Record Canvas : Type := BuildCanvas {
  json : string;
  menus : list (string * string)
}.

#[global] Instance canvas_ops : RCanvas Canvas string := {
  ToJSON can := json can;
  CanvasFindDrawable can id :=
    option_map snd (find (fun d => String.eqb (fst d) id) (menus can));
  ProduceJSON drawable := drawable;
  Execute can drawable cdata := can;
  TBase64_Decode s := s
}.

Definition canvas : Canvas := BuildCanvas "{}" [("obj1", "[]")].

Definition painter : TCanvasPainter Window Canvas := new_TCanvasPainter canvas.

End Demo.

(** * The vocabulary of the properties *)

(** the effect of [if (f) f(res)] *)
Definition fire (f : CanvasCallback_t) (res : bool) : list Effect :=
  match f with
  | Some cb => [Invoke cb res]
  | None => []
  end.

(** [CancelCommands(connid)] takes this command *)
Definition cancels (connid : Z) (cmd : WebCommand.t) : bool :=
  ((connid =? 0) || (WebCommand.fConnId cmd =? connid))%bool.

(** a cancelled command as [CancelCommands] leaves it *)
Definition cancelled (cmd : WebCommand.t) : WebCommand.t :=
  WebCommand.set_fRunning false
    (WebCommand.set_fReady true (WebCommand.set_fCallback None cmd)).

(** the version [delivered] completes this update *)
Definition reached (delivered : Z) (upd : WebUpdate.t) : bool :=
  WebUpdate.fVersion upd <=? delivered.

Definition has_callback (upd : WebUpdate.t) : Prop :=
  WebUpdate.fCallback upd <> None.

(** the callbacks called in a trace, in order *)
Definition callbacks (tr : list Effect) : list (nat * bool) :=
  flat_map (fun e => match e with
                     | Invoke cb res => [(cb, res)]
                     | _ => []
                     end) tr.

(** the messages sent in a trace, in order *)
Definition sent (tr : list Effect) : list (Z * string) :=
  flat_map (fun e => match e with
                     | SendTo connid buf => [(connid, buf)]
                     | _ => []
                     end) tr.

(** what a push pass may do to the queue: nothing, or start its head *)
Definition dispatched (l l' : list WebCommand.t) : Prop :=
  l' = l \/
  exists cmd rest connid,
    l = cmd :: rest /\ WebCommand.fRunning cmd = false /\
    l' = WebCommand.set_fConnId connid (WebCommand.set_fRunning true cmd) :: rest.

(** what a push pass keeps of a connection *)
Definition conn_kept (c c' : WebConn.t) : Prop :=
  WebConn.fConnId c' = WebConn.fConnId c /\
  WebConn.fDelivered c' = WebConn.fDelivered c /\
  WebConn.fDrawReady c' = WebConn.fDrawReady c.

(** an effect that is a message to a connection or a debug line *)
Definition quiet (e : Effect) : Prop :=
  match e with
  | SendTo _ _ => True
  | DebugLog _ => True
  | _ => False
  end.

(** [l1] is [l2] with some elements left out *)
Inductive subseq {A : Type} : list A -> list A -> Prop :=
| subseq_nil : subseq [] []
| subseq_skip (x : A) (l1 l2 : list A) : subseq l1 l2 -> subseq l1 (x :: l2)
| subseq_take (x : A) (l1 l2 : list A) : subseq l1 l2 -> subseq (x :: l1) (x :: l2).

(** the callback [f] is the callable with tag [t] *)
Definition tagged (t : nat) (f : CanvasCallback_t) : bool :=
  match f with
  | Some cb => Nat.eqb cb t
  | None => false
  end.

Definition count {A : Type} (f : A -> bool) (l : list A) : nat :=
  List.length (filter f l).

(** how often the callable [t] was called in a trace *)
Definition fired (t : nat) (tr : list Effect) : nat :=
  count (fun e => Nat.eqb (fst e) t) (callbacks tr).

(** only the head of the queue may be running *)
Definition single_flight (cmds : list WebCommand.t) : Prop :=
  Forall (fun c => WebCommand.fRunning c = false) (tl cmds).

(** the reply with this id is not one to the running head of the queue *)
Definition rejected (cmds : list WebCommand.t) (id : string) : Prop :=
  match cmds with
  | [] => True
  | front :: _ => WebCommand.fRunning front = false \/ WebCommand.fId front <> id
  end.

(** a payload, as the description of the push pass names them *)
Inductive Payload : Type :=
| CommandPayload (id name : string)
| MenuPayload (target json : string)
| SnapshotPayload (ver : Z) (snap : string).

Definition payload_text (pl : Payload) : string :=
  match pl with
  | CommandPayload id name => "CMD:" ++ id ++ ":" ++ name
  | MenuPayload target json => "MENU:" ++ target ++ ":" ++ json
  | SnapshotPayload ver snap => "SNAP:" ++ to_string ver ++ ":" ++ snap
  end.

Section Vocabulary.

Context {Win Canvas Drawable : Type}.
Context {window_ops : TWebWindow Win} {canvas_ops : RCanvas Canvas Drawable}.

Abbreviation Painter := (TCanvasPainter Win Canvas).

(** the state a push pass reaches from [p]: a window, a queue and a longer
    trace, everything else as in [p] *)
Definition pushed (w' : option Win) (cmds' : list WebCommand.t) (tr : list Effect)
    (p : Painter) : Painter :=
  set_fTrace (fTrace p ++ tr) (set_fCmds cmds' (set_fWindow w' p)).

(** [min_delivered] at the end of the loop over [conns] *)
Definition end_min_delivered (conns : list WebConn.t) : Z :=
  fold_left next_min_delivered conns 0.

(** what the end of [CheckDataToSend] does with the pending updates: the
    updates kept, and the calls made *)
Definition settle (delivered : Z) (conns : list WebConn.t)
    (upds : list WebUpdate.t) : list WebUpdate.t * list Effect :=
  if (empty conns && negb (delivered =? 0))%bool then
    ([], flat_map (fun u => fire (WebUpdate.fCallback u) false) upds)
  else if negb (delivered =? end_min_delivered conns) then
    (filter (fun u => negb (reached (end_min_delivered conns) u)) upds,
     flat_map (fun u => fire (WebUpdate.fCallback u) true)
       (filter (reached (end_min_delivered conns)) upds))
  else (upds, []).

(** the painter after a push pass *)
Definition passed (w' : option Win) (cmds' : list WebCommand.t)
    (conns' : list WebConn.t) (tr : list Effect) (p : Painter) : Painter :=
  let s := settle (fSnapshotDelivered p) (fWebConn p) (fUpdatesLst p) in
  set_fUpdatesLst (fst s)
    (set_fSnapshotDelivered (end_min_delivered (fWebConn p))
       (set_fWebConn conns' (pushed w' cmds' (tr ++ snd s) p))).

(** On every painter in use: only the head of the queue may be running;
    where there is a connection there is a window, and the painter knows it
    had a connection; every pending update has a callback. *)
Definition Inv0 (p : Painter) : Prop :=
  single_flight (fCmds p) /\
  (fWebConn p <> [] -> fWindow p <> None /\ fHadWebConn p = true) /\
  Forall has_callback (fUpdatesLst p).

(** the delivered version is the one the last push pass computed *)
Definition settled (p : Painter) : Prop :=
  fSnapshotDelivered p = end_min_delivered (fWebConn p).

Definition Inv (p : Painter) : Prop := Inv0 p /\ settled p.

(** the callable [t]: calls made, plus calls still owed by the queue and by
    the pending updates *)
Definition pending (t : nat) (p : Painter) : nat :=
  (count (fun c => tagged t (WebCommand.fCallback c)) (fCmds p) +
   count (fun u => tagged t (WebUpdate.fCallback u)) (fUpdatesLst p))%nat.

Definition balance (t : nat) (p : Painter) : nat :=
  (fired t (fTrace p) + pending t p)%nat.

(** the callbacks a [DoWhenReady] has to call, sooner or later *)
Definition owed_by_command (t : nat) (name : string) (callback : CanvasCallback_t)
    : nat :=
  if String.eqb name "JSON" then 0%nat
  else if tagged t callback then 1%nat else 0%nat.

(** what a branch of [ProcessData] leaves: when the push pass follows, the
    delivered version may be out of date *)
Definition branch_ok (t : nat) (p : Painter) (o : Outcome Win Canvas bool) : Prop :=
  match o with
  | Normal true q => Inv0 q /\ balance t q = balance t p
  | Normal false q => Inv q /\ balance t q = balance t p
  | Aborted _ q => Inv q /\ balance t q = balance t p
  end.

(** the callbacks a call of a method has to call, sooner or later *)
Definition owed (t : nat) (ev : Event Win Canvas) : nat :=
  match ev with
  | CallCanvasUpdated _ _ callback => if tagged t callback then 1%nat else 0%nat
  | CallDoWhenReady name _ _ callback => owed_by_command t name callback
  | _ => 0%nat
  end.

Definition owed_all (t : nat) (evs : list (Event Win Canvas)) : nat :=
  fold_right (fun ev n => (owed t ev + n)%nat) 0%nat evs.

(** Following the words of the description: the payload for a connection
    that can take data is (1) the command at the head of the queue when the
    connection may run it, else (2) for a pending menu request the menu of
    the requested drawable, when the canvas has it, else (3) the snapshot
    when the connection was sent another version. *)
Definition payload_by_priority (p : Painter) (conn : WebConn.t) : option Payload :=
  match front_to_run conn (fCmds p) with
  | Some (cmd, _) =>
      Some (CommandPayload (WebCommand.fId cmd) (WebCommand.fName cmd))
  | None =>
      if negb (String.eqb (WebConn.fGetMenu conn) "") then
        match FindDrawable (fCanvas p) (WebConn.fGetMenu conn) with
        | Some drawable =>
            Some (MenuPayload (WebConn.fGetMenu conn) (ProduceJSON drawable))
        | None => None
        end
      else if negb (WebConn.fSend conn =? fSnapshotVersion p) then
        Some (SnapshotPayload (fSnapshotVersion p) (fSnapshot p))
      else None
  end.

(** the connection after its turn, when it could take data *)
Definition conn_after_turn (p : Painter) (conn : WebConn.t) : WebConn.t :=
  match front_to_run conn (fCmds p) with
  | Some _ => conn
  | None =>
      if negb (String.eqb (WebConn.fGetMenu conn) "") then
        WebConn.set_fGetMenu "" conn
      else if negb (WebConn.fSend conn =? fSnapshotVersion p) then
        WebConn.set_fSend (fSnapshotVersion p) conn
      else conn
  end.

(** the queue after the turn of a connection that could take data *)
Definition cmds_after_turn (p : Painter) (conn : WebConn.t) : list WebCommand.t :=
  match front_to_run conn (fCmds p) with
  | Some (cmd, rest) =>
      WebCommand.set_fConnId (WebConn.fConnId conn)
        (WebCommand.set_fRunning true cmd) :: rest
  | None => fCmds p
  end.

(** what a push pass, or a part of it, leaves: the connections it visited,
    the window, the queue, and the messages it sent *)
Record Pass : Type := BuildPass {
  visited : list WebConn.t;
  window_left : Win;
  queue_left : list WebCommand.t;
  messages : list (Z * string)
}.

(** Following the words of the description: the turn of one connection in a
    push pass that found the window [w] and the painter [p].  A connection
    whose channel cannot take data is skipped: nothing changes.  Any other
    connection is sent the payload chosen by priority, when there is one. *)
Definition turn_by_priority (w : Win) (p : Painter) (conn : WebConn.t) : Pass :=
  if CanSend w (WebConn.fConnId conn) then
    match payload_by_priority p conn with
    | Some pl =>
        BuildPass [conn_after_turn p conn]
          (Send w (WebConn.fConnId conn) (c_str (payload_text pl)))
          (cmds_after_turn p conn)
          [(WebConn.fConnId conn, c_str (payload_text pl))]
    | None => BuildPass [conn_after_turn p conn] w (cmds_after_turn p conn) []
    end
  else BuildPass [conn] w (fCmds p) [].

(** Following the words of the description: the connections are visited in
    the order of the list, each with the window and the queue that the turn
    before left. *)
Fixpoint pass_by_priority (conns : list WebConn.t) (w : Win) (p : Painter) : Pass :=
  match conns with
  | [] => BuildPass [] w (fCmds p) []
  | conn :: rest =>
      let turn := turn_by_priority w p conn in
      let pass := pass_by_priority rest (window_left turn)
                    (set_fCmds (queue_left turn) p) in
      BuildPass (visited turn ++ visited pass) (window_left pass) (queue_left pass)
        (messages turn ++ messages pass)
  end.

End Vocabulary.

(** * Scenarios on the small window and canvas *)

Module ScenarioD.
Import Demo.

(** two viewers connect; the first acknowledges version 3, the second
    version 2 *)
Definition events : list (Event Window Canvas) :=
  [CallNewDisplay "";
   DataCallBack 1 "CONN_READY"; DataCallBack 2 "CONN_READY";
   DataCallBack 1 "SNAPDONE:3"; DataCallBack 2 "SNAPDONE:2"].

Definition after : TCanvasPainter Window Canvas := run events painter.
End ScenarioD.

Module ScenarioFastPath.
Import Demo.

(** one viewer acknowledged version 3 *)
Definition before : TCanvasPainter Window Canvas :=
  run [CallNewDisplay ""; DataCallBack 1 "CONN_READY"; DataCallBack 1 "SNAPDONE:3"]
    painter.
End ScenarioFastPath.

Module ScenarioUnknown.
Import Demo.

(** one viewer, with id 1 *)
Definition before : TCanvasPainter Window Canvas :=
  run [CallNewDisplay ""; DataCallBack 1 "CONN_READY"] painter.
End ScenarioUnknown.

Module ScenarioC.
Import Demo.

(** a PNG export is asked for; its batch viewer connects, reports its first
    drawing, and is sent the command *)
Definition before : TCanvasPainter Window Canvas :=
  run [CallDoWhenReady "PNG" "/tmp/out.png" true (Some 7%nat);
       DataCallBack 1 "CONN_READY"; DataCallBack 1 "RREADY:"] painter.

Definition head : WebCommand.t :=
  WebCommand.Build "1" "PNG" "/tmp/out.png" true false false (Some 7%nat) 1.
End ScenarioC.

Module ScenarioLostViewer.
Import Demo.

(** a viewer connects, an update to version 5 is asked for with a callback,
    and the viewer disconnects before it acknowledged anything *)
Definition events : list (Event Window Canvas) :=
  [CallNewDisplay ""; DataCallBack 1 "CONN_READY";
   CallCanvasUpdated 5 true (Some 7%nat); DataCallBack 1 "CONN_CLOSED"].

Definition after : TCanvasPainter Window Canvas := run events painter.
End ScenarioLostViewer.

Module ScenarioStaleReply.
Import Demo.

(** a PNG export waits for its batch viewer, whose channel cannot take data
    when the viewer reports its first drawing; the channel is free again
    when a reply arrives *)
Definition before : TCanvasPainter Window Canvas :=
  run [CallDoWhenReady "PNG" "/tmp/out.png" true (Some 7%nat);
       DataCallBack 1 "CONN_READY";
       WindowActivity (set_busy [1]); DataCallBack 1 "RREADY:";
       WindowActivity (set_busy [])] painter.

Definition head : WebCommand.t :=
  WebCommand.Build "1" "PNG" "/tmp/out.png" false false false (Some 7%nat) 1.
End ScenarioStaleReply.

Module ScenarioUnknownMenu.
Import Demo.

(** a viewer asks for the menu of a drawable the canvas does not have, and
    the canvas gets version 5, while the channel of the viewer cannot take
    data; then the channel is free again *)
Definition before : TCanvasPainter Window Canvas :=
  run [CallNewDisplay ""; DataCallBack 1 "CONN_READY";
       WindowActivity (set_busy [1]);
       CallCanvasUpdated 5 true None; DataCallBack 1 "GETMENU:nope";
       WindowActivity (set_busy [])] painter.

Definition conn : WebConn.t := WebConn.Build 1 false "nope" 0 0.

Definition window : Window := BuildWindow true [] 1 [].
End ScenarioUnknownMenu.

Module ScenarioTwoViewers.
Import Demo.

(** two viewers connect; while their channels cannot take data the canvas
    gets version 5 and the second viewer asks for the menu of a drawable;
    then the channels are free again *)
Definition before : TCanvasPainter Window Canvas :=
  run [CallNewDisplay "";
       DataCallBack 1 "CONN_READY"; DataCallBack 2 "CONN_READY";
       WindowActivity (set_busy [1; 2]);
       CallCanvasUpdated 5 true None; DataCallBack 2 "GETMENU:obj1";
       WindowActivity (set_busy [])] painter.

Definition window : Window := BuildWindow true [] 1 [].
End ScenarioTwoViewers.

Module ScenarioTimeout.
Import Demo.

(** a PNG export is asked for in a blocking call, with a callback *)
Definition waiting : TCanvasPainter Window Canvas :=
  run [CallDoWhenReady "PNG" "/tmp/out.png" false (Some 7%nat)] painter.

(** no viewer connects, and the wait of the call ends with a timeout *)
Definition after : TCanvasPainter Window Canvas :=
  step waiting (DoneDoWhenReady "PNG" "/tmp/out.png" (-3)).
End ScenarioTimeout.

Module ScenarioNoViewer.
Import Demo.

(** the canvas is shown in a window, and no viewer has connected yet *)
Definition before : TCanvasPainter Window Canvas := run [CallNewDisplay ""] painter.

(** an update to version 5 is asked for, with a callback *)
Definition after : TCanvasPainter Window Canvas :=
  step before (CallCanvasUpdated 5 false (Some 7%nat)).
End ScenarioNoViewer.

(** * More vocabulary: texts, the queue, the connections and what a method
    leaves alone *)

(** a text of decimal digits only *)
Fixpoint only_digits (s : string) : bool :=
  match s with
  | EmptyString => true
  | String c r => match digit_of c with
                  | Some _ => only_digits r
                  | None => false
                  end
  end.

(** a text without NUL *)
Fixpoint no_nul (s : string) : bool :=
  match s with
  | EmptyString => true
  | String a r => (negb (Ascii.eqb a zero) && no_nul r)%bool
  end.

(** the files written by [TBufferJSON::ExportToFile] in a trace, in order *)
Definition exported (tr : list Effect) : list string :=
  flat_map (fun e => match e with
                     | ExportToFile fname => [fname]
                     | _ => []
                     end) tr.

(** what was executed on drawables in a trace, in order *)
Definition executed (tr : list Effect) : list (string * string) :=
  flat_map (fun e => match e with
                     | ExecuteOn id cdata => [(id, cdata)]
                     | _ => []
                     end) tr.

(** what a push pass over [conns] may do to the queue: nothing, or start its
    head for a connection of the list that may run it *)
Definition started (conns : list WebConn.t) (l l' : list WebCommand.t) : Prop :=
  l' = l \/
  exists cmd rest conn,
    In conn conns /\ front_to_run conn l = Some (cmd, rest) /\
    l' = WebCommand.set_fConnId (WebConn.fConnId conn)
           (WebCommand.set_fRunning true cmd) :: rest.

(** what a call or a message does to the command counter and the queue
    before the push pass, and the commands it takes out of the queue as the
    other holders of their [shared_ptr] see them then: nothing; a command
    with the next number is put behind the others; the commands of a
    connection are cancelled; the running head is replied to *)
Inductive queue_change (cnt : Z) (l : list WebCommand.t)
    : Z -> list WebCommand.t -> list WebCommand.t -> Prop :=
| queue_kept : queue_change cnt l cnt l []
| queue_submitted (name arg : string) (callback : CanvasCallback_t) (connid : Z) :
    connid <> 0 ->
    queue_change cnt l (wrap64 (cnt + 1))
      (l ++ [WebCommand.make (to_string (wrap64 (cnt + 1))) name arg callback connid])
      []
| queue_cancelled (connid : Z) :
    queue_change cnt l cnt (filter (fun c => negb (cancels connid c)) l)
      (map cancelled (filter (cancels connid) l))
| queue_replied (cmd : WebCommand.t) (rest : list WebCommand.t) (result : bool) :
    l = cmd :: rest -> WebCommand.fRunning cmd = true ->
    queue_change cnt l cnt rest
      [WebCommand.set_fCallback None
         (WebCommand.set_fResult result (WebCommand.set_fReady true cmd))].

(** what a message does to the connections before the push pass *)
Inductive conns_change (l : list WebConn.t) : list WebConn.t -> Prop :=
| conns_same : conns_change l l
| conns_joined (connid : Z) : conns_change l (l ++ [WebConn.make connid])
| conns_left (before : list WebConn.t) (conn : WebConn.t) (after : list WebConn.t) :
    l = (before ++ conn :: after)%list -> conns_change l (before ++ after)
| conns_stored (before : list WebConn.t) (conn conn' : WebConn.t)
    (after : list WebConn.t) :
    l = (before ++ conn :: after)%list ->
    WebConn.fConnId conn' = WebConn.fConnId conn ->
    (WebConn.fDelivered conn' = WebConn.fDelivered conn \/
     exists v, WebConn.fDelivered conn' = wrap64 v) ->
    conns_change l (before ++ conn' :: after).

(** the command has an identifier *)
Definition named (cmd : WebCommand.t) : Prop := WebCommand.fId cmd <> "".

(** the identifier of the command is the decimal text of a number that a
    64-bit counter can hold *)
Definition numbered (cmd : WebCommand.t) : Prop :=
  exists n, 0 <= n < 2 ^ 64 /\ WebCommand.fId cmd = to_string n.

(** the command is bound to a connection *)
Definition bound (cmd : WebCommand.t) : Prop := WebCommand.fConnId cmd <> 0.

(** the acknowledged version is one that an unsigned 64-bit field can hold *)
Definition acknowledged_in_range (conn : WebConn.t) : Prop :=
  0 <= WebConn.fDelivered conn < 2 ^ 64.

(** the identifiers of the queue, front first *)
Definition ids (l : list WebCommand.t) : list string := map WebCommand.fId l.

(** a command as it waits in the queue: not ready, without result *)
Definition waiting (cmd : WebCommand.t) : Prop :=
  WebCommand.fReady cmd = false /\ WebCommand.fResult cmd = false.

(** a command as it left the queue: ready, its callback used up, and without
    result when it was cancelled *)
Definition finished (cmd : WebCommand.t) : Prop :=
  WebCommand.fReady cmd = true /\ WebCommand.fCallback cmd = None /\
  (WebCommand.fRunning cmd = false -> WebCommand.fResult cmd = false).

(** the result that [FrontCommandReplied] stores in a command with the name
    [name] for the text [reply] *)
Definition reply_result (name reply : string) : bool :=
  if (String.eqb name "SVG" || String.eqb name "PNG" || String.eqb name "JPEG")%bool
  then negb (Nat.eqb (String.length reply) 0)
  else if starts_with "ADDPANEL:" name then String.eqb reply "true"
  else false.

Section Relations.

Context {Win Canvas Drawable : Type}.
Context {window_ops : TWebWindow Win} {canvas_ops : RCanvas Canvas Drawable}.

Abbreviation Painter := (TCanvasPainter Win Canvas).

(** [R] relates the painter before a method to the painter the method
    leaves, however the method ended *)
Definition relates {A : Type} (R : Painter -> Painter -> Prop) (c : M Win Canvas A)
    : Prop :=
  forall p, R p (final (c p)).

(** the window of the painter once [CreateWindow] has run *)
Definition window_or_new (p : Painter) : Win :=
  match fWindow p with
  | Some w => w
  | None => ManagerCreateWindow
  end.

(** what a call or a message does to the queue, push pass included *)
Definition queue_step (p q : Painter) : Prop :=
  exists l gone conns,
    queue_change (fCmdsCnt p) (fCmds p) (fCmdsCnt q) l gone /\
    started conns l (fCmds q) /\ fReleased q = (fReleased p ++ gone)%list.

(** what a call or a message does to the connections, push pass included *)
Definition conns_step (p q : Painter) : Prop :=
  exists l, conns_change (fWebConn p) l /\ Forall2 conn_kept l (fWebConn q).

(** a method that ends abruptly does so in [std::stoll], on the version of
    an acknowledgement *)
Definition throws_in_stoll {A : Type} (ev : Event Win Canvas)
    (o : Outcome Win Canvas A) : Prop :=
  match o with
  | Normal _ _ => True
  | Aborted why _ =>
      exists connid arg,
        ev = DataCallBack connid arg /\ starts_with "SNAPDONE:" arg = true /\
        stoll (erase_front 9 arg) = inr why
  end.

(** what a branch of [ProcessData] leaves *)
Definition branch_shape (arg : string) (p : Painter) (o : Outcome Win Canvas bool)
    : Prop :=
  match o with
  | Normal _ q =>
      (exists gone,
         queue_change (fCmdsCnt p) (fCmds p) (fCmdsCnt q) (fCmds q) gone /\
         fReleased q = (fReleased p ++ gone)%list) /\
      conns_change (fWebConn p) (fWebConn q)
  | Aborted why q =>
      starts_with "SNAPDONE:" arg = true /\ stoll (erase_front 9 arg) = inr why /\
      fCmdsCnt q = fCmdsCnt p /\ fCmds q = fCmds p /\ fReleased q = fReleased p /\
      conns_change (fWebConn p) (fWebConn q)
  end.

(** On every painter in use, besides [Inv]: every queued command carries a
    number as its identifier and is bound to a connection; every
    acknowledged version is in the range of its field. *)
Definition Inv2 (p : Painter) : Prop :=
  Forall numbered (fCmds p) /\ Forall bound (fCmds p) /\
  Forall acknowledged_in_range (fWebConn p).

(** the identifiers of the queue are the texts of increasing numbers out of
    the range that the counter has passed *)
Definition ordered (p : Painter) : Prop :=
  0 <= fCmdsCnt p /\
  exists ns,
    ids (fCmds p) = map to_string ns /\ StronglySorted Z.lt ns /\
    Forall (fun n => 0 < n <= fCmdsCnt p) ns.

(** the test of [CanvasUpdated] for a version that is delivered already *)
Definition delivered_already (ver : Z) (p : Painter) : bool :=
  (negb (ver =? 0) && negb (fSnapshotDelivered p =? 0) &&
   (ver <=? fSnapshotDelivered p))%bool.

(** On every painter in use: the queued commands wait, and the commands
    that left the queue are finished. *)
Definition Inv3 (p : Painter) : Prop :=
  Forall waiting (fCmds p) /\ Forall finished (fReleased p).

(** the event is the message by which the window tells of a new connection *)
Definition connects (ev : Event Win Canvas) : Prop :=
  match ev with
  | DataCallBack _ arg => arg = "CONN_READY"
  | _ => False
  end.

(** what stays while no viewer connects: no connection, no delivered
    version, and the pending updates, behind which new ones may be put *)
Definition idle_kept (p q : Painter) : Prop :=
  fWebConn q = [] /\ fSnapshotDelivered q = 0 /\ fHadWebConn q = fHadWebConn p /\
  exists l, fUpdatesLst q = (fUpdatesLst p ++ l)%list.

(** the painter has a window, and it is shown once synced *)
Definition shown_window (p : Painter) : bool :=
  match fWindow p with
  | Some w => IsShown (Sync w)
  | None => false
  end.

End Relations.

(** * Properties *)

(** ** Traces, painters and the loops over the queue and the updates *)

Lemma callbacks_app (tr1 tr2 : list Effect) :
  callbacks (tr1 ++ tr2) = (callbacks tr1 ++ callbacks tr2)%list.
Proof. unfold callbacks. apply flat_map_app. Qed.

Lemma sent_app (tr1 tr2 : list Effect) :
  sent (tr1 ++ tr2) = (sent tr1 ++ sent tr2)%list.
Proof. unfold sent. apply flat_map_app. Qed.

(** unfolding of the plumbing of [M] *)
Ltac run_monad := cbv [bind ret raise gets modify emit release call call_if_set].

(** reading the fields of a painter written with the setters *)
Ltac fields :=
  cbn [fCanvas fWindow fWebConn fHadWebConn fCmds fCmdsCnt fSnapshotVersion
       fSnapshot fSnapshotDelivered fUpdatesLst fNextDumpName fReleased fTrace
       set_fCanvas set_fWindow set_fWebConn set_fHadWebConn set_fCmds
       set_fCmdsCnt set_fSnapshotVersion set_fSnapshot set_fSnapshotDelivered
       set_fUpdatesLst set_fNextDumpName set_fReleased set_fTrace fst snd].

Section Extensionality.

Context {Win Canvas Drawable : Type}.
Context {window_ops : TWebWindow Win} {canvas_ops : RCanvas Canvas Drawable}.

Abbreviation Painter := (TCanvasPainter Win Canvas).

Lemma painter_ext (p q : Painter) :
  fCanvas p = fCanvas q -> fWindow p = fWindow q -> fWebConn p = fWebConn q ->
  fHadWebConn p = fHadWebConn q -> fCmds p = fCmds q -> fCmdsCnt p = fCmdsCnt q ->
  fSnapshotVersion p = fSnapshotVersion q -> fSnapshot p = fSnapshot q ->
  fSnapshotDelivered p = fSnapshotDelivered q -> fUpdatesLst p = fUpdatesLst q ->
  fNextDumpName p = fNextDumpName q -> fReleased p = fReleased q ->
  fTrace p = fTrace q ->
  p = q.
Proof. destruct p, q; simpl; intros; subst; reflexivity. Qed.

End Extensionality.

(** equality of two painters, field by field *)
Ltac painter_eq :=
  apply painter_ext; fields; rewrite <- ?app_assoc, ?app_nil_r; try reflexivity.

Section LoopFacts.

Context {Win Canvas Drawable : Type}.
Context {window_ops : TWebWindow Win} {canvas_ops : RCanvas Canvas Drawable}.

Abbreviation Painter := (TCanvasPainter Win Canvas).

Lemma CancelCommands_loop_eq (connid : Z) (l : list WebCommand.t) (p : Painter) :
  CancelCommands_loop connid l p =
  Normal (filter (fun c => negb (cancels connid c)) l)
    (set_fTrace
       (fTrace p ++ flat_map (fun c => fire (WebCommand.fCallback c) false)
                      (filter (cancels connid) l))
       (set_fReleased (fReleased p ++ map cancelled (filter (cancels connid) l)) p)).
Proof.
  revert p. induction l as [|cmd rest IH]; intros p.
  - cbn [CancelCommands_loop filter flat_map map]. unfold ret. f_equal. painter_eq.
  - cbn [CancelCommands_loop filter]. fold (cancels connid cmd).
    destruct (cancels connid cmd) eqn:Hc; cbn [negb flat_map map].
    + unfold WebCommand_CallBack.
      destruct (WebCommand.fCallback cmd) as [cb|] eqn:Hcb;
        run_monad; rewrite IH; f_equal; painter_eq.
    + unfold bind. rewrite IH. reflexivity.
Qed.

Lemma CancelCommands_eq (connid : Z) (p : Painter) :
  CancelCommands connid p =
  Normal tt
    (set_fCmds (filter (fun c => negb (cancels connid c)) (fCmds p))
       (set_fTrace
          (fTrace p ++ flat_map (fun c => fire (WebCommand.fCallback c) false)
                         (filter (cancels connid) (fCmds p)))
          (set_fReleased
             (fReleased p ++ map cancelled (filter (cancels connid) (fCmds p))) p))).
Proof.
  unfold CancelCommands, bind, gets, modify.
  rewrite CancelCommands_loop_eq. reflexivity.
Qed.

Lemma complete_updates_eq (delivered : Z) (l : list WebUpdate.t) (p : Painter) :
  complete_updates delivered l p =
  Normal (filter (fun u => negb (reached delivered u)) l)
    (set_fTrace
       (fTrace p ++ flat_map (fun u => fire (WebUpdate.fCallback u) true)
                      (filter (reached delivered) l)) p).
Proof.
  revert p. induction l as [|curr rest IH]; intros p.
  - cbn [complete_updates filter flat_map]. unfold ret. f_equal. painter_eq.
  - cbn [complete_updates filter]. fold (reached delivered curr).
    destruct (reached delivered curr) eqn:Hr; cbn [negb flat_map].
    + unfold WebUpdate_CallBack.
      destruct (WebUpdate.fCallback curr) as [cb|] eqn:Hcb;
        run_monad; rewrite IH; f_equal; painter_eq.
    + unfold bind. rewrite IH. reflexivity.
Qed.

Lemma CancelUpdates_loop_eq (l : list WebUpdate.t) (p : Painter) :
  Forall has_callback l ->
  fUpdatesLst p = l ->
  CancelUpdates_loop l p =
  Normal tt
    (set_fUpdatesLst []
       (set_fTrace
          (fTrace p ++ flat_map (fun u => fire (WebUpdate.fCallback u) false) l) p)).
Proof.
  intros Hall. revert p. induction Hall as [|curr rest Hcb Hall IH]; intros p Hl.
  - cbn [CancelUpdates_loop flat_map]. unfold ret. f_equal. painter_eq; auto.
  - cbn [CancelUpdates_loop flat_map]. unfold has_callback in Hcb.
    destruct (WebUpdate.fCallback curr) as [cb|] eqn:Hf; [|congruence].
    run_monad. rewrite IH by reflexivity. f_equal. painter_eq.
Qed.

Lemma CancelUpdates_eq (p : Painter) :
  Forall has_callback (fUpdatesLst p) ->
  CancelUpdates p =
  Normal tt
    (set_fUpdatesLst []
       (set_fSnapshotDelivered 0
          (set_fTrace
             (fTrace p ++ flat_map (fun u => fire (WebUpdate.fCallback u) false)
                            (fUpdatesLst p)) p))).
Proof.
  intros Hall. unfold CancelUpdates, bind, modify, gets.
  rewrite (CancelUpdates_loop_eq (fUpdatesLst p)) by (assumption || reflexivity).
  f_equal; painter_eq.
Qed.

End LoopFacts.

(** ** The push pass, one connection at a time *)

Lemma subseq_nil_l {A : Type} (l : list A) : subseq [] l.
Proof. induction l; constructor; assumption. Qed.

Lemma subseq_length {A : Type} (l1 l2 : list A) :
  subseq l1 l2 -> (List.length l1 <= List.length l2)%nat.
Proof. induction 1; simpl; lia. Qed.

Lemma dispatched_refl (l : list WebCommand.t) : dispatched l l.
Proof. left; reflexivity. Qed.

Lemma dispatched_trans (l1 l2 l3 : list WebCommand.t) :
  dispatched l1 l2 -> dispatched l2 l3 -> dispatched l1 l3.
Proof.
  intros [->|(cmd & rest & connid & -> & Hrun & ->)] H23; [exact H23|].
  destruct H23 as [->|(cmd' & rest' & connid' & Heq & Hrun' & _)].
  - right. exists cmd, rest, connid. auto.
  - injection Heq as <- _. simpl in Hrun'. discriminate.
Qed.

Lemma conn_kept_refl (c : WebConn.t) : conn_kept c c.
Proof. unfold conn_kept; auto. Qed.

(** the test [buf.Length() > 0] on a text that starts with a letter *)
Lemma buf_test (a : ascii) (s t : string) :
  (0 <? Z.of_nat (String.length (String a s ++ t))) = true.
Proof. simpl. reflexivity. Qed.

Ltac turn_done :=
  repeat split; auto using dispatched_refl;
  try (repeat constructor; fail); try (simpl; eauto; fail).

Section PushPass.

Context {Win Canvas Drawable : Type}.
Context {window_ops : TWebWindow Win} {canvas_ops : RCanvas Canvas Drawable}.

Abbreviation Painter := (TCanvasPainter Win Canvas).

Lemma pushed_same (p : Painter) : pushed (fWindow p) (fCmds p) [] p = p.
Proof. unfold pushed. painter_eq. Qed.

Lemma pushed_pushed (w1 w2 : option Win) (c1 c2 : list WebCommand.t)
    (tr1 tr2 : list Effect) (p : Painter) :
  pushed w2 c2 tr2 (pushed w1 c1 tr1 p) = pushed w2 c2 (tr1 ++ tr2) p.
Proof. unfold pushed. painter_eq. Qed.

Lemma front_to_run_Some (conn : WebConn.t) (cmds : list WebCommand.t)
    (cmd : WebCommand.t) (rest : list WebCommand.t) :
  front_to_run conn cmds = Some (cmd, rest) ->
  cmds = cmd :: rest /\ WebConn.fDrawReady conn = true /\
  WebCommand.fRunning cmd = false /\
  (WebCommand.fConnId cmd = 0 \/ WebCommand.fConnId cmd = WebConn.fConnId conn).
Proof.
  destruct cmds as [|c r]; simpl; [discriminate|].
  destruct (WebConn.fDrawReady conn) eqn:Hd; simpl; [|discriminate].
  destruct (WebCommand.fRunning c) eqn:Hr; simpl; [discriminate|].
  destruct (WebCommand.fConnId c =? 0) eqn:H0; simpl.
  - intros [= <- <-]. apply Z.eqb_eq in H0. auto.
  - destruct (WebCommand.fConnId c =? WebConn.fConnId conn) eqn:H1; [|discriminate].
    intros [= <- <-]. apply Z.eqb_eq in H1. auto.
Qed.

(** One turn of the loop never fails on a painter that has a window; it
    leaves a state of the form [pushed], a connection with the same id,
    acknowledged version and readiness, and sends at most one message, to
    this connection. *)
Lemma CheckDataToSend_conn_pushed (conn : WebConn.t) (m : Z) (p : Painter) (w : Win) :
  fWindow p = Some w ->
  exists conn' w' cmds' tr,
    CheckDataToSend_conn conn m p =
      Normal (conn', next_min_delivered m conn) (pushed (Some w') cmds' tr p) /\
    conn_kept conn conn' /\ dispatched (fCmds p) cmds' /\ Forall quiet tr /\
    (sent tr = [] \/ exists buf, sent tr = [(WebConn.fConnId conn, buf)]).
Proof.
  intros Hw. unfold CheckDataToSend_conn, window. run_monad. rewrite Hw.
  assert (Hsame : pushed (Some w) (fCmds p) [] p = p).
  { rewrite <- Hw. apply pushed_same. }
  destruct (CanSend w (WebConn.fConnId conn)); cbn [negb].
  2:{ exists conn, w, (fCmds p), []. rewrite Hsame. turn_done. }
  unfold choose_payload. run_monad.
  destruct (front_to_run conn (fCmds p)) as [[cmd rest]|] eqn:Hfront.
  - apply front_to_run_Some in Hfront. destruct Hfront as (Hc & _ & Hrun & _).
    fields. rewrite buf_test. unfold send, window. run_monad. fields. rewrite Hw.
    eexists conn, _, _, [_].
    split; [unfold pushed; f_equal; painter_eq|].
    turn_done. right. exists cmd, rest, (WebConn.fConnId conn). auto.
  - destruct (String.eqb (WebConn.fGetMenu conn) ""); cbn [negb].
    + destruct (WebConn.fSend conn =? fSnapshotVersion p); cbn [negb]; fields.
      * exists conn, w, (fCmds p), []. rewrite Hsame. turn_done.
      * rewrite buf_test. unfold send, window. run_monad. fields. rewrite Hw.
        eexists _, _, (fCmds p), [_].
        split; [unfold pushed; f_equal; painter_eq|].
        turn_done.
    + fields.
      destruct (FindDrawable (fCanvas p) (WebConn.fGetMenu conn)) as [d|].
      * rewrite buf_test. unfold send, window. run_monad. fields. rewrite Hw.
        eexists _, _, (fCmds p), [_; _].
        split; [unfold pushed; f_equal; painter_eq|].
        turn_done.
      * change (0 <? Z.of_nat (String.length "")) with false. cbv iota.
        eexists _, w, (fCmds p), [_].
        split; [unfold pushed; f_equal; painter_eq; auto|].
        turn_done.
Qed.

(** The loop never fails on a painter that has a window; the messages it
    sends go to connections of the list, in the order of the list, at most
    one for each entry. *)
Lemma CheckDataToSend_loop_pushed (conns : list WebConn.t) (m : Z) (p : Painter)
    (w : Win) :
  fWindow p = Some w ->
  exists conns' w' cmds' tr,
    CheckDataToSend_loop conns m p =
      Normal (conns', fold_left next_min_delivered conns m)
        (pushed (Some w') cmds' tr p) /\
    Forall2 conn_kept conns conns' /\ dispatched (fCmds p) cmds' /\
    Forall quiet tr /\
    subseq (map fst (sent tr)) (map WebConn.fConnId conns).
Proof.
  revert m p w. induction conns as [|conn rest IH]; intros m p w Hw.
  - exists [], w, (fCmds p), []. cbn [CheckDataToSend_loop fold_left]. unfold ret.
    rewrite <- Hw, pushed_same. turn_done.
  - destruct (CheckDataToSend_conn_pushed conn m p w Hw)
      as (conn' & w1 & cmds1 & tr1 & Heq1 & Hkept1 & Hdisp1 & Hq1 & Hsent1).
    destruct (IH (next_min_delivered m conn) (pushed (Some w1) cmds1 tr1 p) w1
                eq_refl)
      as (rest' & w2 & cmds2 & tr2 & Heq2 & Hkept2 & Hdisp2 & Hq2 & Hsent2).
    exists (conn' :: rest'), w2, cmds2, (tr1 ++ tr2)%list.
    split; [|split; [|split; [|split]]].
    + cbn [CheckDataToSend_loop]. unfold bind. rewrite Heq1. fields.
      rewrite Heq2. fields. unfold ret. rewrite pushed_pushed. reflexivity.
    + constructor; assumption.
    + eapply dispatched_trans; [exact Hdisp1|exact Hdisp2].
    + apply Forall_app; auto.
    + rewrite sent_app, map_app. simpl.
      destruct Hsent1 as [->|[buf ->]]; simpl.
      * apply subseq_skip. exact Hsent2.
      * apply subseq_take. exact Hsent2.
Qed.

Lemma Forall2_empty {A B : Type} (R : A -> B -> Prop) (l : list A) (l' : list B) :
  Forall2 R l l' -> empty l' = empty l.
Proof. destruct 1; reflexivity. Qed.

(** A push pass never fails when the painter has a window or no connection,
    and every pending update has a callback. *)
Lemma CheckDataToSend_passed (p : Painter) :
  (fWebConn p = [] \/ fWindow p <> None) ->
  Forall has_callback (fUpdatesLst p) ->
  exists w' cmds' conns' tr,
    CheckDataToSend p = Normal tt (passed w' cmds' conns' tr p) /\
    (w' = None <-> fWindow p = None) /\
    Forall2 conn_kept (fWebConn p) conns' /\ dispatched (fCmds p) cmds' /\
    Forall quiet tr /\
    subseq (map fst (sent tr)) (map WebConn.fConnId (fWebConn p)).
Proof.
  intros Hwin Hcb.
  assert (Hloop : exists conns' w' cmds' tr,
            CheckDataToSend_loop (fWebConn p) 0 p =
              Normal (conns', end_min_delivered (fWebConn p))
                (pushed w' cmds' tr p) /\
            (w' = None <-> fWindow p = None) /\
            Forall2 conn_kept (fWebConn p) conns' /\ dispatched (fCmds p) cmds' /\
            Forall quiet tr /\
            subseq (map fst (sent tr)) (map WebConn.fConnId (fWebConn p))).
  { destruct (fWindow p) as [w|] eqn:Hw.
    - destruct (CheckDataToSend_loop_pushed (fWebConn p) 0 p w Hw)
        as (conns' & w' & cmds' & tr & Heq & H).
      exists conns', (Some w'), cmds', tr. split; [exact Heq|].
      split; [split; discriminate|exact H].
    - destruct Hwin as [Hnil|Hne]; [|congruence].
      exists [], None, (fCmds p), []. rewrite Hnil.
      cbn [CheckDataToSend_loop]. unfold ret.
      rewrite <- Hw, pushed_same. turn_done. }
  destruct Hloop as (conns' & w' & cmds' & tr & Heq & Hw' & Hkept & Hdisp & Hq & Hsub).
  exists w', cmds', conns', tr. split; [|auto].
  unfold CheckDataToSend. run_monad. rewrite Heq. unfold pushed. fields.
  rewrite (Forall2_empty _ _ _ Hkept).
  unfold passed, settle, pushed.
  destruct (empty (fWebConn p) && negb (fSnapshotDelivered p =? 0))%bool eqn:Hcancel.
  - rewrite CancelUpdates_eq by exact Hcb.
    apply andb_prop in Hcancel. destruct Hcancel as [Hempty _].
    destruct (fWebConn p); [|discriminate].
    f_equal; painter_eq.
  - destruct (fSnapshotDelivered p =? end_min_delivered (fWebConn p)) eqn:Hsame;
      cbn [negb].
    + apply Z.eqb_eq in Hsame. unfold ret. f_equal; painter_eq. exact Hsame.
    + rewrite complete_updates_eq. f_equal; painter_eq.
Qed.

End PushPass.

(** ** Counting callbacks *)

Lemma count_app {A : Type} (f : A -> bool) (l1 l2 : list A) :
  count f (l1 ++ l2) = (count f l1 + count f l2)%nat.
Proof. unfold count. rewrite filter_app, length_app. reflexivity. Qed.

Lemma count_cons {A : Type} (f : A -> bool) (x : A) (l : list A) :
  count f (x :: l) = ((if f x then 1 else 0) + count f l)%nat.
Proof. unfold count. simpl. destruct (f x); reflexivity. Qed.

Lemma count_filter_split {A : Type} (f g : A -> bool) (l : list A) :
  (count f (filter g l) + count f (filter (fun x => negb (g x)) l))%nat = count f l.
Proof.
  induction l as [|x l IH]; [reflexivity|].
  simpl. destruct (g x); simpl; rewrite !count_cons; lia.
Qed.

Lemma fired_app (t : nat) (tr1 tr2 : list Effect) :
  fired t (tr1 ++ tr2) = (fired t tr1 + fired t tr2)%nat.
Proof. unfold fired. rewrite callbacks_app. apply count_app. Qed.

Lemma fired_fire (t : nat) (f : CanvasCallback_t) (res : bool) :
  fired t (fire f res) = if tagged t f then 1%nat else 0%nat.
Proof.
  destruct f as [cb|]; [|reflexivity].
  unfold fired, count. simpl. destruct (Nat.eqb cb t); reflexivity.
Qed.

Lemma fired_fire_all {A : Type} (t : nat) (get : A -> CanvasCallback_t)
    (res : bool) (l : list A) :
  fired t (flat_map (fun x => fire (get x) res) l) = count (fun x => tagged t (get x)) l.
Proof.
  induction l as [|x l IH]; [reflexivity|].
  simpl. rewrite fired_app, fired_fire, IH, count_cons. reflexivity.
Qed.

Lemma callbacks_quiet (tr : list Effect) : Forall quiet tr -> callbacks tr = [].
Proof.
  induction 1 as [|e tr He _ IH]; [reflexivity|].
  destruct e; simpl in He; try contradiction; simpl; exact IH.
Qed.

Lemma fired_quiet (t : nat) (tr : list Effect) : Forall quiet tr -> fired t tr = 0%nat.
Proof. intros H. unfold fired. rewrite callbacks_quiet by exact H. reflexivity. Qed.

(** ** The invariants of the painter *)

Lemma single_flight_tl (cmds : list WebCommand.t) :
  single_flight cmds -> single_flight (tl cmds).
Proof.
  unfold single_flight. destruct cmds as [|c [|c' r]]; simpl; auto.
  intros H. inversion H; assumption.
Qed.

Lemma single_flight_filter (f : WebCommand.t -> bool) (cmds : list WebCommand.t) :
  single_flight cmds -> single_flight (filter f cmds).
Proof.
  unfold single_flight. destruct cmds as [|c r]; simpl; [auto|].
  intros H.
  assert (Hf : Forall (fun c => WebCommand.fRunning c = false) (filter f r)).
  { apply Forall_forall. intros x Hx. apply filter_In in Hx.
    rewrite Forall_forall in H. apply H. tauto. }
  destruct (f c); simpl; [exact Hf|].
  destruct (filter f r); simpl; [constructor|]. inversion Hf; assumption.
Qed.

Lemma single_flight_snoc (cmds : list WebCommand.t) (cmd : WebCommand.t) :
  single_flight cmds -> WebCommand.fRunning cmd = false ->
  single_flight (cmds ++ [cmd]).
Proof.
  unfold single_flight. destruct cmds as [|c r]; simpl; [constructor|].
  intros H Hr. apply Forall_app. split; [exact H|]. constructor; auto.
Qed.

Lemma single_flight_dispatched (l l' : list WebCommand.t) :
  dispatched l l' -> single_flight l -> single_flight l'.
Proof.
  intros [->|(cmd & rest & connid & -> & _ & ->)]; auto.
Qed.

Lemma count_dispatched (t : nat) (l l' : list WebCommand.t) :
  dispatched l l' ->
  count (fun c => tagged t (WebCommand.fCallback c)) l' =
  count (fun c => tagged t (WebCommand.fCallback c)) l.
Proof.
  intros [->|(cmd & rest & connid & -> & _ & ->)]; [reflexivity|].
  rewrite !count_cons. reflexivity.
Qed.

(** [min_delivered] looks at the acknowledged versions only *)
Lemma fold_next_min_delivered_kept (l l' : list WebConn.t) (m : Z) :
  Forall2 (fun c c' => WebConn.fDelivered c' = WebConn.fDelivered c) l l' ->
  fold_left next_min_delivered l' m = fold_left next_min_delivered l m.
Proof.
  intros H. revert m. induction H as [|c c' l l' Hc _ IH]; intros m; [reflexivity|].
  simpl. rewrite IH. f_equal. unfold next_min_delivered. rewrite Hc. reflexivity.
Qed.

Lemma end_min_delivered_kept (l l' : list WebConn.t) :
  Forall2 conn_kept l l' -> end_min_delivered l' = end_min_delivered l.
Proof.
  intros H. apply fold_next_min_delivered_kept.
  eapply Forall2_impl; [|exact H]. unfold conn_kept. tauto.
Qed.

Lemma settle_settled (conns : list WebConn.t) (upds : list WebUpdate.t) :
  settle (end_min_delivered conns) conns upds = (upds, []).
Proof.
  unfold settle. rewrite Z.eqb_refl. simpl.
  destruct conns; simpl; [|reflexivity].
  unfold end_min_delivered. simpl. reflexivity.
Qed.

Lemma settle_balance (t : nat) (delivered : Z) (conns : list WebConn.t)
    (upds : list WebUpdate.t) :
  (fired t (snd (settle delivered conns upds)) +
   count (fun u => tagged t (WebUpdate.fCallback u)) (fst (settle delivered conns upds)))%nat
  = count (fun u => tagged t (WebUpdate.fCallback u)) upds.
Proof.
  unfold settle.
  destruct (empty conns && negb (delivered =? 0))%bool; simpl.
  - rewrite fired_fire_all. unfold count at 2. simpl. lia.
  - destruct (delivered =? end_min_delivered conns); simpl.
    + reflexivity.
    + rewrite fired_fire_all. apply count_filter_split.
Qed.

Lemma settle_has_callback (delivered : Z) (conns : list WebConn.t)
    (upds : list WebUpdate.t) :
  Forall has_callback upds -> Forall has_callback (fst (settle delivered conns upds)).
Proof.
  intros H. unfold settle.
  destruct (empty conns && negb (delivered =? 0))%bool; simpl; [constructor|].
  destruct (delivered =? end_min_delivered conns); simpl; [exact H|].
  apply Forall_forall. intros u Hu. apply filter_In in Hu.
  rewrite Forall_forall in H. apply H. tauto.
Qed.

Section Invariants.

Context {Win Canvas Drawable : Type}.
Context {window_ops : TWebWindow Win} {canvas_ops : RCanvas Canvas Drawable}.

Abbreviation Painter := (TCanvasPainter Win Canvas).

Lemma Inv_new (canv : Canvas) : Inv (new_TCanvasPainter canv : Painter).
Proof.
  unfold Inv, Inv0, settled, single_flight. simpl.
  repeat split; try constructor; congruence.
Qed.

Lemma pass_good (t : nat) (p : Painter) :
  Inv0 p ->
  exists p',
    CheckDataToSend p = Normal tt p' /\ Inv p' /\ balance t p' = balance t p /\
    fHadWebConn p' = fHadWebConn p /\ (fWindow p' = None <-> fWindow p = None) /\
    fCmdsCnt p' = fCmdsCnt p /\ fSnapshotVersion p' = fSnapshotVersion p /\
    fSnapshot p' = fSnapshot p.
Proof.
  intros (Hsf & Hconn & Hcb).
  destruct (CheckDataToSend_passed p) as
    (w' & cmds' & conns' & tr & Heq & Hw' & Hkept & Hdisp & Hq & _).
  { destruct (fWebConn p) eqn:Hc; [left; reflexivity|right].
    apply Hconn. discriminate. }
  { exact Hcb. }
  assert (Hne : conns' <> [] -> fWebConn p <> []).
  { intros Hne Hnil. apply Hne. rewrite Hnil in Hkept. inversion Hkept. reflexivity. }
  exists (passed w' cmds' conns' tr p). split; [exact Heq|].
  unfold Inv, Inv0, settled, balance, pending, passed, pushed. fields.
  split; [|split; [|repeat split; try tauto]].
  - repeat split.
    + eapply single_flight_dispatched; eauto.
    + intros Hw. apply Hw' in Hw. revert Hw. apply Hconn. auto.
    + apply Hconn. auto.
    + apply settle_has_callback. exact Hcb.
    + symmetry. apply end_min_delivered_kept. exact Hkept.
  - rewrite !fired_app, (fired_quiet t tr Hq), (count_dispatched t _ _ Hdisp).
    pose proof (settle_balance t (fSnapshotDelivered p) (fWebConn p) (fUpdatesLst p)).
    lia.
Qed.

(** [FrontCommandReplied] on a queue with a head: the head leaves the queue,
    ready, with its result, and its callback is called with the result *)
Lemma FrontCommandReplied_popped (reply : string) (p : Painter)
    (cmd : WebCommand.t) (rest : list WebCommand.t) :
  fCmds p = cmd :: rest ->
  exists (result : bool) (tr : list Effect),
    FrontCommandReplied reply p =
      Normal tt
        (set_fReleased
           (fReleased p ++
            [WebCommand.set_fCallback None
               (WebCommand.set_fResult result (WebCommand.set_fReady true cmd))])
           (set_fTrace (fTrace p ++ tr ++ fire (WebCommand.fCallback cmd) result)
              (set_fCmds rest p))) /\
    callbacks tr = [] /\
    (if (String.eqb (WebCommand.fName cmd) "SVG" ||
         String.eqb (WebCommand.fName cmd) "PNG" ||
         String.eqb (WebCommand.fName cmd) "JPEG")%bool
     then
       if Nat.eqb (String.length reply) 0
       then result = false /\
            tr = [ErrorLog ("Fail to produce image" ++ WebCommand.fArg cmd)]
       else result = true /\
            exists msg,
              tr = [WriteFile (c_str (WebCommand.fArg cmd)) (TBase64_Decode (c_str reply));
                    InfoLog msg]
     else if starts_with "ADDPANEL:" (WebCommand.fName cmd)
     then result = String.eqb reply "true" /\ exists msg, tr = [DebugLog msg]
     else result = false /\ exists msg, tr = [ErrorLog msg]).
Proof.
  intros Hcmds. unfold FrontCommandReplied, WebCommand_CallBack. run_monad.
  rewrite Hcmds. fields.
  change (WebCommand.fName (WebCommand.set_fReady true cmd)) with (WebCommand.fName cmd).
  change (WebCommand.fArg (WebCommand.set_fReady true cmd)) with (WebCommand.fArg cmd).
  destruct (String.eqb (WebCommand.fName cmd) "SVG" ||
            String.eqb (WebCommand.fName cmd) "PNG" ||
            String.eqb (WebCommand.fName cmd) "JPEG")%bool.
  - destruct (Nat.eqb (String.length reply) 0).
    + exists false, [ErrorLog ("Fail to produce image" ++ WebCommand.fArg cmd)].
      split; [|auto].
      destruct (WebCommand.fCallback cmd) eqn:Hcb; fields;
        cbn [WebCommand.fCallback WebCommand.set_fResult WebCommand.set_fReady];
        rewrite Hcb; f_equal; painter_eq.
    + eexists true, [WriteFile _ _; InfoLog _].
      split; [|split; [reflexivity|split; [reflexivity|eexists; reflexivity]]].
      destruct (WebCommand.fCallback cmd) eqn:Hcb; fields;
        cbn [WebCommand.fCallback WebCommand.set_fResult WebCommand.set_fReady];
        rewrite Hcb; f_equal; painter_eq.
  - destruct (starts_with "ADDPANEL:" (WebCommand.fName cmd)).
    + eexists (String.eqb reply "true"), [DebugLog _].
      split; [|split; [reflexivity|split; [reflexivity|eexists; reflexivity]]].
      destruct (WebCommand.fCallback cmd) eqn:Hcb; fields;
        cbn [WebCommand.fCallback WebCommand.set_fResult WebCommand.set_fReady];
        rewrite Hcb; f_equal; painter_eq.
    + eexists false, [ErrorLog _].
      split; [|split; [reflexivity|split; [reflexivity|eexists; reflexivity]]].
      destruct (WebCommand.fCallback cmd) eqn:Hcb; fields;
        cbn [WebCommand.fCallback WebCommand.set_fResult WebCommand.set_fReady];
        rewrite Hcb; f_equal; painter_eq.
Qed.

Lemma find_conn_Some (connid : Z) (l before after : list WebConn.t)
    (conn : WebConn.t) :
  find_conn connid l = Some (before, conn, after) ->
  l = (before ++ conn :: after)%list /\ WebConn.fConnId conn = connid /\
  Forall (fun c => WebConn.fConnId c <> connid) before.
Proof.
  revert before. induction l as [|c rest IH]; intros before; simpl; [discriminate|].
  destruct (WebConn.fConnId c =? connid) eqn:Hid.
  - intros [= <- <- <-]. apply Z.eqb_eq in Hid. simpl. auto.
  - destruct (find_conn connid rest) as [[[b c'] a]|]; [|discriminate].
    intros [= <- <- <-]. destruct (IH b eq_refl) as (-> & Hc & Hb).
    apply Z.eqb_neq in Hid. simpl. auto.
Qed.

Lemma find_conn_None (connid : Z) (l : list WebConn.t) :
  find_conn connid l = None <-> Forall (fun c => WebConn.fConnId c <> connid) l.
Proof.
  induction l as [|c rest IH]; simpl.
  - split; [constructor|reflexivity].
  - destruct (WebConn.fConnId c =? connid) eqn:Hid.
    + apply Z.eqb_eq in Hid. split; [discriminate|].
      intros H. inversion H; contradiction.
    + apply Z.eqb_neq in Hid.
      destruct (find_conn connid rest) as [[[b c'] a]|].
      * split; [discriminate|]. intros H. inversion H; subst.
        apply IH in H3. discriminate.
      * split; [|reflexivity]. intros _. constructor; [exact Hid|].
        apply IH. reflexivity.
Qed.

(** the invariants look at few fields *)
Lemma Inv0_transfer (p q : Painter) :
  Inv0 p ->
  fCmds q = fCmds p -> fWebConn q = fWebConn p ->
  (fWindow p <> None -> fWindow q <> None) ->
  fHadWebConn q = fHadWebConn p -> fUpdatesLst q = fUpdatesLst p ->
  Inv0 q.
Proof.
  unfold Inv0. intros (Hsf & Hconn & Hcb) -> -> Hw -> ->.
  split; [exact Hsf|split; [|exact Hcb]].
  intros Hne. destruct (Hconn Hne) as [Hwin Hhad]. auto.
Qed.

Lemma settled_transfer (p q : Painter) :
  settled p ->
  fSnapshotDelivered q = fSnapshotDelivered p -> fWebConn q = fWebConn p ->
  settled q.
Proof. unfold settled. intros H -> ->. exact H. Qed.

Lemma balance_transfer (t k : nat) (p q : Painter) (tr : list Effect) :
  fTrace q = (fTrace p ++ tr)%list -> fired t tr = k ->
  fCmds q = fCmds p -> fUpdatesLst q = fUpdatesLst p ->
  balance t q = (balance t p + k)%nat.
Proof.
  unfold balance, pending. intros -> <- -> ->. rewrite fired_app. lia.
Qed.

Lemma option_map_not_None {A B : Type} (f : A -> B) (o : option A) :
  o <> None -> option_map f o <> None.
Proof. destruct o; simpl; congruence. Qed.

Lemma fired_one (t : nat) (e : Effect) :
  fired t [e] = match e with
                | Invoke cb _ => if Nat.eqb cb t then 1%nat else 0%nat
                | _ => 0%nat
                end.
Proof.
  destruct e; try reflexivity.
  unfold fired, count. simpl. destruct (Nat.eqb cb t); reflexivity.
Qed.

Lemma CreateSnapshot_eq (p : Painter) :
  exists tr,
    CreateSnapshot p =
      Normal (c_str (ToJSON (fCanvas p)))
        (set_fNextDumpName "" (set_fTrace (fTrace p ++ tr) p)) /\
    (tr = [] \/ tr = [ExportToFile (c_str (fNextDumpName p))]).
Proof.
  unfold CreateSnapshot. run_monad.
  destruct (String.eqb (fNextDumpName p) "") eqn:Hname; cbn [negb].
  - apply String.eqb_eq in Hname. exists []. split; [|auto].
    f_equal. painter_eq. exact Hname.
  - eexists. split; [reflexivity|auto].
Qed.

Lemma fired_silent (t : nat) (tr : list Effect) :
  callbacks tr = [] -> fired t tr = 0%nat.
Proof. unfold fired. intros ->. reflexivity. Qed.

Lemma Inv_push_update (t : nat) (ver : Z) (cb : nat) (p : Painter) :
  Inv p ->
  Inv (set_fUpdatesLst (fUpdatesLst p ++ [WebUpdate.Build ver (Some cb)]) p) /\
  balance t (set_fUpdatesLst (fUpdatesLst p ++ [WebUpdate.Build ver (Some cb)]) p)
  = (balance t p + (if tagged t (Some cb) then 1 else 0))%nat.
Proof.
  intros [(Hsf & Hconn & Hcb) Hs].
  unfold Inv, Inv0, settled, balance, pending. fields. repeat split; auto.
  - apply Hconn; assumption.
  - apply Hconn; assumption.
  - apply Forall_app. split; [exact Hcb|]. constructor; [|constructor].
    unfold has_callback. simpl. discriminate.
  - rewrite count_app, count_cons. cbn [WebUpdate.fCallback].
    change (count (fun u => tagged t (WebUpdate.fCallback u)) []) with 0%nat.
    destruct (tagged t (Some cb)); lia.
Qed.

Lemma CanvasUpdated_good (t : nat) (ver : Z) (async : bool)
    (callback : CanvasCallback_t) (p : Painter) :
  Inv p ->
  exists p',
    CanvasUpdated ver async callback p = Normal tt p' /\ Inv p' /\
    balance t p' = (balance t p + (if tagged t callback then 1 else 0))%nat.
Proof.
  intros [H0 Hs]. unfold CanvasUpdated. run_monad. fields.
  destruct (negb (ver =? 0) && negb (fSnapshotDelivered p =? 0) &&
            (ver <=? fSnapshotDelivered p))%bool.
  - (* the version is delivered already *)
    destruct callback as [cb|]; eexists; (split; [reflexivity|]); split.
    + split; [eapply Inv0_transfer|eapply settled_transfer]; eauto;
        fields; auto using option_map_not_None.
    + eapply balance_transfer with (tr := [Invoke cb true]); fields; auto.
      rewrite fired_one. reflexivity.
    + split; [eapply Inv0_transfer|eapply settled_transfer]; eauto;
        fields; auto using option_map_not_None.
    + eapply balance_transfer with (tr := []); fields; auto using app_nil_r.
  - match goal with
    | |- context [CreateSnapshot ?q] =>
        destruct (CreateSnapshot_eq q) as (tr & -> & Htr)
    end.
    assert (Hquiet : fired t tr = 0%nat).
    { destruct Htr as [->| ->]; reflexivity. }
    fields.
    destruct (match option_map Sync (fWindow p) with
              | Some w => negb (IsShown w)
              | None => true
              end).
    + (* no window, or not shown *)
      destruct callback as [cb|]; eexists; (split; [reflexivity|]); split.
      * split; [eapply Inv0_transfer|eapply settled_transfer]; eauto;
          fields; auto using option_map_not_None.
      * eapply balance_transfer with (tr := (tr ++ [Invoke cb false])%list);
          fields; auto using app_assoc.
        rewrite fired_app, fired_one, Hquiet. reflexivity.
      * split; [eapply Inv0_transfer|eapply settled_transfer]; eauto;
          fields; auto using option_map_not_None.
      * eapply balance_transfer with (tr := tr); fields; auto.
    + match goal with
      | |- context [CheckDataToSend ?q] =>
          destruct (pass_good t q) as (p2 & -> & Hinv & Hbal & _);
            [eapply Inv0_transfer; eauto; fields; auto using option_map_not_None|];
            assert (Hbal1 : balance t q = balance t p)
      end.
      { rewrite <- (Nat.add_0_r (balance t p)).
        eapply balance_transfer with (tr := tr); fields; auto. }
      destruct callback as [cb|].
      * eexists. split; [reflexivity|].
        destruct (Inv_push_update t ver cb p2 Hinv) as [Hi Hb].
        split; [exact Hi|]. rewrite Hb, Hbal, Hbal1. reflexivity.
      * exists p2. split; [reflexivity|]. split; [exact Hinv|].
        rewrite Hbal, Hbal1. simpl. lia.
Qed.

Lemma balance_same (t : nat) (p q : Painter) (tr : list Effect) :
  fTrace q = (fTrace p ++ tr)%list -> fired t tr = 0%nat ->
  fCmds q = fCmds p -> fUpdatesLst q = fUpdatesLst p ->
  balance t q = balance t p.
Proof.
  intros. rewrite <- (Nat.add_0_r (balance t p)).
  eapply balance_transfer; eauto.
Qed.

Lemma balance_equal (t : nat) (p q : Painter) :
  fTrace q = fTrace p -> fCmds q = fCmds p -> fUpdatesLst q = fUpdatesLst p ->
  balance t q = balance t p.
Proof. unfold balance, pending. intros -> -> ->. reflexivity. Qed.

Lemma DoWhenReady_good (t : nat) (name arg : string) (async : bool)
    (callback : CanvasCallback_t) (p : Painter) :
  Inv p ->
  exists p',
    DoWhenReady name arg async callback p = Normal tt p' /\ Inv p' /\
    balance t p' = (balance t p + owed_by_command t name callback)%nat.
Proof.
  intros [H0 Hs]. unfold DoWhenReady, owed_by_command.
  destruct (String.eqb name "JSON").
  - eexists. split; [reflexivity|]. split.
    + split; [eapply Inv0_transfer|eapply settled_transfer]; eauto.
    + rewrite Nat.add_0_r. apply balance_equal; reflexivity.
  - unfold CreateWindow, window. run_monad.
    set (w := match fWindow p with
              | Some w => w
              | None => ManagerCreateWindow
              end).
    assert (Hrun : forall (A : Type) (k : Win -> Painter -> Outcome Win Canvas A),
               match
                 match fWindow p with
                 | Some _ => fun p0 : Painter => Normal tt p0
                 | None => fun p0 : Painter =>
                             Normal tt (set_fWindow (Some ManagerCreateWindow) p0)
                 end p
               with
               | Normal _ p' =>
                   match match fWindow p' with
                         | Some w0 => Normal w0 p'
                         | None => Aborted (Undefined "fWindow is null") p'
                         end
                   with
                   | Normal a p'0 => k a p'0
                   | Aborted why p'0 => Aborted why p'0
                   end
               | Aborted why p' => Aborted why p'
               end = k w (set_fWindow (Some w) p)).
    { intros A k. subst w. destruct (fWindow p) eqn:Hw; fields.
      - rewrite Hw. f_equal. painter_eq. exact Hw.
      - reflexivity. }
    rewrite Hrun. clear Hrun. fields.
    destruct (fst (MakeBatch w) =? 0).
    + destruct callback as [cb|]; eexists; (split; [reflexivity|]); split.
      * split; [eapply Inv0_transfer|eapply settled_transfer]; eauto;
          fields; auto; discriminate.
      * eapply balance_transfer with (tr := [Invoke cb false]); fields; auto.
        rewrite fired_one. reflexivity.
      * split; [eapply Inv0_transfer|eapply settled_transfer]; eauto;
          fields; auto; discriminate.
      * cbn [tagged]. rewrite Nat.add_0_r. apply balance_equal; reflexivity.
    + match goal with
      | |- context [CheckDataToSend ?q] =>
          destruct (pass_good t q) as (p2 & -> & Hinv & Hbal & _);
            [|assert (Hbal1 : balance t q =
                       (balance t p + (if tagged t callback then 1 else 0))%nat)]
      end.
      * destruct H0 as (Hsf & Hconn & Hcb). unfold Inv0. fields.
        split; [|split; [|exact Hcb]].
        -- apply single_flight_snoc; [exact Hsf|reflexivity].
        -- intros Hne. split; [discriminate|]. apply Hconn. exact Hne.
      * unfold balance, pending. fields. rewrite count_app, count_cons.
        cbn [WebCommand.fCallback WebCommand.make].
        change (count (fun c => tagged t (WebCommand.fCallback c)) []) with 0%nat.
        destruct (tagged t callback); lia.
      * exists p2. split; [reflexivity|]. split; [exact Hinv|].
        rewrite Hbal, Hbal1. reflexivity.
Qed.

Lemma Inv0_store (p q : Painter) :
  Inv0 p -> fWebConn p <> [] ->
  single_flight (fCmds q) -> fWindow q = fWindow p ->
  fHadWebConn q = fHadWebConn p -> fUpdatesLst q = fUpdatesLst p ->
  Inv0 q.
Proof.
  unfold Inv0. intros (Hsf & Hconn & Hcb) Hne Hq -> -> ->.
  split; [exact Hq|split; [|exact Hcb]]. intros _. apply Hconn. exact Hne.
Qed.

Lemma end_min_delivered_store (before after : list WebConn.t) (c c' : WebConn.t) :
  WebConn.fDelivered c' = WebConn.fDelivered c ->
  end_min_delivered (before ++ c' :: after) = end_min_delivered (before ++ c :: after).
Proof.
  intros Hd. unfold end_min_delivered. rewrite !fold_left_app. simpl.
  unfold next_min_delivered at 2 4. rewrite Hd. reflexivity.
Qed.

Lemma cancel_balance (t : nat) (connid : Z) (cmds : list WebCommand.t) :
  (fired t (flat_map (fun c => fire (WebCommand.fCallback c) false)
              (filter (cancels connid) cmds)) +
   count (fun c => tagged t (WebCommand.fCallback c))
     (filter (fun c => negb (cancels connid c)) cmds))%nat
  = count (fun c => tagged t (WebCommand.fCallback c)) cmds.
Proof. rewrite fired_fire_all. apply count_filter_split. Qed.

Lemma ProcessData_branch_good (t : nat) (connid : Z) (arg : string)
    (before after : list WebConn.t) (conn : WebConn.t) (p : Painter) :
  Inv p ->
  fWebConn p = (before ++ conn :: after)%list ->
  branch_ok t p (ProcessData_branch connid arg before conn after p).
Proof.
  intros [H0 Hs] Hconns.
  assert (Hne : fWebConn p <> []).
  { rewrite Hconns. destruct before; discriminate. }
  assert (Hsf : single_flight (fCmds p)) by apply H0.
  unfold ProcessData_branch.
  destruct (String.eqb arg "CONN_CLOSED").
  { run_monad. fields. rewrite CancelCommands_eq. unfold branch_ok. fields. split.
    - apply (Inv0_store _ _ H0 Hne); fields; try reflexivity.
      apply single_flight_filter. exact Hsf.
    - unfold balance, pending. fields. rewrite fired_app.
      pose proof (cancel_balance t connid (fCmds p)). lia. }
  destruct (starts_with "READY" arg).
  { unfold ret, branch_ok. auto. }
  destruct (starts_with "SNAPDONE:" arg).
  { run_monad. fields.
    destruct (stoll (erase_front 9 arg)) as [v|exn]; unfold branch_ok; fields.
    - split; [apply (Inv0_store _ _ H0 Hne); fields; auto|].
      apply balance_equal; reflexivity.
    - split; [split|apply balance_equal; reflexivity].
      + apply (Inv0_store _ _ H0 Hne); fields; auto.
      + unfold settled. fields.
        rewrite end_min_delivered_store with (c := conn) by reflexivity.
        rewrite <- Hconns. exact Hs. }
  destruct (starts_with "RREADY:" arg).
  { run_monad. unfold branch_ok. fields.
    split; [apply (Inv0_store _ _ H0 Hne); fields; auto|].
    apply balance_equal; reflexivity. }
  destruct (starts_with "GETMENU:" arg).
  { run_monad. unfold branch_ok. fields.
    split; [apply (Inv0_store _ _ H0 Hne); fields; auto|].
    apply balance_equal; reflexivity. }
  destruct (String.eqb arg "QUIT").
  { run_monad. unfold branch_ok. fields.
    split; [split; [eapply Inv0_transfer|eapply settled_transfer]; eauto|].
    eapply balance_same with (tr := [Terminate]); fields; auto. }
  destruct (String.eqb arg "RELOAD").
  { run_monad. unfold branch_ok. fields.
    split; [apply (Inv0_store _ _ H0 Hne); fields; auto|].
    apply balance_equal; reflexivity. }
  destruct (String.eqb arg "INTERRUPT").
  { run_monad. unfold branch_ok. fields.
    split; [eapply Inv0_transfer; eauto|].
    eapply balance_same with (tr := [SetInterrupt]); fields; auto. }
  destruct (starts_with "REPLY:" arg).
  { run_monad. fields.
    destruct (fCmds p) as [|front rest] eqn:Hcmds.
    - unfold branch_ok. fields.
      split; [eapply Inv0_transfer; eauto|].
      eapply balance_same with (tr := [ErrorLog _]); fields; auto.
    - destruct (WebCommand.fRunning front); cbn [negb].
      2:{ unfold branch_ok. fields.
          split; [eapply Inv0_transfer; eauto|].
          eapply balance_same with (tr := [ErrorLog _]); fields; auto. }
      destruct (String.eqb (WebCommand.fId front)
                  (reply_id (c_str (erase_front 6 arg)))); cbn [negb].
      2:{ unfold branch_ok. fields.
          split; [eapply Inv0_transfer; eauto|].
          eapply balance_same with (tr := [ErrorLog _]); fields; auto. }
      destruct (find_char ":" (c_str (erase_front 6 arg))) as [i|].
      + destruct (FrontCommandReplied_popped
                    (erase_front (i + 1) (c_str (erase_front 6 arg))) p front rest
                    Hcmds) as (result & tr & -> & Hsilent & _).
        unfold branch_ok. fields. split.
        * apply (Inv0_store _ _ H0 Hne); fields; try reflexivity.
          apply single_flight_tl in Hsf. exact Hsf.
        * unfold balance, pending. fields.
          rewrite !fired_app, (fired_silent t tr Hsilent), fired_fire, Hcmds,
            count_cons.
          destruct (tagged t (WebCommand.fCallback front)); lia.
      + unfold branch_ok. split; [split; assumption|reflexivity]. }
  destruct (starts_with "SAVE:" arg).
  { unfold SaveCreatedFile. run_monad.
    destruct (find_char ":" (erase_front 5 arg)) as [[|pos]|];
      unfold branch_ok; fields;
      (split; [eapply Inv0_transfer; eauto|]).
    - eapply balance_same with (tr := [ErrorLog _]); fields; auto.
    - eapply balance_same with (tr := [WriteFile _ _; InfoLog _]); fields;
        auto using app_assoc. rewrite <- app_assoc. reflexivity.
    - eapply balance_same with (tr := [ErrorLog _]); fields; auto. }
  destruct (starts_with "OBJEXEC:" arg).
  { run_monad.
    destruct (find_char ":" (erase_front 8 arg)) as [[|pos]|];
      try (unfold branch_ok; auto; fail).
    fields.
    destruct (FindDrawable (fCanvas p) _) as [drawable|].
    - destruct (Nat.eqb (String.length _) 0); cbn [negb].
      + destruct (String.eqb _ "canvas"); unfold branch_ok; fields;
          (split; [eapply Inv0_transfer; eauto|]); auto.
        eapply balance_same with (tr := [DebugLog _]); fields; auto.
      + unfold branch_ok. fields. split; [eapply Inv0_transfer; eauto|].
        eapply balance_same with (tr := [DebugLog _; ExecuteOn _ _]); fields; auto.
        rewrite <- app_assoc. reflexivity.
    - destruct (String.eqb _ "canvas"); unfold branch_ok; fields;
        (split; [eapply Inv0_transfer; eauto|]); auto.
      eapply balance_same with (tr := [DebugLog _]); fields; auto. }
  run_monad. unfold branch_ok. fields.
  split; [eapply Inv0_transfer; eauto|].
  eapply balance_same with (tr := [ErrorLog _]); fields; auto.
Qed.

Lemma ProcessData_good (t : nat) (connid : Z) (arg : string) (p : Painter) :
  Inv p -> fWindow p <> None ->
  Inv (final (ProcessData connid arg p)) /\
  balance t (final (ProcessData connid arg p)) = balance t p.
Proof.
  intros Hinv Hwin. pose proof Hinv as [H0 Hs]. unfold ProcessData.
  destruct (String.eqb arg "CONN_READY").
  - run_monad. fields.
    match goal with
    | |- context [CheckDataToSend ?q] =>
        destruct (pass_good t q) as (p2 & -> & Hinv2 & Hbal & _);
          [|assert (Hbal1 : balance t q = balance t p)
              by (apply balance_equal; reflexivity)]
    end.
    + destruct H0 as (Hsf & Hconn & Hcb). unfold Inv0. fields.
      split; [exact Hsf|split; [|exact Hcb]]. auto.
    + cbn [final]. split; [exact Hinv2|]. rewrite Hbal. exact Hbal1.
  - run_monad.
    destruct (find_conn connid (fWebConn p)) as [[[before conn] after]|] eqn:Hfind.
    2:{ cbn [final]. auto. }
    apply find_conn_Some in Hfind. destruct Hfind as (Hconns & _ & _).
    pose proof (ProcessData_branch_good t connid arg before after conn p Hinv Hconns)
      as Hbranch.
    destruct (ProcessData_branch connid arg before conn after p)
      as [[|] q|why q]; unfold branch_ok in Hbranch; cbn [final].
    + destruct Hbranch as [Hq Hbq].
      destruct (pass_good t q Hq) as (p2 & -> & Hinv2 & Hbal & _).
      cbn [final]. split; [exact Hinv2|]. rewrite Hbal. exact Hbq.
    + exact Hbranch.
    + exact Hbranch.
Qed.

Lemma step_good (t : nat) (ev : Event Win Canvas) (p : Painter) :
  Inv p ->
  Inv (step p ev) /\ balance t (step p ev) = (balance t p + owed t ev)%nat.
Proof.
  intros Hinv. pose proof Hinv as [H0 Hs]. unfold step.
  destruct ev as [ver async callback|name arg async callback|name arg res|where_
                 |win|connid arg|f|can]; cbn [handle owed].
  - destruct (CanvasUpdated_good t ver async callback p Hinv) as (p' & -> & H).
    exact H.
  - destruct (DoWhenReady_good t name arg async callback p Hinv) as (p' & -> & H).
    exact H.
  - unfold DoWhenReady_done. rewrite Nat.add_0_r.
    destruct (res <=? 0); run_monad; cbn [final].
    + split; [split; [eapply Inv0_transfer|eapply settled_transfer]; eauto|].
      eapply balance_same with (tr := [ErrorLog _]); fields; auto.
    + auto.
  - unfold NewDisplay, CreateWindow, window. run_monad. rewrite Nat.add_0_r.
    destruct (fWindow p) as [w|] eqn:Hw; fields; try rewrite Hw; cbn [final];
      (split; [split; [eapply Inv0_transfer|eapply settled_transfer]; eauto;
               fields; auto; discriminate
              |apply balance_equal; reflexivity]).
  - unfold AddPanel. run_monad. rewrite Nat.add_0_r.
    destruct (fWindow p) as [w|] eqn:Hw.
    + destruct (IsShown w); cbn [negb].
      * destruct (Nat.eqb (String.length (RelativeAddr w win)) 0).
        -- cbn [final].
           split; [split; [eapply Inv0_transfer|eapply settled_transfer]; eauto|].
           eapply balance_same with (tr := [ErrorLog _]); fields; auto.
        -- destruct (DoWhenReady_good t ("ADDPANEL:" ++ RelativeAddr w win)
                       "AddPanel" true None p Hinv) as (p' & -> & Hi & Hb).
           cbn [final]. split; [exact Hi|]. rewrite Hb.
           unfold owed_by_command. cbn [tagged].
           destruct (String.eqb _ "JSON"); lia.
      * cbn [final].
        split; [split; [eapply Inv0_transfer|eapply settled_transfer]; eauto|].
        eapply balance_same with (tr := [ErrorLog _]); fields; auto.
    + cbn [final].
      split; [split; [eapply Inv0_transfer|eapply settled_transfer]; eauto|].
      eapply balance_same with (tr := [ErrorLog _]); fields; auto.
  - run_monad. rewrite Nat.add_0_r.
    destruct (fWindow p) as [w|] eqn:Hw.
    + apply ProcessData_good; [exact Hinv|congruence].
    + cbn [final]. auto.
  - run_monad. cbn [final]. rewrite Nat.add_0_r.
    split; [split; [eapply Inv0_transfer|eapply settled_transfer]; eauto;
            fields; auto using option_map_not_None
           |apply balance_equal; reflexivity].
  - run_monad. cbn [final]. rewrite Nat.add_0_r.
    split; [split; [eapply Inv0_transfer|eapply settled_transfer]; eauto
           |apply balance_equal; reflexivity].
Qed.

Lemma run_good (t : nat) (evs : list (Event Win Canvas)) (p : Painter) :
  Inv p ->
  Inv (run evs p) /\ balance t (run evs p) = (balance t p + owed_all t evs)%nat.
Proof.
  revert p. induction evs as [|ev evs IH]; intros p Hinv.
  - simpl. auto.
  - destruct (step_good t ev p Hinv) as [Hi Hb].
    destruct (IH (step p ev) Hi) as [Hi' Hb'].
    unfold run in *. simpl. split; [exact Hi'|]. rewrite Hb', Hb. lia.
Qed.

Lemma reachable_Inv (p : Painter) : reachable p -> Inv p.
Proof.
  induction 1 as [canv|p ev _ IH].
  - apply Inv_new.
  - apply (step_good 0%nat ev p IH).
Qed.

(** the teardown of a painter in use *)
Lemma destructor_good (t : nat) (p : Painter) :
  Inv p ->
  exists p',
    destructor p = Normal tt p' /\ fCmds p' = [] /\ fUpdatesLst p' = [] /\
    balance t p' = balance t p.
Proof.
  intros [(Hsf & Hconn & Hcb) Hs]. unfold destructor. run_monad.
  rewrite CancelCommands_eq. rewrite CancelUpdates_eq by (fields; exact Hcb).
  fields. eexists. split; [reflexivity|]. fields.
  assert (Hall : forall l : list WebCommand.t,
             filter (fun c => negb (cancels 0 c)) l = []).
  { induction l; simpl; auto. }
  split; [apply Hall|]. split; [reflexivity|].
  unfold balance, pending. fields. rewrite !fired_app, !fired_fire_all, Hall.
  pose proof (cancel_balance t 0 (fCmds p)) as Hc.
  rewrite Hall, fired_fire_all in Hc.
  change (count (fun c => tagged t (WebCommand.fCallback c)) []) with 0%nat in *.
  change (count (fun u => tagged t (WebUpdate.fCallback u)) []) with 0%nat.
  lia.
Qed.

End Invariants.

(** ** The delivered version (C1) *)

(** Among acknowledged versions that are not negative, [min_delivered] keeps
    the larger one at every connection. *)
Lemma next_min_delivered_max (m : Z) (conn : WebConn.t) :
  0 <= m -> 0 <= WebConn.fDelivered conn ->
  next_min_delivered m conn = Z.max m (WebConn.fDelivered conn).
Proof.
  intros Hm Hd. unfold next_min_delivered.
  destruct (Z.eqb_spec (WebConn.fDelivered conn) 0) as [H0|H0]; simpl.
  - rewrite H0. lia.
  - destruct (Z.eqb_spec m 0) as [Hm0|Hm0]; simpl; [lia|].
    destruct (Z.ltb_spec m (WebConn.fDelivered conn)); lia.
Qed.

(** Among acknowledged versions that are not negative, the loop of the push
    pass computes their maximum. *)
Lemma fold_next_min_delivered_max (conns : list WebConn.t) (m : Z) :
  0 <= m -> Forall (fun c => 0 <= WebConn.fDelivered c) conns ->
  fold_left next_min_delivered conns m =
  fold_left Z.max (map WebConn.fDelivered conns) m.
Proof.
  intros Hm Hall. revert m Hm.
  induction Hall as [|c l Hc _ IH]; intros m Hm; [reflexivity|].
  simpl. rewrite next_min_delivered_max by assumption. apply IH. lia.
Qed.

(** C1, on the code: with two connections that acknowledged the versions 3
    and 2, the delivered-to-all version the painter reports after the push
    pass is 3, the larger of the two, and not their minimum 2. *)
Theorem C1_delivered_is_largest_acknowledged :
  map WebConn.fDelivered (fWebConn ScenarioD.after) = [3; 2] /\
  fSnapshotDelivered ScenarioD.after = 3 /\
  IsCanvasModified 2 ScenarioD.after = true.
Proof. vm_compute. repeat split. Qed.

(** ** The fast path of an update (C3) *)

Section FastPath.

Context {Win Canvas Drawable : Type}.
Context {window_ops : TWebWindow Win} {canvas_ops : RCanvas Canvas Drawable}.

Abbreviation Painter := (TCanvasPainter Win Canvas).

(** C3: [CanvasUpdated(ver, async, callback)] with a version that is not zero
    and not newer than the delivered one returns at once: the callback, when
    there is one, is called with [true] before the method returns, no
    snapshot is produced (snapshot and snapshot version are as before), and
    nothing else of the painter changes but the window, which was synced. *)
Theorem C3_delivered_version_is_a_no_op (p : Painter) (ver : Z) (async : bool)
    (callback : CanvasCallback_t) :
  0 < ver -> ver <= fSnapshotDelivered p ->
  CanvasUpdated ver async callback p =
    Normal tt
      (set_fTrace (fTrace p ++ fire callback true)
         (set_fWindow (option_map Sync (fWindow p)) p)) /\
  fSnapshot (final (CanvasUpdated ver async callback p)) = fSnapshot p /\
  fSnapshotVersion (final (CanvasUpdated ver async callback p)) = fSnapshotVersion p /\
  fUpdatesLst (final (CanvasUpdated ver async callback p)) = fUpdatesLst p /\
  callbacks (fTrace (final (CanvasUpdated ver async callback p))) =
    (callbacks (fTrace p) ++
     match callback with
     | Some cb => [(cb, true)]
     | None => []
     end)%list.
Proof.
  intros Hver Hle.
  assert (Heq : CanvasUpdated ver async callback p =
                Normal tt
                  (set_fTrace (fTrace p ++ fire callback true)
                     (set_fWindow (option_map Sync (fWindow p)) p))).
  { unfold CanvasUpdated. run_monad. fields.
    replace (ver =? 0) with false by (symmetry; apply Z.eqb_neq; lia).
    replace (fSnapshotDelivered p =? 0) with false
      by (symmetry; apply Z.eqb_neq; lia).
    replace (ver <=? fSnapshotDelivered p) with true
      by (symmetry; apply Z.leb_le; lia).
    cbn [negb andb].
    destruct callback as [cb|]; cbn [fire]; f_equal; painter_eq. }
  split; [exact Heq|]. rewrite Heq. cbn [final]. fields.
  repeat split. rewrite callbacks_app. destruct callback; reflexivity.
Qed.

End FastPath.

Lemma C3_witness :
  0 < 2 /\ 2 <= fSnapshotDelivered ScenarioFastPath.before /\
  callbacks (fTrace (final (CanvasUpdated 2 true (Some 7%nat) ScenarioFastPath.before)))
  = (callbacks (fTrace ScenarioFastPath.before) ++ [(7%nat, true)])%list.
Proof.
  split; [lia|]. split; [vm_compute; discriminate|].
  apply (C3_delivered_version_is_a_no_op ScenarioFastPath.before 2 true (Some 7%nat)).
  - lia.
  - vm_compute. discriminate.
Defined.

(** ** Messages of unknown connections (C10) *)

Section UnknownConnection.

Context {Win Canvas Drawable : Type}.
Context {window_ops : TWebWindow Win} {canvas_ops : RCanvas Canvas Drawable}.

Abbreviation Painter := (TCanvasPainter Win Canvas).

(** C10: a message other than [CONN_READY] from a connection id without an
    entry in the connection list makes [ProcessData] return with the painter
    exactly as it was: no field changes, no callback is called, nothing is
    sent, and the push pass does not run. *)
Theorem C10_unknown_connection_is_ignored (p : Painter) (connid : Z) (arg : string) :
  arg <> "CONN_READY" ->
  (forall c, In c (fWebConn p) -> WebConn.fConnId c <> connid) ->
  ProcessData connid arg p = Normal tt p.
Proof.
  intros Harg Hnone. unfold ProcessData.
  destruct (String.eqb_spec arg "CONN_READY") as [Heq|_]; [contradiction|].
  run_monad.
  replace (find_conn connid (fWebConn p)) with
    (@None (list WebConn.t * WebConn.t * list WebConn.t)); [reflexivity|].
  symmetry. apply find_conn_None. apply Forall_forall. exact Hnone.
Qed.

End UnknownConnection.

Lemma C10_witness :
  "SNAPDONE:3" <> "CONN_READY" /\
  (forall c, In c (fWebConn ScenarioUnknown.before) -> WebConn.fConnId c <> 2) /\
  ProcessData 2 "SNAPDONE:3" ScenarioUnknown.before = Normal tt ScenarioUnknown.before.
Proof.
  assert (H1 : "SNAPDONE:3" <> "CONN_READY") by discriminate.
  assert (H2 : forall c, In c (fWebConn ScenarioUnknown.before) ->
                         WebConn.fConnId c <> 2).
  { intros c [<-|[]]. vm_compute. discriminate. }
  split; [exact H1|]. split; [exact H2|].
  exact (C10_unknown_connection_is_ignored ScenarioUnknown.before 2 "SNAPDONE:3" H1 H2).
Defined.

(** ** The reply to the running command (C9) *)

Lemma starts_with_head (a : ascii) (pre s : string) :
  starts_with (String a pre) s = true ->
  exists r, s = String a r /\ starts_with pre r = true.
Proof.
  unfold starts_with. destruct s as [|b r]; cbn [prefix]; [discriminate|].
  destruct (ascii_dec a b) as [<-|]; [|discriminate].
  intros H. exists r. auto.
Qed.

Lemma length_zero_iff (s : string) : Nat.eqb (String.length s) 0 = true <-> s = "".
Proof. destruct s; simpl; split; congruence. Qed.

Section Reply.

Context {Win Canvas Drawable : Type}.
Context {window_ops : TWebWindow Win} {canvas_ops : RCanvas Canvas Drawable}.

Abbreviation Painter := (TCanvasPainter Win Canvas).

(** C9: [FrontCommandReplied(reply)] on a queue with the head [cmd] pops the
    head, marks it ready, stores a result in it and calls its callback, when
    it has one, with that result.  For the names SVG, PNG and JPEG the result
    is [false] exactly when the reply is empty, and for a reply that is not
    empty its base64-decoded content is written to the file [cmd.fArg]; for a
    name that starts with [ADDPANEL:] the result is [true] exactly when the
    reply is the text [true]. *)
Theorem C9_reply_completes_the_head (p : Painter) (cmd : WebCommand.t)
    (rest : list WebCommand.t) (reply : string) :
  fCmds p = cmd :: rest ->
  exists (result : bool) (p' : Painter),
    FrontCommandReplied reply p = Normal tt p' /\
    fCmds p' = rest /\
    fReleased p' =
      (fReleased p ++
       [WebCommand.set_fCallback None
          (WebCommand.set_fResult result (WebCommand.set_fReady true cmd))])%list /\
    callbacks (fTrace p') =
      (callbacks (fTrace p) ++
       match WebCommand.fCallback cmd with
       | Some cb => [(cb, result)]
       | None => []
       end)%list /\
    (WebCommand.fName cmd = "SVG" \/ WebCommand.fName cmd = "PNG" \/
     WebCommand.fName cmd = "JPEG" ->
     (result = false <-> reply = "") /\
     (reply <> "" ->
      In (WriteFile (c_str (WebCommand.fArg cmd)) (TBase64_Decode (c_str reply))) (fTrace p')) /\
     (reply = "" ->
      fTrace p' =
        (fTrace p ++ ErrorLog ("Fail to produce image" ++ WebCommand.fArg cmd)
                     :: fire (WebCommand.fCallback cmd) false)%list)) /\
    (starts_with "ADDPANEL:" (WebCommand.fName cmd) = true ->
     (result = true <-> reply = "true")).
Proof.
  intros Hcmds.
  destruct (FrontCommandReplied_popped reply p cmd rest Hcmds)
    as (result & tr & Heq & Hsilent & Hverb).
  exists result. eexists. split; [exact Heq|]. fields.
  split; [reflexivity|]. split; [reflexivity|]. split.
  { rewrite !callbacks_app, Hsilent. destruct (WebCommand.fCallback cmd); reflexivity. }
  split.
  - intros Hname.
    assert (Himg : (String.eqb (WebCommand.fName cmd) "SVG" ||
                    String.eqb (WebCommand.fName cmd) "PNG" ||
                    String.eqb (WebCommand.fName cmd) "JPEG")%bool = true).
    { destruct Hname as [-> | [-> | ->]]; reflexivity. }
    rewrite Himg in Hverb.
    destruct (Nat.eqb (String.length reply) 0) eqn:Hlen.
    + apply length_zero_iff in Hlen. destruct Hverb as [-> ->].
      split; [tauto|]. split; [congruence|]. intros _. reflexivity.
    + assert (Hne : reply <> "").
      { intros ->. discriminate. }
      destruct Hverb as [-> (msg & ->)].
      split; [split; [discriminate|contradiction]|]. split; [|contradiction].
      intros _. apply in_or_app. right. simpl. auto.
  - intros Hpanel.
    assert (Himg : (String.eqb (WebCommand.fName cmd) "SVG" ||
                    String.eqb (WebCommand.fName cmd) "PNG" ||
                    String.eqb (WebCommand.fName cmd) "JPEG")%bool = false).
    { apply starts_with_head in Hpanel. destruct Hpanel as (r & -> & Hpanel).
      apply starts_with_head in Hpanel. destruct Hpanel as (r' & -> & _).
      reflexivity. }
    rewrite Himg, Hpanel in Hverb. destruct Hverb as [-> _].
    apply String.eqb_eq.
Qed.

End Reply.

Lemma C9_witness :
  fCmds ScenarioC.before = [ScenarioC.head] /\
  exists p',
    FrontCommandReplied "abcd" ScenarioC.before = Normal tt p' /\
    fCmds p' = [] /\
    callbacks (fTrace p') = (callbacks (fTrace ScenarioC.before) ++ [(7%nat, true)])%list.
Proof.
  assert (H : fCmds ScenarioC.before = [ScenarioC.head]) by (vm_compute; reflexivity).
  split; [exact H|].
  destruct (C9_reply_completes_the_head ScenarioC.before ScenarioC.head [] "abcd" H)
    as (result & p' & Heq & Hcmds & _ & Hcalls & Himage & _).
  exists p'. split; [exact Heq|]. split; [exact Hcmds|].
  rewrite Hcalls. simpl.
  destruct Himage as [[Hfalse _] _]; [right; left; reflexivity|].
  destruct result; [reflexivity|].
  specialize (Hfalse eq_refl). discriminate.
Defined.

(** ** Viewers that leave without an acknowledgement (C6) *)

(** C6, on the code: after the only viewer disconnected without having
    acknowledged a snapshot, the painter knows it had a viewer and has none
    left, yet the pending update is still in the list and its callback was
    not called; the wait function of a blocking update reports failure for
    the same state. *)
Theorem C6_update_left_pending_after_disconnect :
  fHadWebConn ScenarioLostViewer.after = true /\
  fWebConn ScenarioLostViewer.after = [] /\
  fUpdatesLst ScenarioLostViewer.after = [WebUpdate.Build 5 (Some 7%nat)] /\
  callbacks (fTrace ScenarioLostViewer.after) = [] /\
  CheckDeliveredVersion 5 ScenarioLostViewer.after = -1.
Proof. vm_compute. repeat split. Qed.

(** ** One command in flight (C2) *)

Lemma single_flight_count (cmds : list WebCommand.t) :
  single_flight cmds -> (count WebCommand.fRunning cmds <= 1)%nat.
Proof.
  unfold single_flight. destruct cmds as [|c r]; simpl; intros H.
  - unfold count. simpl. lia.
  - rewrite count_cons.
    assert (Hr : count WebCommand.fRunning r = 0%nat).
    { induction H as [|x l Hx _ IH]; [reflexivity|].
      rewrite count_cons, Hx, IH. reflexivity. }
    rewrite Hr. destruct (WebCommand.fRunning c); lia.
Qed.

Section Lifetime.

Context {Win Canvas Drawable : Type}.
Context {window_ops : TWebWindow Win} {canvas_ops : RCanvas Canvas Drawable}.

Abbreviation Painter := (TCanvasPainter Win Canvas).

(** C2: after every sequence of calls of the painter's methods ([CanvasUpdated],
    [DoWhenReady], [AddPanel], [NewDisplay]), of messages given to
    [ProcessData] (connections, acknowledgements, replies, disconnections and
    whatever else a viewer may send, each followed by its push pass) and of
    activity of the window and the canvas, at most one command of the queue
    is running, and no command behind the head is; a cancellation for any
    connection keeps it so. *)
Theorem C2_one_command_in_flight (canv : Canvas) (evs : list (Event Win Canvas)) :
  (count WebCommand.fRunning (fCmds (run evs (new_TCanvasPainter canv))) <= 1)%nat /\
  Forall (fun c => WebCommand.fRunning c = false)
    (tl (fCmds (run evs (new_TCanvasPainter canv)))) /\
  forall connid,
    Forall (fun c => WebCommand.fRunning c = false)
      (tl (fCmds (final (CancelCommands connid (run evs (new_TCanvasPainter canv)))))).
Proof.
  destruct (run_good 0%nat evs (new_TCanvasPainter canv) (Inv_new canv))
    as [[(Hsf & _) _] _].
  split; [apply single_flight_count; exact Hsf|]. split; [exact Hsf|].
  intros connid. rewrite CancelCommands_eq. cbn [final]. fields.
  apply single_flight_filter. exact Hsf.
Qed.

End Lifetime.

(** ** Replies that do not belong to the running command (C4) *)

(** a message that starts with [REPLY:] reaches the branch for replies *)
Lemma reply_reaches_its_branch (arg : string) :
  starts_with "REPLY:" arg = true ->
  String.eqb arg "CONN_READY" = false /\ String.eqb arg "CONN_CLOSED" = false /\
  starts_with "READY" arg = false /\ starts_with "SNAPDONE:" arg = false /\
  starts_with "RREADY:" arg = false /\ starts_with "GETMENU:" arg = false /\
  String.eqb arg "QUIT" = false /\ String.eqb arg "RELOAD" = false /\
  String.eqb arg "INTERRUPT" = false.
Proof.
  intros H.
  apply starts_with_head in H. destruct H as (r1 & -> & H).
  apply starts_with_head in H. destruct H as (r2 & -> & H).
  apply starts_with_head in H. destruct H as (r3 & -> & _).
  repeat split; reflexivity.
Qed.

Section RejectedReply.

Context {Win Canvas Drawable : Type}.
Context {window_ops : TWebWindow Win} {canvas_ops : RCanvas Canvas Drawable}.

Abbreviation Painter := (TCanvasPainter Win Canvas).

(** a reply with the id of the running head reaches [FrontCommandReplied]
    with the text behind the first colon, and the push pass follows *)
Lemma ProcessData_accepted_reply (p : Painter) (connid : Z) (arg : string)
    (front : WebCommand.t) (rest : list WebCommand.t) (i : nat) :
  (exists c, In c (fWebConn p) /\ WebConn.fConnId c = connid) ->
  starts_with "REPLY:" arg = true ->
  fCmds p = front :: rest -> WebCommand.fRunning front = true ->
  find_char ":" (c_str (erase_front 6 arg)) = Some i ->
  WebCommand.fId front = substring 0 i (c_str (erase_front 6 arg)) ->
  ProcessData connid arg p =
  bind (FrontCommandReplied (erase_front (i + 1) (c_str (erase_front 6 arg))))
    (fun _ => CheckDataToSend) p.
Proof.
  intros (c & Hin & Hid) Hreply Hcmds Hrun Hsep Hfid.
  destruct (reply_reaches_its_branch arg Hreply)
    as (H1 & H2 & H3 & H4 & H5 & H6 & H7 & H8 & H9).
  unfold ProcessData. rewrite H1. run_monad.
  destruct (find_conn connid (fWebConn p)) as [[[before conn] after]|] eqn:Hfind.
  2:{ apply find_conn_None in Hfind. rewrite Forall_forall in Hfind.
      exfalso. exact (Hfind c Hin Hid). }
  unfold ProcessData_branch. rewrite H2, H3, H4, H5, H6, H7, H8, H9, Hreply.
  run_monad. rewrite Hcmds, Hrun. cbn [negb].
  unfold reply_id. rewrite Hsep, Hfid, String.eqb_refl. cbn [negb].
  destruct (FrontCommandReplied _ p); reflexivity.
Qed.

(** a message [READY] of a known connection only runs the push pass *)
Lemma ProcessData_ready (p : Painter) (connid : Z)
    (before : list WebConn.t) (conn : WebConn.t) (after : list WebConn.t) :
  find_conn connid (fWebConn p) = Some (before, conn, after) ->
  ProcessData connid "READY" p = CheckDataToSend p.
Proof.
  intros Hfind. unfold ProcessData.
  change (String.eqb "READY" "CONN_READY") with false. run_monad. rewrite Hfind.
  unfold ProcessData_branch.
  change (String.eqb "READY" "CONN_CLOSED") with false.
  change (starts_with "READY" "READY") with true.
  unfold ret. destruct (CheckDataToSend p); reflexivity.
Qed.

(** C4: the branch of [ProcessData] for a message that starts with [REPLY:],
    on any painter and for any connection.  When the queue is empty, or its
    head is not running, or the identifier in the reply (the text between
    [REPLY:] and the next colon, up to a NUL; empty without a colon) is not
    the identifier of the head, the branch writes one error line and does
    nothing else: the painter it leaves is the painter it found but for that
    line.  So the queue holds the same commands with the same flags, no
    command is released, no callback is called, and the pending updates and
    the connections are as they were.  For a message of a known connection,
    [ProcessData] then ends with the push pass that ends every message: the
    same pass that a [READY] message runs on that painter. *)
Theorem C4_rejected_reply_is_not_applied (p : Painter) (connid : Z) (arg : string)
    (before : list WebConn.t) (conn : WebConn.t) (after : list WebConn.t) :
  starts_with "REPLY:" arg = true ->
  rejected (fCmds p) (reply_id (c_str (erase_front 6 arg))) ->
  exists (msg : string) (q : Painter),
    ProcessData_branch connid arg before conn after p = Normal true q /\
    q = set_fTrace (fTrace p ++ [ErrorLog msg]) p /\
    msg = match fCmds p with
          | [] => "Get REPLY without command"
          | front :: _ =>
              if WebCommand.fRunning front
              then "Mismatch with front command and ID in REPLY"
              else "Front command is not running when get reply"
          end /\
    fCmds q = fCmds p /\ fReleased q = fReleased p /\
    fUpdatesLst q = fUpdatesLst p /\ fWebConn q = fWebConn p /\
    callbacks (fTrace q) = callbacks (fTrace p) /\
    (find_conn connid (fWebConn p) = Some (before, conn, after) ->
     ProcessData connid arg p = CheckDataToSend q /\
     ProcessData connid "READY" q = CheckDataToSend q).
Proof.
  intros Hreply Hrej.
  destruct (reply_reaches_its_branch arg Hreply)
    as (H1 & H2 & H3 & H4 & H5 & H6 & H7 & H8 & H9).
  assert (Hbranch : exists msg,
            ProcessData_branch connid arg before conn after p
            = Normal true (set_fTrace (fTrace p ++ [ErrorLog msg]) p) /\
            msg = match fCmds p with
                  | [] => "Get REPLY without command"
                  | front :: _ =>
                      if WebCommand.fRunning front
                      then "Mismatch with front command and ID in REPLY"
                      else "Front command is not running when get reply"
                  end).
  { unfold ProcessData_branch. rewrite H2, H3, H4, H5, H6, H7, H8, H9, Hreply.
    run_monad. unfold rejected in Hrej.
    destruct (fCmds p) as [|front rest].
    - eexists. split; reflexivity.
    - destruct (WebCommand.fRunning front); cbn [negb].
      + destruct (String.eqb_spec (WebCommand.fId front)
                    (reply_id (c_str (erase_front 6 arg)))) as [Heq|Hneq]; cbn [negb].
        * destruct Hrej as [Hrej|Hrej]; [discriminate|contradiction].
        * eexists. split; reflexivity.
      + eexists. split; reflexivity. }
  destruct Hbranch as (msg & Hbranch & Hmsg).
  exists msg, (set_fTrace (fTrace p ++ [ErrorLog msg]) p).
  split; [exact Hbranch|]. split; [reflexivity|]. split; [exact Hmsg|]. fields.
  split; [reflexivity|]. split; [reflexivity|]. split; [reflexivity|].
  split; [reflexivity|]. split.
  { rewrite callbacks_app. cbn [callbacks flat_map app]. apply app_nil_r. }
  intros Hfind. split.
  - unfold ProcessData. rewrite H1. run_monad. rewrite Hfind, Hbranch. reflexivity.
  - apply (ProcessData_ready _ connid before conn after). fields. exact Hfind.
Qed.

End RejectedReply.

Lemma C4_witness :
  starts_with "REPLY:" "REPLY:1:abcd" = true /\
  fCmds ScenarioStaleReply.before = [ScenarioStaleReply.head] /\
  WebCommand.fRunning ScenarioStaleReply.head = false /\
  exists (msg : string) (q : TCanvasPainter Demo.Window Demo.Canvas),
    ProcessData_branch 1 "REPLY:1:abcd" [] (WebConn.Build 1 true "" 0 0) []
      ScenarioStaleReply.before = Normal true q /\
    q = set_fTrace (fTrace ScenarioStaleReply.before ++ [ErrorLog msg])
          ScenarioStaleReply.before /\
    fCmds q = fCmds ScenarioStaleReply.before /\
    callbacks (fTrace q) = callbacks (fTrace ScenarioStaleReply.before).
Proof.
  assert (Hreply : starts_with "REPLY:" "REPLY:1:abcd" = true) by reflexivity.
  assert (Hcmds : fCmds ScenarioStaleReply.before = [ScenarioStaleReply.head])
    by (vm_compute; reflexivity).
  assert (Hrej : rejected (fCmds ScenarioStaleReply.before)
                   (reply_id (c_str (erase_front 6 "REPLY:1:abcd")))).
  { rewrite Hcmds. left. reflexivity. }
  split; [exact Hreply|]. split; [exact Hcmds|]. split; [reflexivity|].
  destruct (C4_rejected_reply_is_not_applied ScenarioStaleReply.before 1
              "REPLY:1:abcd" [] (WebConn.Build 1 true "" 0 0) [] Hreply Hrej)
    as (msg & q & Heq & Hq & _ & Hsame & _ & _ & _ & Hcalls & _).
  exists msg, q. auto.
Defined.

(** ** The choice of the payload in the push pass (C7) *)

Lemma sent_fire_all {A : Type} (get : A -> CanvasCallback_t) (res : bool)
    (l : list A) :
  sent (flat_map (fun x => fire (get x) res) l) = [].
Proof.
  induction l as [|x l IH]; [reflexivity|].
  simpl. rewrite sent_app, IH. destruct (get x); reflexivity.
Qed.

Section Priority.

Context {Win Canvas Drawable : Type}.
Context {window_ops : TWebWindow Win} {canvas_ops : RCanvas Canvas Drawable}.

Abbreviation Painter := (TCanvasPainter Win Canvas).

Lemma CheckDataToSend_conn_turn (conn : WebConn.t) (m : Z) (p : Painter) (w : Win) :
  fWindow p = Some w ->
  CanSend w (WebConn.fConnId conn) = true ->
  exists p',
    CheckDataToSend_conn conn m p =
      Normal (conn_after_turn p conn, next_min_delivered m conn) p' /\
    fCmds p' = cmds_after_turn p conn /\
    sent (fTrace p') =
      (sent (fTrace p) ++
       match payload_by_priority p conn with
       | Some pl => [(WebConn.fConnId conn, c_str (payload_text pl))]
       | None => []
       end)%list /\
    fWebConn p' = fWebConn p /\ fUpdatesLst p' = fUpdatesLst p /\
    callbacks (fTrace p') = callbacks (fTrace p).
Proof.
  intros Hw Hcan.
  unfold CheckDataToSend_conn, window, conn_after_turn, cmds_after_turn,
    payload_by_priority. run_monad. rewrite Hw, Hcan. cbn [negb].
  unfold choose_payload. run_monad.
  destruct (front_to_run conn (fCmds p)) as [[cmd rest]|].
  - fields. rewrite buf_test. unfold send, window. run_monad. fields. rewrite Hw.
    eexists. split; [reflexivity|]. fields. repeat split.
    + rewrite sent_app. reflexivity.
    + rewrite callbacks_app. cbn [callbacks flat_map app]. apply app_nil_r.
  - destruct (String.eqb (WebConn.fGetMenu conn) ""); cbn [negb].
    + destruct (WebConn.fSend conn =? fSnapshotVersion p); cbn [negb]; fields.
      * exists p. repeat split. symmetry. apply app_nil_r.
      * rewrite buf_test. unfold send, window. run_monad. fields. rewrite Hw.
        eexists. split; [reflexivity|]. fields. repeat split.
        -- rewrite sent_app. reflexivity.
        -- rewrite callbacks_app. cbn [callbacks flat_map app]. apply app_nil_r.
    + fields.
      destruct (FindDrawable (fCanvas p) (WebConn.fGetMenu conn)) as [d|].
      * rewrite buf_test. unfold send, window. run_monad. fields. rewrite Hw.
        eexists. split; [reflexivity|]. fields. repeat split.
        -- rewrite !sent_app. cbn [sent flat_map app]. rewrite app_nil_r.
           reflexivity.
        -- rewrite !callbacks_app. cbn [callbacks flat_map app].
           rewrite !app_nil_r. reflexivity.
      * change (0 <? Z.of_nat (String.length "")) with false. cbv iota.
        eexists. split; [reflexivity|]. fields. repeat split.
        -- rewrite sent_app. reflexivity.
        -- rewrite callbacks_app. cbn [callbacks flat_map app]. apply app_nil_r.
Qed.

(** the choice of the payload looks at the queue, the canvas and the
    snapshot only *)
Lemma turn_by_priority_ext (w : Win) (p p' : Painter) (conn : WebConn.t) :
  fCmds p' = fCmds p -> fCanvas p' = fCanvas p ->
  fSnapshotVersion p' = fSnapshotVersion p -> fSnapshot p' = fSnapshot p ->
  turn_by_priority w p' conn = turn_by_priority w p conn.
Proof.
  intros Hcmds Hcan Hver Hsnap.
  unfold turn_by_priority, payload_by_priority, conn_after_turn, cmds_after_turn.
  rewrite Hcmds, Hcan, Hver, Hsnap. reflexivity.
Qed.

Lemma pass_by_priority_ext (conns : list WebConn.t) (w : Win) (p p' : Painter) :
  fCmds p' = fCmds p -> fCanvas p' = fCanvas p ->
  fSnapshotVersion p' = fSnapshotVersion p -> fSnapshot p' = fSnapshot p ->
  pass_by_priority conns w p' = pass_by_priority conns w p.
Proof.
  revert w p p'. induction conns as [|conn rest IH]; intros w p p' Hcmds Hcan Hver Hsnap.
  - cbn [pass_by_priority]. rewrite Hcmds. reflexivity.
  - cbn [pass_by_priority]. cbv zeta.
    rewrite (turn_by_priority_ext w p p' conn Hcmds Hcan Hver Hsnap).
    rewrite (IH (window_left (turn_by_priority w p conn))
               (set_fCmds (queue_left (turn_by_priority w p conn)) p)
               (set_fCmds (queue_left (turn_by_priority w p conn)) p'));
      fields; auto.
Qed.

(** one turn of the loop, on a painter that has a window, does what the
    description says of it *)
Lemma CheckDataToSend_conn_by_priority (conn : WebConn.t) (m : Z) (p : Painter)
    (w : Win) :
  fWindow p = Some w ->
  exists tr,
    CheckDataToSend_conn conn m p =
      Normal (hd conn (visited (turn_by_priority w p conn)), next_min_delivered m conn)
        (pushed (Some (window_left (turn_by_priority w p conn)))
           (queue_left (turn_by_priority w p conn)) tr p) /\
    visited (turn_by_priority w p conn)
    = [hd conn (visited (turn_by_priority w p conn))] /\
    sent tr = messages (turn_by_priority w p conn) /\ Forall quiet tr.
Proof.
  intros Hw.
  unfold CheckDataToSend_conn, window, turn_by_priority, conn_after_turn,
    cmds_after_turn, payload_by_priority. run_monad. rewrite Hw.
  assert (Hsame : pushed (Some w) (fCmds p) [] p = p).
  { rewrite <- Hw. apply pushed_same. }
  destruct (CanSend w (WebConn.fConnId conn)); cbn [negb].
  2:{ exists []. cbn [visited window_left queue_left messages hd].
      rewrite Hsame. turn_done. }
  unfold choose_payload. run_monad.
  destruct (front_to_run conn (fCmds p)) as [[cmd rest]|] eqn:Hfront.
  - fields. rewrite buf_test. unfold send, window. run_monad. fields. rewrite Hw.
    cbn [visited window_left queue_left messages hd payload_text].
    eexists [_]. split; [unfold pushed; f_equal; painter_eq|]. turn_done.
  - destruct (String.eqb (WebConn.fGetMenu conn) ""); cbn [negb].
    + destruct (WebConn.fSend conn =? fSnapshotVersion p); cbn [negb]; fields.
      * exists []. cbn [visited window_left queue_left messages hd].
        rewrite Hsame. turn_done.
      * rewrite buf_test. unfold send, window. run_monad. fields. rewrite Hw.
        cbn [visited window_left queue_left messages hd payload_text].
        eexists [_]. split; [unfold pushed; f_equal; painter_eq|]. turn_done.
    + fields.
      destruct (FindDrawable (fCanvas p) (WebConn.fGetMenu conn)) as [d|].
      * rewrite buf_test. unfold send, window. run_monad. fields. rewrite Hw.
        cbn [visited window_left queue_left messages hd payload_text].
        eexists [_; _]. split; [unfold pushed; f_equal; painter_eq|]. turn_done.
      * change (0 <? Z.of_nat (String.length "")) with false. cbv iota.
        cbn [visited window_left queue_left messages hd].
        eexists [_]. split; [unfold pushed; f_equal; painter_eq; auto|]. turn_done.
Qed.

(** the loop of the push pass, on a painter that has a window, does what
    the description says of it *)
Lemma CheckDataToSend_loop_by_priority (conns : list WebConn.t) (m : Z)
    (p : Painter) (w : Win) :
  fWindow p = Some w ->
  exists tr,
    CheckDataToSend_loop conns m p =
      Normal (visited (pass_by_priority conns w p),
              fold_left next_min_delivered conns m)
        (pushed (Some (window_left (pass_by_priority conns w p)))
           (queue_left (pass_by_priority conns w p)) tr p) /\
    sent tr = messages (pass_by_priority conns w p) /\ Forall quiet tr.
Proof.
  revert m p w. induction conns as [|conn rest IH]; intros m p w Hw.
  - exists []. cbn [CheckDataToSend_loop fold_left pass_by_priority visited
                     window_left queue_left messages]. unfold ret.
    rewrite <- Hw, pushed_same. turn_done.
  - destruct (CheckDataToSend_conn_by_priority conn m p w Hw)
      as (tr1 & Heq1 & Hone & Hsent1 & Hq1).
    cbn [pass_by_priority]. cbv zeta.
    set (turn := turn_by_priority w p conn) in *.
    set (p1 := pushed (Some (window_left turn)) (queue_left turn) tr1 p) in *.
    destruct (IH (next_min_delivered m conn) p1 (window_left turn) eq_refl)
      as (tr2 & Heq2 & Hsent2 & Hq2).
    assert (Hext : pass_by_priority rest (window_left turn) p1
                   = pass_by_priority rest (window_left turn)
                       (set_fCmds (queue_left turn) p)).
    { apply pass_by_priority_ext; reflexivity. }
    rewrite Hext in Heq2, Hsent2.
    exists (tr1 ++ tr2)%list.
    cbn [CheckDataToSend_loop visited window_left queue_left messages fold_left].
    unfold bind. rewrite Heq1. fields. rewrite Heq2. fields. unfold ret.
    subst p1. rewrite pushed_pushed. rewrite Hone. cbn [app hd].
    split; [reflexivity|]. split.
    + rewrite sent_app, Hsent1, Hsent2. reflexivity.
    + apply Forall_app. auto.
Qed.

(** the pass of the description visits the connections in their order and
    sends each at most one message *)
Lemma pass_by_priority_order (conns : list WebConn.t) (w : Win) (p : Painter) :
  map WebConn.fConnId (visited (pass_by_priority conns w p))
  = map WebConn.fConnId conns /\
  subseq (map fst (messages (pass_by_priority conns w p)))
    (map WebConn.fConnId conns).
Proof.
  revert w p. induction conns as [|conn rest IH]; intros w p.
  - cbn [pass_by_priority visited messages map]. split; [reflexivity|constructor].
  - cbn [pass_by_priority]. cbv zeta.
    set (turn := turn_by_priority w p conn).
    destruct (IH (window_left turn) (set_fCmds (queue_left turn) p)) as [Hv Hm].
    cbn [visited messages]. rewrite !map_app, Hv.
    assert (Hturn : map WebConn.fConnId (visited turn) = [WebConn.fConnId conn] /\
                    (messages turn = [] \/
                     exists buf, messages turn = [(WebConn.fConnId conn, buf)])).
    { subst turn. unfold turn_by_priority, conn_after_turn.
      destruct (CanSend w (WebConn.fConnId conn)); [|split; [reflexivity|auto]].
      assert (Hid : WebConn.fConnId
                      match front_to_run conn (fCmds p) with
                      | Some _ => conn
                      | None =>
                          if negb (String.eqb (WebConn.fGetMenu conn) "")
                          then WebConn.set_fGetMenu "" conn
                          else if negb (WebConn.fSend conn =? fSnapshotVersion p)
                               then WebConn.set_fSend (fSnapshotVersion p) conn
                               else conn
                      end = WebConn.fConnId conn).
      { destruct (front_to_run conn (fCmds p)); [reflexivity|].
        destruct (negb (String.eqb (WebConn.fGetMenu conn) "")); [reflexivity|].
        destruct (negb (WebConn.fSend conn =? fSnapshotVersion p)); reflexivity. }
      destruct (payload_by_priority p conn) as [pl|];
        cbn [visited messages map]; rewrite Hid; split; eauto. }
    destruct Hturn as [-> Hmsg]. split; [reflexivity|].
    destruct Hmsg as [->|(buf & ->)]; cbn [map fst app].
    + apply subseq_skip. exact Hm.
    + apply subseq_take. exact Hm.
Qed.

(** what follows the loop in [CheckDataToSend] only calls callbacks and
    changes the pending updates and the delivered version *)
Lemma CancelUpdates_loop_quiet (l : list WebUpdate.t) (p : Painter) :
  fWindow (final (CancelUpdates_loop l p)) = fWindow p /\
  fCmds (final (CancelUpdates_loop l p)) = fCmds p /\
  fWebConn (final (CancelUpdates_loop l p)) = fWebConn p /\
  sent (fTrace (final (CancelUpdates_loop l p))) = sent (fTrace p).
Proof.
  revert p. induction l as [|curr rest IH]; intros p.
  - cbn [CancelUpdates_loop ret final]. auto.
  - cbn [CancelUpdates_loop]. run_monad.
    destruct (WebUpdate.fCallback curr) as [cb|]; [|cbn [final]; auto].
    match goal with
    | |- context [CancelUpdates_loop rest ?s] =>
        destruct (IH s) as (H1 & H2 & H3 & H4)
    end.
    rewrite H1, H2, H3, H4. fields. rewrite sent_app. cbn [sent flat_map app].
    rewrite app_nil_r. auto.
Qed.

Lemma CheckDataToSend_by_priority (p : Painter) (w : Win) :
  fWindow p = Some w ->
  fWebConn (final (CheckDataToSend p)) = visited (pass_by_priority (fWebConn p) w p) /\
  fWindow (final (CheckDataToSend p))
  = Some (window_left (pass_by_priority (fWebConn p) w p)) /\
  fCmds (final (CheckDataToSend p)) = queue_left (pass_by_priority (fWebConn p) w p) /\
  sent (fTrace (final (CheckDataToSend p)))
  = (sent (fTrace p) ++ messages (pass_by_priority (fWebConn p) w p))%list.
Proof.
  intros Hw.
  destruct (CheckDataToSend_loop_by_priority (fWebConn p) 0 p w Hw)
    as (tr & Heq & Hsent & _).
  unfold CheckDataToSend. run_monad. rewrite Heq. unfold pushed. fields.
  destruct (empty _ && negb (fSnapshotDelivered p =? 0))%bool.
  - unfold CancelUpdates. run_monad. fields.
    match goal with
    | |- context [CancelUpdates_loop ?l ?s] =>
        destruct (CancelUpdates_loop_quiet l s) as (H1 & H2 & H3 & H4)
    end.
    rewrite H1, H2, H3, H4. fields. rewrite sent_app, Hsent. auto.
  - destruct (negb (fSnapshotDelivered p =? _)).
    + rewrite complete_updates_eq. cbn [final]. fields.
      rewrite !sent_app, Hsent, sent_fire_all, app_nil_r. auto.
    + cbn [final]. fields. rewrite sent_app, Hsent. auto.
Qed.

(** C7, as the code has it, for every painter that has a window (the push
    pass uses the window without a test).  In the loop of a push pass a
    connection whose channel cannot take data is left as it is, and so is
    the painter.  For a connection that can take data, at most one message
    is sent, chosen by priority: the command at the head of the queue when
    the connection is ready for it, the head not running and bound to no or
    to this connection (the head is then running and bound to it); else,
    for a pending menu request, the menu of the requested drawable when the
    canvas has that drawable and no message when it has not, the request
    being cleared in both cases; else the snapshot when the version sent to
    the connection is not the snapshot's, which it then is.  The loop as a
    whole, and with it [CheckDataToSend], is the pass of the description,
    [pass_by_priority]: the connections are visited in the order of the
    list, each with the window and the queue that the turn before left; it
    leaves the connections, the window and the queue of that pass and sends
    its messages, which go to connections of the list in the order of the
    list, at most one for each entry.  The pass returns when every pending
    update has a callback. *)
Theorem C7_payload_by_priority (p : Painter) (w : Win) :
  fWindow p = Some w ->
  (forall conn m,
     CanSend w (WebConn.fConnId conn) = false ->
     CheckDataToSend_conn conn m p = Normal (conn, next_min_delivered m conn) p) /\
  (forall conn m,
     CanSend w (WebConn.fConnId conn) = true ->
     exists p',
       CheckDataToSend_conn conn m p =
         Normal (conn_after_turn p conn, next_min_delivered m conn) p' /\
       fCmds p' = cmds_after_turn p conn /\
       sent (fTrace p') =
         (sent (fTrace p) ++
          match payload_by_priority p conn with
          | Some pl => [(WebConn.fConnId conn, c_str (payload_text pl))]
          | None => []
          end)%list /\
       fWindow p' =
         match payload_by_priority p conn with
         | Some pl => Some (Send w (WebConn.fConnId conn) (c_str (payload_text pl)))
         | None => Some w
         end) /\
  (forall conns m,
     exists tr,
       CheckDataToSend_loop conns m p =
         Normal (visited (pass_by_priority conns w p),
                 fold_left next_min_delivered conns m)
           (pushed (Some (window_left (pass_by_priority conns w p)))
              (queue_left (pass_by_priority conns w p)) tr p) /\
       sent tr = messages (pass_by_priority conns w p) /\
       callbacks tr = []) /\
  (fWebConn (final (CheckDataToSend p)) = visited (pass_by_priority (fWebConn p) w p) /\
   fWindow (final (CheckDataToSend p))
   = Some (window_left (pass_by_priority (fWebConn p) w p)) /\
   fCmds (final (CheckDataToSend p)) = queue_left (pass_by_priority (fWebConn p) w p) /\
   sent (fTrace (final (CheckDataToSend p)))
   = (sent (fTrace p) ++ messages (pass_by_priority (fWebConn p) w p))%list) /\
  (forall conns,
     map WebConn.fConnId (visited (pass_by_priority conns w p))
     = map WebConn.fConnId conns /\
     subseq (map fst (messages (pass_by_priority conns w p)))
       (map WebConn.fConnId conns) /\
     (List.length (messages (pass_by_priority conns w p)) <= List.length conns)%nat) /\
  (Forall has_callback (fUpdatesLst p) ->
   exists q, CheckDataToSend p = Normal tt q).
Proof.
  intros Hw. split; [|split; [|split; [|split; [|split]]]].
  - intros conn m Hcan. unfold CheckDataToSend_conn, window. run_monad.
    rewrite Hw, Hcan. reflexivity.
  - intros conn m Hcan.
    destruct (CheckDataToSend_conn_turn conn m p w Hw Hcan)
      as (p' & Heq & Hcmds & Hsent & _).
    exists p'. split; [exact Heq|]. split; [exact Hcmds|]. split; [exact Hsent|].
    destruct (CheckDataToSend_conn_by_priority conn m p w Hw) as (tr & Heq' & _).
    rewrite Heq in Heq'. injection Heq' as _ ->.
    unfold pushed, turn_by_priority. fields. rewrite Hcan.
    destruct (payload_by_priority p conn); reflexivity.
  - intros conns m.
    destruct (CheckDataToSend_loop_by_priority conns m p w Hw)
      as (tr & Heq & Hsent & Hq).
    exists tr. split; [exact Heq|]. split; [exact Hsent|].
    apply callbacks_quiet. exact Hq.
  - apply CheckDataToSend_by_priority. exact Hw.
  - intros conns. destruct (pass_by_priority_order conns w p) as [Hv Hm].
    split; [exact Hv|]. split; [exact Hm|].
    apply subseq_length in Hm. rewrite !length_map in Hm. exact Hm.
  - intros Hcb.
    destruct (CheckDataToSend_passed p) as (w' & cmds' & conns' & tr & Heq & _).
    { right. congruence. }
    { exact Hcb. }
    eexists. exact Heq.
Qed.

End Priority.

(** C7 as it was stated fails: a connection can take data, no command is
    queued, its menu request is pending and the snapshot was not sent to it,
    yet its turn in the push pass produces no payload at all; the request is
    cleared. *)
Lemma C7_counterexample :
  fWindow ScenarioUnknownMenu.before = Some ScenarioUnknownMenu.window /\
  fWebConn ScenarioUnknownMenu.before = [ScenarioUnknownMenu.conn] /\
  fCmds ScenarioUnknownMenu.before = [] /\
  CanSend ScenarioUnknownMenu.window 1 = true /\
  WebConn.fGetMenu ScenarioUnknownMenu.conn = "nope" /\
  WebConn.fSend ScenarioUnknownMenu.conn <> fSnapshotVersion ScenarioUnknownMenu.before /\
  sent (fTrace (final (CheckDataToSend ScenarioUnknownMenu.before)))
  = sent (fTrace ScenarioUnknownMenu.before) /\
  fWebConn (final (CheckDataToSend ScenarioUnknownMenu.before))
  = [WebConn.set_fGetMenu "" ScenarioUnknownMenu.conn].
Proof.
  vm_compute. repeat split. discriminate.
Qed.

Lemma C7_witness :
  fWindow ScenarioTwoViewers.before = Some ScenarioTwoViewers.window /\
  map WebConn.fConnId (fWebConn ScenarioTwoViewers.before) = [1; 2] /\
  sent (fTrace (final (CheckDataToSend ScenarioTwoViewers.before)))
  = (sent (fTrace ScenarioTwoViewers.before) ++
     [(1, "SNAP:5:{}"); (2, "MENU:obj1:[]")])%list /\
  map WebConn.fSend (fWebConn (final (CheckDataToSend ScenarioTwoViewers.before)))
  = [5; 0].
Proof.
  assert (Hw : fWindow ScenarioTwoViewers.before = Some ScenarioTwoViewers.window)
    by (vm_compute; reflexivity).
  split; [exact Hw|]. split; [vm_compute; reflexivity|].
  destruct (C7_payload_by_priority ScenarioTwoViewers.before
              ScenarioTwoViewers.window Hw)
    as (_ & _ & _ & (Hconns & _ & _ & Hsent) & _).
  rewrite Hsent, Hconns. split; vm_compute; reflexivity.
Defined.

(** ** The scenarios of the description, run on the small window *)

(** one viewer: an update to version 1 sends it the snapshot, and its
    acknowledgement makes the version delivered; the callback is called with
    [true], and the wait function of a blocking update reports success *)
Example scenario_B_update_is_delivered :
  let p := run [CallNewDisplay ""; DataCallBack 1 "CONN_READY";
                CallCanvasUpdated 1 false (Some 7%nat);
                DataCallBack 1 "SNAPDONE:1"] Demo.painter in
  sent (fTrace p) = [(1, "SNAP:1:{}")] /\
  callbacks (fTrace p) = [(7%nat, true)] /\
  fUpdatesLst p = [] /\
  CheckDeliveredVersion 1 p = 1.
Proof. vm_compute. repeat split. Qed.

(** a PNG export: the command is sent once the viewer drew, and the reply is
    written to the file and reported with [true] *)
Example scenario_C_export_is_written :
  let p := step ScenarioC.before (DataCallBack 1 "REPLY:1:abcd") in
  sent (fTrace ScenarioC.before) = [(1, "CMD:1:PNG")] /\
  In (WriteFile "/tmp/out.png" "abcd") (fTrace p) /\
  callbacks (fTrace p) = [(7%nat, true)] /\
  fCmds p = [] /\
  map WebCommand.fReady (fReleased p) = [true].
Proof. vm_compute. repeat split. auto. Qed.

(** the viewer of a running command disconnects before it replied: the
    command is cancelled and its callback called with [false] *)
Example scenario_E_disconnect_cancels :
  let p := step ScenarioC.before (DataCallBack 1 "CONN_CLOSED") in
  map WebCommand.fRunning (fCmds ScenarioC.before) = [true] /\
  callbacks (fTrace p) = [(7%nat, false)] /\
  fCmds p = [] /\
  map WebCommand.fReady (fReleased p) = [true] /\
  option_map (fun cmd => DoWhenReady_poll cmd Demo.ManagerWindow 0) (find_command "1" p)
  = Some (-1).
Proof. vm_compute. repeat split. Qed.

(** a malformed acknowledgement makes [std::stoll] throw: the connection is
    marked as drawn, and the push pass does not run *)
Example malformed_acknowledgement_throws :
  ProcessData 1 "SNAPDONE:abc" ScenarioUnknown.before =
  Aborted (Exception "std::invalid_argument")
    (set_fWebConn [WebConn.Build 1 true "" 0 0] ScenarioUnknown.before).
Proof. vm_compute. reflexivity. Qed.

(** * Further properties *)

(** ** Decimal texts and separators *)

Lemma read_digits_of_uint_acc (d : Decimal.uint) (acc : positive) :
  read_digits (NilEmpty.string_of_uint d) (Some (Z.pos acc)) =
  Some (Z.pos (Pos.of_uint_acc d acc)).
Proof.
  revert acc. induction d; intros acc; cbn [NilEmpty.string_of_uint read_digits];
    [reflexivity|..];
    (change (digit_of _) with (Some 0) || change (digit_of _) with (Some 1)
     || change (digit_of _) with (Some 2) || change (digit_of _) with (Some 3)
     || change (digit_of _) with (Some 4) || change (digit_of _) with (Some 5)
     || change (digit_of _) with (Some 6) || change (digit_of _) with (Some 7)
     || change (digit_of _) with (Some 8) || change (digit_of _) with (Some 9));
    cbv iota; cbn [Pos.of_uint_acc]; rewrite <- IHd; do 2 f_equal; lia.
Qed.

Lemma read_digits_of_uint (d : Decimal.uint) :
  read_digits (NilEmpty.string_of_uint d) (Some 0) = Some (Z.of_N (Pos.of_uint d)).
Proof.
  induction d; cbn [NilEmpty.string_of_uint read_digits Pos.of_uint];
    [reflexivity|..];
    (change (digit_of _) with (Some 0) || change (digit_of _) with (Some 1)
     || change (digit_of _) with (Some 2) || change (digit_of _) with (Some 3)
     || change (digit_of _) with (Some 4) || change (digit_of _) with (Some 5)
     || change (digit_of _) with (Some 6) || change (digit_of _) with (Some 7)
     || change (digit_of _) with (Some 8) || change (digit_of _) with (Some 9));
    cbv iota; [exact IHd|..]; apply read_digits_of_uint_acc.
Qed.

Lemma only_digits_of_uint (d : Decimal.uint) :
  only_digits (NilEmpty.string_of_uint d) = true.
Proof. induction d; cbn; auto. Qed.

Lemma digit_not_space (c : ascii) (d : Z) :
  digit_of c = Some d -> isspace c = false.
Proof.
  destruct c as [[] [] [] [] [] [] [] []]; vm_compute; congruence.
Qed.

Lemma to_uint_cases (n : N) :
  exists c r, NilEmpty.string_of_uint (N.to_uint n) = String c r /\
              digit_of c <> None /\
              to_string (Z.of_N n) = String c r.
Proof.
  unfold to_string. rewrite N2Z.id.
  destruct (N.to_uint n) eqn:Hd.
  - destruct n; simpl in Hd; [discriminate|].
    exfalso. revert Hd. apply DecimalPos.Unsigned.to_uint_nonnil.
  - eexists _, _. cbn. repeat split. vm_compute. discriminate.
  - eexists _, _. cbn. repeat split. vm_compute. discriminate.
  - eexists _, _. cbn. repeat split. vm_compute. discriminate.
  - eexists _, _. cbn. repeat split. vm_compute. discriminate.
  - eexists _, _. cbn. repeat split. vm_compute. discriminate.
  - eexists _, _. cbn. repeat split. vm_compute. discriminate.
  - eexists _, _. cbn. repeat split. vm_compute. discriminate.
  - eexists _, _. cbn. repeat split. vm_compute. discriminate.
  - eexists _, _. cbn. repeat split. vm_compute. discriminate.
  - eexists _, _. cbn. repeat split. vm_compute. discriminate.
Qed.

Lemma read_digits_start (c : ascii) (r : string) :
  digit_of c <> None ->
  read_digits (String c r) None = read_digits (String c r) (Some 0).
Proof. cbn [read_digits]. destruct (digit_of c); [reflexivity|congruence]. Qed.

Lemma read_digits_to_string (v : Z) :
  0 <= v -> read_digits (to_string v) None = Some v.
Proof.
  intros Hv. rewrite <- (Z2N.id v Hv) at 1.
  destruct (to_uint_cases (Z.to_N v)) as (c & r & Hs & Hc & ->).
  rewrite read_digits_start by exact Hc. rewrite <- Hs.
  rewrite read_digits_of_uint.
  change (Pos.of_uint (N.to_uint (Z.to_N v))) with (N.of_uint (N.to_uint (Z.to_N v))).
  rewrite DecimalN.Unsigned.of_to. rewrite Z2N.id by exact Hv. reflexivity.
Qed.

Lemma stoll_of_digits (c : ascii) (r : string) :
  digit_of c <> None ->
  stoll (String c r) =
  match read_digits (String c r) None with
  | None => inr (Exception "std::invalid_argument")
  | Some m => if ((LLONG_MIN <=? m) && (m <=? LLONG_MAX))%bool then inl m
              else inr (Exception "std::out_of_range")
  end.
Proof.
  intros Hc. unfold stoll. cbn [skip_space].
  destruct (digit_of c) as [d|] eqn:Hd; [|congruence].
  rewrite (digit_not_space c d Hd).
  destruct c as [[] [] [] [] [] [] [] []]; try reflexivity; vm_compute in Hd; discriminate.
Qed.

Lemma stoll_to_string (v : Z) :
  0 <= v ->
  stoll (to_string v) =
  if v <=? LLONG_MAX then inl v else inr (Exception "std::out_of_range").
Proof.
  intros Hv. pose proof (read_digits_to_string v Hv) as Hr.
  rewrite <- (Z2N.id v Hv) in Hr |- * at 1.
  destruct (to_uint_cases (Z.to_N v)) as (c & r & _ & Hc & Hs).
  rewrite Hs in *. rewrite stoll_of_digits by exact Hc. rewrite Hr.
  rewrite Z2N.id by exact Hv.
  replace (LLONG_MIN <=? v) with true; [reflexivity|].
  symmetry. apply Z.leb_le. unfold LLONG_MIN. lia.
Qed.

(** ** Texts and their separators *)

Lemma only_digits_to_string (v : Z) : only_digits (to_string v) = true.
Proof.
  unfold to_string. destruct (N.to_uint (Z.to_N v)); try reflexivity;
    cbn; apply only_digits_of_uint.
Qed.

Lemma to_string_not_empty (v : Z) : to_string v <> "".
Proof.
  unfold to_string. destruct (N.to_uint (Z.to_N v)); cbn; discriminate.
Qed.

Lemma to_string_inj (v v' : Z) :
  0 <= v -> 0 <= v' -> to_string v = to_string v' -> v = v'.
Proof.
  intros Hv Hv' Heq.
  pose proof (read_digits_to_string v Hv) as H.
  rewrite Heq, (read_digits_to_string v' Hv') in H. congruence.
Qed.

Lemma find_char_digits (c : ascii) (s : string) :
  digit_of c = None -> only_digits s = true -> find_char c s = None.
Proof.
  intros Hc. induction s as [|a r IH]; [reflexivity|].
  cbn [only_digits find_char]. destruct (digit_of a) eqn:Ha; [|discriminate].
  intros Hr. rewrite (IH Hr).
  destruct (Ascii.eqb_spec a c) as [->|_]; [congruence|reflexivity].
Qed.

Lemma find_char_app (c : ascii) (s t : string) :
  find_char c s = None ->
  find_char c (s ++ String c t) = Some (String.length s).
Proof.
  induction s as [|a r IH]; cbn [find_char append String.length].
  - rewrite Ascii.eqb_refl. reflexivity.
  - destruct (Ascii.eqb a c); [discriminate|].
    destruct (find_char c r); [discriminate|]. intros _. rewrite IH; reflexivity.
Qed.

Lemma substring_whole (s : string) : substring 0 (String.length s) s = s.
Proof. induction s; cbn; congruence. Qed.

Lemma substring_front (s t : string) :
  substring 0 (String.length s) (s ++ t) = s.
Proof.
  induction s as [|a r IH]; cbn [append String.length substring].
  - destruct t; reflexivity.
  - rewrite IH. reflexivity.
Qed.

Lemma erase_front_app (s t : string) :
  erase_front (String.length s) (s ++ t) = t.
Proof.
  unfold erase_front. induction s as [|a r IH]; cbn [append String.length].
  - rewrite Nat.sub_0_r. apply substring_whole.
  - cbn [substring Nat.sub]. exact IH.
Qed.

Lemma erase_front_sep (c : ascii) (s t : string) :
  erase_front (String.length s + 1) (s ++ String c t) = t.
Proof.
  replace (s ++ String c t) with ((s ++ String c "") ++ t).
  - replace (String.length s + 1)%nat with (String.length (s ++ String c "")).
    + apply erase_front_app.
    + induction s; cbn; auto.
  - induction s; cbn; congruence.
Qed.

Lemma c_str_app (s t : string) : no_nul s = true -> c_str (s ++ t) = s ++ c_str t.
Proof.
  induction s as [|a r IH]; cbn [no_nul append c_str]; [reflexivity|].
  destruct (Ascii.eqb a zero); cbn [negb andb]; [discriminate|].
  intros H. rewrite IH by exact H. reflexivity.
Qed.

Lemma only_digits_no_nul (s : string) : only_digits s = true -> no_nul s = true.
Proof.
  induction s as [|a r IH]; cbn [only_digits no_nul]; [reflexivity|].
  destruct (digit_of a) eqn:Ha; [|discriminate].
  intros H. rewrite (IH H).
  destruct (Ascii.eqb_spec a zero) as [->|_]; [vm_compute in Ha; discriminate|reflexivity].
Qed.

(** ** What a method leaves alone, however it ends *)

Section FrameRules.
Context {Win Canvas Drawable : Type}.
Context {window_ops : TWebWindow Win} {canvas_ops : RCanvas Canvas Drawable}.
Abbreviation Painter := (TCanvasPainter Win Canvas).
Abbreviation Run := (M Win Canvas).

Variable R : Painter -> Painter -> Prop.
Hypothesis R_refl : forall p, R p p.
Hypothesis R_trans : forall p q r, R p q -> R q r -> R p r.
Hypothesis R_window : forall p w, R p (set_fWindow (Some w) p).
Hypothesis R_window_map :
  forall p (f : Win -> Win), R p (set_fWindow (option_map f (fWindow p)) p).
Hypothesis R_trace : forall p e, R p (set_fTrace (fTrace p ++ [e]) p).
Hypothesis R_conns : forall p l, R p (set_fWebConn l p).
Hypothesis R_had : forall p, R p (set_fHadWebConn true p).
Hypothesis R_cmds : forall p l, R p (set_fCmds l p).
Hypothesis R_cnt : forall p v, R p (set_fCmdsCnt v p).
Hypothesis R_version : forall p v, R p (set_fSnapshotVersion v p).
Hypothesis R_snapshot : forall p s, R p (set_fSnapshot s p).
Hypothesis R_delivered : forall p v, R p (set_fSnapshotDelivered v p).
Hypothesis R_updates : forall p l, R p (set_fUpdatesLst l p).
Hypothesis R_dump : forall p s, R p (set_fNextDumpName s p).
Hypothesis R_released : forall p l, R p (set_fReleased l p).
Hypothesis R_canvas : forall p can, R p (set_fCanvas can p).

Lemma relates_ret {A : Type} (a : A) : relates R (ret a).
Proof. intros p. apply R_refl. Qed.

Lemma relates_raise {A : Type} (why : Abort) : relates R (raise why : Run A).
Proof. intros p. apply R_refl. Qed.

Lemma relates_gets {A : Type} (f : Painter -> A) : relates R (gets f).
Proof. intros p. apply R_refl. Qed.

Lemma relates_bind {A B : Type} (c : Run A) (k : A -> Run B) :
  relates R c -> (forall a, relates R (k a)) -> relates R (bind c k).
Proof.
  intros Hc Hk p. unfold bind. specialize (Hc p).
  destruct (c p) as [a p'|why p']; cbn [final] in *; [|exact Hc].
  eapply R_trans; [exact Hc|apply Hk].
Qed.

Lemma relates_modify (f : Painter -> Painter) :
  (forall p, R p (f p)) -> relates R (modify f).
Proof. intros H p. apply H. Qed.

Lemma relates_emit (e : Effect) : relates R (emit e).
Proof. apply relates_modify. intros p. apply R_trace. Qed.

Lemma relates_window : relates R window.
Proof. intros p. unfold window. destruct (fWindow p); apply R_refl. Qed.

Lemma relates_call (f : CanvasCallback_t) (res : bool) : relates R (call f res).
Proof. destruct f; [apply relates_emit|apply relates_raise]. Qed.

Lemma relates_call_if_set (f : CanvasCallback_t) (res : bool) :
  relates R (call_if_set f res).
Proof. destruct f; [apply relates_emit|apply relates_ret]. Qed.


Create HintDb frames.

#[local] Hint Resolve relates_ret relates_raise relates_gets relates_emit
  relates_window relates_call relates_call_if_set : frames.
#[local] Hint Resolve R_refl R_window R_window_map R_trace R_conns R_had R_cmds
  R_cnt R_version R_snapshot R_delivered R_updates R_dump R_released R_canvas
  : frames.

Ltac frame :=
  cbv zeta;
  repeat match goal with
         | |- relates _ (bind _ _) => apply relates_bind
         | |- relates _ (match ?x with _ => _ end) => destruct x
         | |- relates _ (modify _) => apply relates_modify; intro; cbv beta
         | |- forall _, _ => intro
         | |- relates _ _ => solve [auto with frames]
         | |- R _ _ => solve [auto with frames]
         end.

Lemma relates_WebCommand_CallBack (res : bool) (cmd : WebCommand.t) :
  relates R (WebCommand_CallBack res cmd).
Proof. unfold WebCommand_CallBack. frame. Qed.

Lemma relates_WebUpdate_CallBack (res : bool) (upd : WebUpdate.t) :
  relates R (WebUpdate_CallBack res upd).
Proof. unfold WebUpdate_CallBack. frame. Qed.

Lemma relates_release (cmd : WebCommand.t) : relates R (release cmd).
Proof. unfold release. frame. Qed.

#[local] Hint Resolve relates_WebCommand_CallBack relates_WebUpdate_CallBack
  relates_release : frames.

Lemma relates_CancelUpdates_loop (l : list WebUpdate.t) :
  relates R (CancelUpdates_loop l).
Proof. induction l; cbn [CancelUpdates_loop]; frame. Qed.

#[local] Hint Resolve relates_CancelUpdates_loop : frames.

Lemma relates_CancelUpdates : relates R CancelUpdates.
Proof. unfold CancelUpdates. frame. Qed.

Lemma relates_CancelCommands_loop (connid : Z) (l : list WebCommand.t) :
  relates R (CancelCommands_loop connid l).
Proof. induction l; cbn [CancelCommands_loop]; frame. Qed.

#[local] Hint Resolve relates_CancelUpdates relates_CancelCommands_loop : frames.

Lemma relates_CancelCommands (connid : Z) : relates R (CancelCommands connid).
Proof. unfold CancelCommands. frame. Qed.

Lemma relates_CreateSnapshot : relates R CreateSnapshot.
Proof. unfold CreateSnapshot. frame. Qed.

Lemma relates_choose_payload (conn : WebConn.t) : relates R (choose_payload conn).
Proof. unfold choose_payload. frame. Qed.

Lemma relates_send (connid : Z) (buf : string) : relates R (send connid buf).
Proof. unfold send. frame. Qed.

#[local] Hint Resolve relates_CancelCommands relates_CreateSnapshot
  relates_choose_payload relates_send : frames.

Lemma relates_CheckDataToSend_conn (conn : WebConn.t) (m : Z) :
  relates R (CheckDataToSend_conn conn m).
Proof. unfold CheckDataToSend_conn. frame. Qed.

#[local] Hint Resolve relates_CheckDataToSend_conn : frames.

Lemma relates_CheckDataToSend_loop (conns : list WebConn.t) (m : Z) :
  relates R (CheckDataToSend_loop conns m).
Proof. revert m. induction conns; intros m; cbn [CheckDataToSend_loop]; frame. Qed.

Lemma relates_complete_updates (delivered : Z) (l : list WebUpdate.t) :
  relates R (complete_updates delivered l).
Proof. induction l; cbn [complete_updates]; frame. Qed.

#[local] Hint Resolve relates_CheckDataToSend_loop relates_complete_updates : frames.

Lemma relates_CheckDataToSend : relates R CheckDataToSend.
Proof. unfold CheckDataToSend. frame. Qed.

Lemma relates_CreateWindow : relates R CreateWindow.
Proof. unfold CreateWindow. frame. Qed.

#[local] Hint Resolve relates_CheckDataToSend relates_CreateWindow : frames.

Lemma relates_CanvasUpdated (ver : Z) (async : bool) (callback : CanvasCallback_t) :
  relates R (CanvasUpdated ver async callback).
Proof. unfold CanvasUpdated. frame. Qed.

Lemma relates_DoWhenReady (name arg : string) (async : bool)
    (callback : CanvasCallback_t) :
  relates R (DoWhenReady name arg async callback).
Proof. unfold DoWhenReady. frame. Qed.

Lemma relates_DoWhenReady_done (name arg : string) (res : Z) :
  relates R (DoWhenReady_done name arg res).
Proof. unfold DoWhenReady_done. frame. Qed.

Lemma relates_SaveCreatedFile (reply : string) : relates R (SaveCreatedFile reply).
Proof. unfold SaveCreatedFile. frame. Qed.

Lemma relates_FrontCommandReplied (reply : string) :
  relates R (FrontCommandReplied reply).
Proof. unfold FrontCommandReplied. frame. Qed.

#[local] Hint Resolve relates_CanvasUpdated relates_DoWhenReady
  relates_DoWhenReady_done relates_SaveCreatedFile relates_FrontCommandReplied
  : frames.

Lemma relates_ProcessData_branch (connid : Z) (arg : string)
    (before : list WebConn.t) (conn : WebConn.t) (after : list WebConn.t) :
  relates R (ProcessData_branch connid arg before conn after).
Proof. unfold ProcessData_branch. frame. Qed.

#[local] Hint Resolve relates_ProcessData_branch : frames.

Lemma relates_ProcessData (connid : Z) (arg : string) :
  relates R (ProcessData connid arg).
Proof. unfold ProcessData. frame. Qed.

Lemma relates_NewDisplay (where_ : string) : relates R (NewDisplay where_).
Proof. unfold NewDisplay. frame. Qed.

Lemma relates_AddPanel (win : Win) : relates R (AddPanel win).
Proof. unfold AddPanel. frame. Qed.

Lemma relates_destructor : relates R destructor.
Proof. unfold destructor. frame. Qed.

#[local] Hint Resolve relates_ProcessData relates_NewDisplay relates_AddPanel
  relates_destructor : frames.

Lemma relates_data_callback (connid : Z) (arg : string) :
  relates R (handle (DataCallBack connid arg)).
Proof. cbn [handle]. frame. Qed.

Lemma relates_call_AddPanel (win : Win) : relates R (handle (CallAddPanel win)).
Proof. cbn [handle]. frame. Qed.

Lemma relates_window_activity (f : Win -> Win) :
  relates R (handle (WindowActivity f)).
Proof. cbn [handle]. frame. Qed.

Lemma relates_canvas_changed (can : Canvas) : relates R (handle (CanvasChanged can)).
Proof. cbn [handle]. frame. Qed.

Lemma relates_handle (ev : Event Win Canvas) : relates R (handle ev).
Proof. destruct ev; cbn [handle]; frame. Qed.

End FrameRules.

(** ** What a call or a message does to the queue and the connections *)

Lemma started_dispatched (conns : list WebConn.t) (l l' : list WebCommand.t) :
  started conns l l' -> dispatched l l'.
Proof.
  intros [->|(cmd & rest & conn & _ & Hfront & ->)]; [left; reflexivity|].
  apply front_to_run_Some in Hfront. destruct Hfront as (-> & _ & Hrun & _).
  right. exists cmd, rest, (WebConn.fConnId conn). auto.
Qed.

Lemma started_more (conns conns' : list WebConn.t) (l l' : list WebCommand.t) :
  incl conns conns' -> started conns l l' -> started conns' l l'.
Proof.
  intros Hincl [->|(cmd & rest & conn & Hin & H)]; [left; reflexivity|].
  right. exists cmd, rest, conn. split; [apply Hincl; exact Hin|exact H].
Qed.

Section PassShape.
Context {Win Canvas Drawable : Type}.
Context {window_ops : TWebWindow Win} {canvas_ops : RCanvas Canvas Drawable}.
Abbreviation Painter := (TCanvasPainter Win Canvas).

Lemma CheckDataToSend_conn_started (conn : WebConn.t) (m : Z) (p : Painter) (w : Win) :
  fWindow p = Some w ->
  exists r q,
    CheckDataToSend_conn conn m p = Normal r q /\ fWindow q <> None /\
    started [conn] (fCmds p) (fCmds q).
Proof.
  intros Hw.
  destruct (CheckDataToSend_conn_pushed conn m p w Hw)
    as (conn' & w' & cmds' & tr & Heq & _).
  eexists _, _. split; [exact Heq|]. unfold pushed. fields.
  split; [discriminate|].
  destruct (CanSend w (WebConn.fConnId conn)) eqn:Hcan.
  - destruct (CheckDataToSend_conn_turn conn m p w Hw Hcan) as (p' & Heq' & Hcmds & _).
    rewrite Heq in Heq'. injection Heq' as _ <-. unfold pushed in Hcmds.
    cbn [fCmds set_fTrace set_fCmds] in Hcmds. rewrite Hcmds.
    unfold cmds_after_turn.
    destruct (front_to_run conn (fCmds p)) as [[cmd rest]|] eqn:Hfront.
    + right. exists cmd, rest, conn. split; [left; reflexivity|]. auto.
    + left. reflexivity.
  - revert Heq. unfold CheckDataToSend_conn, window. run_monad. rewrite Hw, Hcan.
    cbn [negb]. intros [= _ Hp]. left.
    apply (f_equal fCmds) in Hp. unfold pushed in Hp.
    cbn [fCmds set_fTrace set_fCmds] in Hp. auto.
Qed.

Lemma front_to_run_running (conn : WebConn.t) (cmd : WebCommand.t)
    (rest : list WebCommand.t) :
  WebCommand.fRunning cmd = true -> front_to_run conn (cmd :: rest) = None.
Proof.
  intros Hrun. cbn [front_to_run]. rewrite Hrun.
  destruct (WebConn.fDrawReady conn); reflexivity.
Qed.

Lemma started_trans (conns1 conns2 : list WebConn.t) (l1 l2 l3 : list WebCommand.t) :
  started conns1 l1 l2 -> started conns2 l2 l3 -> started (conns1 ++ conns2) l1 l3.
Proof.
  intros [->|(cmd & rest & conn & Hin & Hfront & ->)] H23.
  - eapply started_more; [|exact H23]. apply incl_appr, incl_refl.
  - destruct H23 as [->|(cmd' & rest' & conn' & _ & Hfront' & _)].
    + right. exists cmd, rest, conn. split; [apply in_or_app; auto|auto].
    + rewrite front_to_run_running in Hfront' by reflexivity. discriminate.
Qed.

Lemma CheckDataToSend_loop_started (conns : list WebConn.t) (m : Z) (p : Painter)
    (w : Win) :
  fWindow p = Some w ->
  exists r q,
    CheckDataToSend_loop conns m p = Normal r q /\ fWindow q <> None /\
    started conns (fCmds p) (fCmds q).
Proof.
  revert m p w. induction conns as [|conn rest IH]; intros m p w Hw.
  - eexists _, p. cbn [CheckDataToSend_loop]. unfold ret.
    split; [reflexivity|]. split; [congruence|left; reflexivity].
  - destruct (CheckDataToSend_conn_started conn m p w Hw) as (r1 & q1 & Heq1 & Hw1 & Hs1).
    destruct (fWindow q1) as [w1|] eqn:Hwq1; [|congruence].
    destruct (IH (snd r1) q1 w1 Hwq1) as (r2 & q2 & Heq2 & Hw2 & Hs2).
    eexists _, q2. cbn [CheckDataToSend_loop]. unfold bind. rewrite Heq1, Heq2.
    unfold ret. split; [reflexivity|]. split; [exact Hw2|].
    apply (started_trans [conn] rest _ _ _ Hs1 Hs2).
Qed.

(** what follows the loop in [CheckDataToSend] leaves the queue alone *)
Lemma CheckDataToSend_queue (p : Painter) (r : list WebConn.t * Z) (q : Painter) :
  CheckDataToSend_loop (fWebConn p) 0 p = Normal r q ->
  fCmds (final (CheckDataToSend p)) = fCmds q.
Proof.
  intros Hloop. unfold CheckDataToSend. run_monad. rewrite Hloop. fields.
  set (R := fun p q : Painter => fCmds q = fCmds p).
  assert (Htrans : forall p q r : Painter, R p q -> R q r -> R p r).
  { unfold R. intros ? ? ? H1 H2. rewrite H2. exact H1. }
  destruct (empty (fst r) && negb (fSnapshotDelivered q =? 0))%bool.
  - assert (H : relates R CancelUpdates)
      by (apply relates_CancelUpdates; unfold R; auto).
    exact (H (set_fWebConn (fst r) q)).
  - destruct (negb (fSnapshotDelivered q =? snd r)); [|reflexivity].
    rewrite complete_updates_eq. reflexivity.
Qed.

(** A push pass never fails when the painter has a window or no connection,
    and every pending update has a callback; it starts at most the head of
    the queue, for a connection of the list that is ready for it. *)
Lemma CheckDataToSend_started (p : Painter) :
  (fWebConn p = [] \/ fWindow p <> None) ->
  Forall has_callback (fUpdatesLst p) ->
  exists w' cmds' conns' tr,
    CheckDataToSend p = Normal tt (passed w' cmds' conns' tr p) /\
    (w' = None <-> fWindow p = None) /\
    Forall2 conn_kept (fWebConn p) conns' /\ started (fWebConn p) (fCmds p) cmds' /\
    Forall quiet tr /\
    subseq (map fst (sent tr)) (map WebConn.fConnId (fWebConn p)).
Proof.
  intros Hwin Hcb.
  destruct (CheckDataToSend_passed p Hwin Hcb)
    as (w' & cmds' & conns' & tr & Heq & Hw' & Hkept & _ & Hq & Hsub).
  exists w', cmds', conns', tr. repeat split; try tauto.
  assert (Hcmds : fCmds (final (CheckDataToSend p)) = cmds').
  { rewrite Heq. unfold passed, pushed. reflexivity. }
  destruct (fWindow p) as [w|] eqn:Hw.
  - destruct (CheckDataToSend_loop_started (fWebConn p) 0 p w Hw)
      as (r & q & Hloop & _ & Hs).
    rewrite (CheckDataToSend_queue p r q Hloop) in Hcmds. rewrite <- Hcmds. exact Hs.
  - destruct Hwin as [Hnil|Hne]; [|congruence].
    assert (Hloop : CheckDataToSend_loop (fWebConn p) 0 p = Normal ([], 0) p).
    { rewrite Hnil. reflexivity. }
    rewrite (CheckDataToSend_queue p _ p Hloop) in Hcmds. left. auto.
Qed.

End PassShape.

Lemma conns_kept_refl (l : list WebConn.t) : Forall2 conn_kept l l.
Proof. induction l; constructor; auto using conn_kept_refl. Qed.

Lemma started_refl (conns : list WebConn.t) (l : list WebCommand.t) : started conns l l.
Proof. left; reflexivity. Qed.

Ltac fields_in H :=
  cbn [fCanvas fWindow fWebConn fHadWebConn fCmds fCmdsCnt fSnapshotVersion
       fSnapshot fSnapshotDelivered fUpdatesLst fNextDumpName fReleased fTrace
       set_fCanvas set_fWindow set_fWebConn set_fHadWebConn set_fCmds
       set_fCmdsCnt set_fSnapshotVersion set_fSnapshot set_fSnapshotDelivered
       set_fUpdatesLst set_fNextDumpName set_fReleased set_fTrace fst snd] in H.

Section ShapeLemmas.
Context {Win Canvas Drawable : Type}.
Context {window_ops : TWebWindow Win} {canvas_ops : RCanvas Canvas Drawable}.
Abbreviation Painter := (TCanvasPainter Win Canvas).

(** the push pass on a painter in use *)
Lemma pass_shape (p : Painter) :
  Inv0 p ->
  exists q,
    CheckDataToSend p = Normal tt q /\ Inv q /\
    started (fWebConn p) (fCmds p) (fCmds q) /\
    Forall2 conn_kept (fWebConn p) (fWebConn q) /\ fCmdsCnt q = fCmdsCnt p /\
    fReleased q = fReleased p.
Proof.
  intros H0. destruct (pass_good 0%nat p H0) as (q & Heq & Hinv & _).
  exists q. split; [exact Heq|]. split; [exact Hinv|].
  destruct H0 as (Hsf & Hconn & Hcb).
  destruct (CheckDataToSend_started p) as
    (w' & cmds' & conns' & tr & Heq' & _ & Hkept & Hst & _).
  { destruct (fWebConn p) eqn:Hc; [left; reflexivity|right].
    apply Hconn. discriminate. }
  { exact Hcb. }
  rewrite Heq in Heq'. injection Heq' as ->. unfold passed, pushed. fields. auto.
Qed.

Lemma CanvasUpdated_shape (ver : Z) (async : bool) (callback : CanvasCallback_t)
    (p : Painter) :
  Inv p ->
  exists q,
    CanvasUpdated ver async callback p = Normal tt q /\ fCmdsCnt q = fCmdsCnt p /\
    started (fWebConn p) (fCmds p) (fCmds q) /\
    Forall2 conn_kept (fWebConn p) (fWebConn q) /\ fReleased q = fReleased p.
Proof.
  intros [H0 Hs]. unfold CanvasUpdated. run_monad. fields.
  destruct (negb (ver =? 0) && negb (fSnapshotDelivered p =? 0) &&
            (ver <=? fSnapshotDelivered p))%bool.
  - destruct callback as [cb|]; eexists; (split; [reflexivity|]); fields;
      auto using started_refl, conns_kept_refl.
  - match goal with
    | |- context [CreateSnapshot ?q] =>
        destruct (CreateSnapshot_eq q) as (tr & -> & Htr)
    end.
    fields.
    destruct (match option_map Sync (fWindow p) with
              | Some w => negb (IsShown w)
              | None => true
              end).
    + destruct callback as [cb|]; eexists; (split; [reflexivity|]); fields;
        auto using started_refl, conns_kept_refl.
    + match goal with
      | |- context [CheckDataToSend ?q] =>
          destruct (pass_shape q) as (p2 & -> & _ & Hst & Hk & Hcnt & Hrel);
            [eapply Inv0_transfer; eauto; fields; auto using option_map_not_None|]
      end.
      fields_in Hst. fields_in Hk. fields_in Hcnt. fields_in Hrel.
      destruct callback as [cb|]; eexists; (split; [reflexivity|]); fields; auto.
Qed.


(** [DoWhenReady] for a command: the window is made if there is none, a
    batch connection is asked for, and the command is queued for it *)
Lemma DoWhenReady_eq (name arg : string) (async : bool)
    (callback : CanvasCallback_t) (p : Painter) :
  String.eqb name "JSON" = false ->
  DoWhenReady name arg async callback p =
  let connid := fst (MakeBatch (window_or_new p)) in
  let p0 := set_fWindow (Some (snd (MakeBatch (window_or_new p)))) p in
  if connid =? 0 then call_if_set callback false p0
  else
    CheckDataToSend
      (set_fCmds
         (fCmds p ++
          [WebCommand.make (to_string (wrap64 (fCmdsCnt p + 1))) name arg callback
             connid])
         (set_fCmdsCnt (wrap64 (fCmdsCnt p + 1)) p0)).
Proof.
  intros Hname. unfold DoWhenReady, window_or_new. rewrite Hname.
  unfold CreateWindow, window. run_monad.
  destruct (fWindow p) as [w|] eqn:Hw; fields; rewrite ?Hw;
    (destruct (fst (MakeBatch _) =? 0);
     [destruct callback; f_equal; painter_eq|]);
    match goal with
    | |- match CheckDataToSend ?a with _ => _ end = CheckDataToSend ?b =>
        replace a with b by painter_eq; destruct (CheckDataToSend b); reflexivity
    | |- CheckDataToSend _ = CheckDataToSend _ => f_equal; painter_eq
    end.
Qed.

Lemma queue_step_started (p q : Painter) (conns : list WebConn.t) :
  fCmdsCnt q = fCmdsCnt p -> started conns (fCmds p) (fCmds q) ->
  fReleased q = fReleased p ->
  queue_step p q.
Proof.
  intros Hcnt Hst Hrel. exists (fCmds p), [], conns. rewrite Hcnt, Hrel, app_nil_r.
  split; [constructor|]. auto.
Qed.

Lemma queue_step_same (p q : Painter) :
  fCmdsCnt q = fCmdsCnt p -> fCmds q = fCmds p -> fReleased q = fReleased p ->
  queue_step p q.
Proof.
  intros Hcnt Hcmds Hrel. apply (queue_step_started p q []); auto.
  rewrite Hcmds. apply started_refl.
Qed.

Lemma DoWhenReady_shape (name arg : string) (async : bool)
    (callback : CanvasCallback_t) (p : Painter) :
  Inv p ->
  exists q,
    DoWhenReady name arg async callback p = Normal tt q /\
    queue_step p q /\ Forall2 conn_kept (fWebConn p) (fWebConn q).
Proof.
  intros [H0 Hs].
  destruct (String.eqb name "JSON") eqn:Hname.
  - unfold DoWhenReady. rewrite Hname.
    eexists. split; [reflexivity|]. fields. split; [|apply conns_kept_refl].
    apply queue_step_same; reflexivity.
  - rewrite (DoWhenReady_eq name arg async callback p Hname). cbv zeta.
    destruct (fst (MakeBatch (window_or_new p)) =? 0) eqn:Hbatch.
    + destruct callback as [cb|]; eexists; (split; [reflexivity|]); fields;
        (split; [|apply conns_kept_refl]); apply queue_step_same; reflexivity.
    + apply Z.eqb_neq in Hbatch.
      match goal with
      | |- context [CheckDataToSend ?q] =>
          destruct (pass_shape q) as (p2 & -> & _ & Hst & Hk & Hcnt & Hrel)
      end.
      * destruct H0 as (Hsf & Hconn & Hcb). unfold Inv0. fields.
        split; [|split; [|exact Hcb]].
        -- apply single_flight_snoc; [exact Hsf|reflexivity].
        -- intros Hne. split; [discriminate|]. apply Hconn. exact Hne.
      * fields_in Hst. fields_in Hk. fields_in Hcnt. fields_in Hrel.
        exists p2. split; [reflexivity|]. split; [|exact Hk].
        eexists _, [], _. rewrite Hcnt, Hrel, app_nil_r.
        split; [|split; [exact Hst|reflexivity]].
        apply queue_submitted. exact Hbatch.
Qed.

Lemma ProcessData_branch_shape (connid : Z) (arg : string)
    (before after : list WebConn.t) (conn : WebConn.t) (p : Painter) :
  Forall named (fCmds p) ->
  fWebConn p = (before ++ conn :: after)%list ->
  branch_shape arg p (ProcessData_branch connid arg before conn after p).
Proof.
  intros Hnamed Hconns.
  assert (Hstore : forall conn',
            WebConn.fConnId conn' = WebConn.fConnId conn ->
            (WebConn.fDelivered conn' = WebConn.fDelivered conn \/
             exists v, WebConn.fDelivered conn' = wrap64 v) ->
            conns_change (fWebConn p) (before ++ conn' :: after)).
  { intros conn' Hid Hd. eapply conns_stored; eauto. }
  assert (Hkept : forall q : Painter,
            fCmdsCnt q = fCmdsCnt p -> fCmds q = fCmds p -> fReleased q = fReleased p ->
            exists gone,
              queue_change (fCmdsCnt p) (fCmds p) (fCmdsCnt q) (fCmds q) gone /\
              fReleased q = (fReleased p ++ gone)%list).
  { intros q -> -> ->. exists []. split; [constructor|symmetry; apply app_nil_r]. }
  unfold ProcessData_branch.
  destruct (String.eqb arg "CONN_CLOSED").
  { run_monad. fields. rewrite CancelCommands_eq. unfold branch_shape. fields.
    split; [|eapply conns_left; eauto].
    eexists. split; [apply queue_cancelled|reflexivity]. }
  destruct (starts_with "READY" arg).
  { unfold ret, branch_shape. split; [apply Hkept; reflexivity|constructor]. }
  destruct (starts_with "SNAPDONE:" arg) eqn:Hsnap.
  { run_monad. fields.
    destruct (stoll (erase_front 9 arg)) as [v|exn] eqn:Hstoll;
      unfold branch_shape; fields.
    - split; [apply Hkept; reflexivity|].
      apply Hstore; [reflexivity|]. right. exists v. reflexivity.
    - split; [exact Hsnap|]. split; [exact Hstoll|]. split; [reflexivity|].
      split; [reflexivity|]. split; [reflexivity|].
      apply Hstore; [reflexivity|]. left. reflexivity. }
  destruct (starts_with "RREADY:" arg).
  { run_monad. unfold branch_shape. fields.
    split; [apply Hkept; reflexivity|]. apply Hstore; auto. }
  destruct (starts_with "GETMENU:" arg).
  { run_monad. unfold branch_shape. fields.
    split; [apply Hkept; reflexivity|]. apply Hstore; auto. }
  destruct (String.eqb arg "QUIT").
  { run_monad. unfold branch_shape. fields.
    split; [apply Hkept; reflexivity|constructor]. }
  destruct (String.eqb arg "RELOAD").
  { run_monad. unfold branch_shape. fields.
    split; [apply Hkept; reflexivity|]. apply Hstore; auto. }
  destruct (String.eqb arg "INTERRUPT").
  { run_monad. unfold branch_shape. fields.
    split; [apply Hkept; reflexivity|constructor]. }
  destruct (starts_with "REPLY:" arg).
  { run_monad. fields.
    destruct (fCmds p) as [|front rest] eqn:Hcmds.
    - unfold branch_shape. fields.
      split; [|constructor].
      exists []. split; [constructor|symmetry; apply app_nil_r].
    - destruct (WebCommand.fRunning front) eqn:Hrun; cbn [negb].
      2:{ unfold branch_shape. fields. split; [|constructor].
          exists []. split; [constructor|symmetry; apply app_nil_r]. }
      destruct (String.eqb (WebCommand.fId front)
                  (reply_id (c_str (erase_front 6 arg)))) eqn:Hid; cbn [negb].
      2:{ unfold branch_shape. fields. split; [|constructor].
          exists []. split; [constructor|symmetry; apply app_nil_r]. }
      destruct (find_char ":" (c_str (erase_front 6 arg))) as [i|] eqn:Hsep.
      + destruct (FrontCommandReplied_popped
                    (erase_front (i + 1) (c_str (erase_front 6 arg))) p front rest
                    Hcmds) as (result & tr & -> & _).
        unfold branch_shape. fields. rewrite Hcmds.
        split; [|constructor].
        eexists. split; [eapply queue_replied; eauto|reflexivity].
      + exfalso. unfold reply_id in Hid. rewrite Hsep in Hid.
        apply String.eqb_eq in Hid. inversion Hnamed as [|c l Hc _]; subst.
        exact (Hc Hid). }
  destruct (starts_with "SAVE:" arg).
  { unfold SaveCreatedFile. run_monad.
    destruct (find_char ":" (erase_front 5 arg)) as [[|pos]|];
      unfold branch_shape; fields;
      (split; [apply Hkept; reflexivity|constructor]). }
  destruct (starts_with "OBJEXEC:" arg).
  { run_monad.
    destruct (find_char ":" (erase_front 8 arg)) as [[|pos]|];
      try (unfold branch_shape; split; [apply Hkept; reflexivity|constructor]).
    fields.
    destruct (FindDrawable (fCanvas p) _) as [drawable|].
    - destruct (Nat.eqb (String.length _) 0); cbn [negb].
      + destruct (String.eqb _ "canvas"); unfold branch_shape; fields;
          (split; [apply Hkept; reflexivity|constructor]).
      + unfold branch_shape. fields.
        split; [apply Hkept; reflexivity|constructor].
    - destruct (String.eqb _ "canvas"); unfold branch_shape; fields;
        (split; [apply Hkept; reflexivity|constructor]). }
  run_monad. unfold branch_shape. fields.
  split; [apply Hkept; reflexivity|constructor].
Qed.

Lemma ProcessData_shape (connid : Z) (arg : string) (p : Painter) :
  Inv p -> Forall named (fCmds p) -> fWindow p <> None ->
  throws_in_stoll (DataCallBack connid arg) (ProcessData connid arg p) /\
  queue_step p (final (ProcessData connid arg p)) /\
  conns_step p (final (ProcessData connid arg p)).
Proof.
  intros Hinv Hnamed Hwin. pose proof Hinv as [H0 Hs].
  unfold ProcessData, conns_step.
  destruct (String.eqb arg "CONN_READY").
  - run_monad. fields.
    match goal with
    | |- context [CheckDataToSend ?q] =>
        destruct (pass_shape q) as (p2 & -> & _ & Hst & Hk & Hcnt & Hrel)
    end.
    + destruct H0 as (Hsf & Hconn & Hcb). unfold Inv0. fields.
      split; [exact Hsf|split; [|exact Hcb]]. auto.
    + fields_in Hst. fields_in Hk. fields_in Hcnt. fields_in Hrel.
      cbn [final throws_in_stoll].
      split; [exact I|]. split.
      * eapply queue_step_started; eauto.
      * eexists. split; [|exact Hk]. constructor.
  - run_monad.
    destruct (find_conn connid (fWebConn p)) as [[[before conn] after]|] eqn:Hfind.
    2:{ cbn [final throws_in_stoll]. split; [exact I|]. split.
        - apply queue_step_same; reflexivity.
        - exists (fWebConn p). split; [constructor|apply conns_kept_refl]. }
    apply find_conn_Some in Hfind. destruct Hfind as (Hconns & _ & _).
    pose proof (ProcessData_branch_good 0%nat connid arg before after conn p Hinv Hconns)
      as Hgood.
    pose proof (ProcessData_branch_shape connid arg before after conn p Hnamed Hconns)
      as Hshape.
    destruct (ProcessData_branch connid arg before conn after p)
      as [[|] q|why q]; unfold branch_ok in Hgood; unfold branch_shape in Hshape;
      cbn [final throws_in_stoll].
    + destruct Hgood as [Hq _]. destruct Hshape as [(gone & Hqueue & Hgone) Hcs].
      destruct (pass_shape q Hq) as (p2 & -> & _ & Hst & Hk & Hcnt & Hrel).
      cbn [final]. split; [exact I|]. split.
      * eexists _, gone, _. rewrite Hcnt, Hrel.
        split; [exact Hqueue|]. split; [exact Hst|exact Hgone].
      * eexists. split; [exact Hcs|exact Hk].
    + destruct Hshape as [(gone & Hqueue & Hgone) Hcs]. split; [exact I|]. split.
      * eexists _, gone, []. split; [exact Hqueue|]. split; [apply started_refl|auto].
      * eexists. split; [exact Hcs|apply conns_kept_refl].
    + destruct Hshape as (Hsnap & Hstoll & Hcnt & Hcmds & Hrel & Hcs). split.
      * exists connid, arg. auto.
      * split.
        -- apply queue_step_same; auto.
        -- eexists. split; [exact Hcs|apply conns_kept_refl].
Qed.

(** every call and every message, on a painter in use *)
Lemma step_shape (ev : Event Win Canvas) (p : Painter) :
  Inv p -> Forall named (fCmds p) ->
  throws_in_stoll ev (handle ev p) /\ queue_step p (step p ev) /\
  conns_step p (step p ev).
Proof.
  intros Hinv Hnamed. unfold step.
  assert (Hsame : forall q : Painter,
            fCmdsCnt q = fCmdsCnt p -> fCmds q = fCmds p ->
            fReleased q = fReleased p -> fWebConn q = fWebConn p ->
            queue_step p q /\ conns_step p q).
  { intros q Hcnt Hcmds Hrel Hconns. split; [apply queue_step_same; auto|].
    unfold conns_step. rewrite Hconns.
    exists (fWebConn p). split; [constructor|apply conns_kept_refl]. }
  destruct ev as [ver async callback|name arg async callback|name arg res|where_
                 |win|connid arg|f|can]; cbn [handle].
  - destruct (CanvasUpdated_shape ver async callback p Hinv)
      as (q & -> & Hcnt & Hst & Hk & Hrel).
    cbn [final throws_in_stoll]. split; [exact I|]. split.
    + eapply queue_step_started; eauto.
    + eexists. split; [constructor|exact Hk].
  - destruct (DoWhenReady_shape name arg async callback p Hinv) as (q & -> & Hq & Hk).
    cbn [final throws_in_stoll]. split; [exact I|]. split; [exact Hq|].
    eexists. split; [constructor|exact Hk].
  - unfold DoWhenReady_done.
    destruct (res <=? 0); run_monad; cbn [final throws_in_stoll];
      (split; [exact I|]); apply Hsame; reflexivity.
  - unfold NewDisplay, CreateWindow, window. run_monad.
    destruct (fWindow p) as [w|] eqn:Hw; fields; try rewrite Hw;
      cbn [final throws_in_stoll]; (split; [exact I|]); apply Hsame; reflexivity.
  - unfold AddPanel. run_monad.
    destruct (fWindow p) as [w|] eqn:Hw.
    + destruct (IsShown w); cbn [negb].
      * destruct (Nat.eqb (String.length (RelativeAddr w win)) 0).
        -- cbn [final throws_in_stoll]. split; [exact I|]. apply Hsame; reflexivity.
        -- destruct (DoWhenReady_shape ("ADDPANEL:" ++ RelativeAddr w win)
                       "AddPanel" true None p Hinv) as (q & -> & Hq & Hk).
           cbn [final throws_in_stoll]. split; [exact I|]. split; [exact Hq|].
           eexists. split; [constructor|exact Hk].
      * cbn [final throws_in_stoll]. split; [exact I|]. apply Hsame; reflexivity.
    + cbn [final throws_in_stoll]. split; [exact I|]. apply Hsame; reflexivity.
  - run_monad.
    destruct (fWindow p) as [w|] eqn:Hw.
    + apply ProcessData_shape; [exact Hinv|exact Hnamed|congruence].
    + cbn [final throws_in_stoll]. split; [exact I|]. apply Hsame; reflexivity.
  - run_monad. cbn [final throws_in_stoll]. split; [exact I|].
    apply Hsame; reflexivity.
  - run_monad. cbn [final throws_in_stoll]. split; [exact I|].
    apply Hsame; reflexivity.
Qed.

End ShapeLemmas.

(** ** Numbered and bound commands, acknowledged versions in range *)

Lemma wrap64_range (v : Z) : 0 <= wrap64 v < 2 ^ 64.
Proof. unfold wrap64. apply Z.mod_pos_bound. reflexivity. Qed.

Lemma wrap64_small (v : Z) : 0 <= v < 2 ^ 64 -> wrap64 v = v.
Proof. intros H. unfold wrap64. apply Z.mod_small. exact H. Qed.

Lemma numbered_named (cmd : WebCommand.t) : numbered cmd -> named cmd.
Proof. intros (n & _ & H). unfold named. rewrite H. apply to_string_not_empty. Qed.

Lemma started_ids (conns : list WebConn.t) (l l' : list WebCommand.t) :
  started conns l l' -> map WebCommand.fId l' = map WebCommand.fId l.
Proof.
  intros [->|(cmd & rest & conn & _ & Hfront & ->)]; [reflexivity|].
  apply front_to_run_Some in Hfront. destruct Hfront as (-> & _). reflexivity.
Qed.

(** starting a command that is bound to a connection does not bind it anew *)
Lemma started_bound (conns : list WebConn.t) (l l' : list WebCommand.t) :
  Forall bound l -> started conns l l' ->
  map WebCommand.fConnId l' = map WebCommand.fConnId l.
Proof.
  intros Hb [->|(cmd & rest & conn & _ & Hfront & ->)]; [reflexivity|].
  apply front_to_run_Some in Hfront. destruct Hfront as (-> & _ & _ & Hid).
  inversion Hb as [|c r Hc _]; subst. unfold bound in Hc.
  destruct Hid as [Hid|Hid]; [contradiction|].
  cbn [map]. f_equal. simpl. symmetry. exact Hid.
Qed.

Lemma Forall_by_map {A B : Type} (f : A -> B) (P : B -> Prop) (l l' : list A) :
  map f l' = map f l -> Forall (fun x => P (f x)) l -> Forall (fun x => P (f x)) l'.
Proof.
  intros Hmap H. apply Forall_map. rewrite Hmap. apply Forall_map. exact H.
Qed.

Lemma Forall_filter_kept {A : Type} (P : A -> Prop) (f : A -> bool) (l : list A) :
  Forall P l -> Forall P (filter f l).
Proof.
  induction 1 as [|x l Hx _ IH]; simpl; [constructor|].
  destruct (f x); [constructor|]; assumption.
Qed.

Lemma queue_change_numbered (cnt cnt' : Z) (l l' gone : list WebCommand.t) :
  queue_change cnt l cnt' l' gone ->
  Forall numbered l -> Forall numbered l'.
Proof.
  intros [|name arg cb connid Hconnid|connid|cmd rest result -> _] Hl.
  - exact Hl.
  - apply Forall_app. split; [exact Hl|]. constructor; [|constructor].
    exists (wrap64 (cnt + 1)). split; [apply wrap64_range|reflexivity].
  - apply Forall_filter_kept. exact Hl.
  - inversion Hl; assumption.
Qed.

Lemma queue_change_bound (cnt cnt' : Z) (l l' gone : list WebCommand.t) :
  queue_change cnt l cnt' l' gone ->
  Forall bound l -> Forall bound l'.
Proof.
  intros [|name arg cb connid Hconnid|connid|cmd rest result -> _] Hl.
  - exact Hl.
  - apply Forall_app. split; [exact Hl|]. constructor; [|constructor]. exact Hconnid.
  - apply Forall_filter_kept. exact Hl.
  - inversion Hl; assumption.
Qed.

Lemma conns_change_in_range (l l' : list WebConn.t) :
  conns_change l l' ->
  Forall acknowledged_in_range l -> Forall acknowledged_in_range l'.
Proof.
  intros [|connid|before conn after ->|before conn conn' after -> _ Hd] Hl.
  - exact Hl.
  - apply Forall_app. split; [exact Hl|]. constructor; [|constructor].
    unfold acknowledged_in_range. simpl. lia.
  - apply Forall_app in Hl. destruct Hl as [Hb Ha]. inversion Ha; subst.
    apply Forall_app. auto.
  - apply Forall_app in Hl. destruct Hl as [Hb Ha]. inversion Ha as [|c r Hc Hr]; subst.
    apply Forall_app. split; [exact Hb|]. constructor; [|exact Hr].
    unfold acknowledged_in_range in *.
    destruct Hd as [->|[v ->]]; [exact Hc|apply wrap64_range].
Qed.

Lemma conns_kept_in_range (l l' : list WebConn.t) :
  Forall2 conn_kept l l' ->
  Forall acknowledged_in_range l -> Forall acknowledged_in_range l'.
Proof.
  induction 1 as [|c c' l l' (_ & Hd & _) _ IH]; intros Hl; [constructor|].
  inversion Hl; subst. constructor; [|auto].
  unfold acknowledged_in_range in *. rewrite Hd. assumption.
Qed.

Section Invariants2.
Context {Win Canvas Drawable : Type}.
Context {window_ops : TWebWindow Win} {canvas_ops : RCanvas Canvas Drawable}.
Abbreviation Painter := (TCanvasPainter Win Canvas).

Lemma Forall_numbered_named (l : list WebCommand.t) :
  Forall numbered l -> Forall named l.
Proof. apply Forall_impl. exact numbered_named. Qed.

Lemma queue_step_good (p q : Painter) :
  queue_step p q -> Forall numbered (fCmds p) -> Forall bound (fCmds p) ->
  Forall numbered (fCmds q) /\ Forall bound (fCmds q).
Proof.
  intros (l & gone & conns & Hchange & Hst & _) Hn Hb.
  pose proof (queue_change_numbered _ _ _ _ _ Hchange Hn) as Hn'.
  pose proof (queue_change_bound _ _ _ _ _ Hchange Hb) as Hb'.
  split.
  - unfold numbered. apply (Forall_by_map WebCommand.fId
      (fun id => exists n, 0 <= n < 2 ^ 64 /\ id = to_string n) l).
    + eapply started_ids; eauto.
    + exact Hn'.
  - unfold bound. apply (Forall_by_map WebCommand.fConnId (fun id => id <> 0) l).
    + eapply started_bound; eauto.
    + exact Hb'.
Qed.

Lemma step_Inv2 (ev : Event Win Canvas) (p : Painter) :
  Inv p -> Inv2 p -> Inv2 (step p ev).
Proof.
  intros Hinv (Hn & Hb & Hr).
  destruct (step_shape ev p Hinv (Forall_numbered_named _ Hn))
    as (_ & Hq & (l & Hchange & Hkept)).
  destruct (queue_step_good _ _ Hq Hn Hb) as [Hn' Hb'].
  split; [exact Hn'|]. split; [exact Hb'|].
  eapply conns_kept_in_range; [exact Hkept|].
  eapply conns_change_in_range; eauto.
Qed.

Lemma reachable_Inv2 (p : Painter) : reachable p -> Inv2 p.
Proof.
  induction 1 as [canv|p ev Hp IH].
  - unfold Inv2. simpl. repeat split; constructor.
  - apply step_Inv2; [apply reachable_Inv; exact Hp|exact IH].
Qed.

End Invariants2.

(** ** The version in a snapshot and in its acknowledgement *)

(** X1: the decimal text that the push pass writes for a snapshot version
    ([SNAP:<version>:...]) is read back by [std::stoll], as [ProcessData] does
    for [SNAPDONE:<version>], to the same version, for every version up to
    the largest [long long]. *)
Theorem X1_version_text_round_trip (v : Z) :
  0 <= v <= LLONG_MAX -> stoll (to_string v) = inl v.
Proof.
  intros [H0 Hmax]. rewrite stoll_to_string by exact H0.
  apply Z.leb_le in Hmax. rewrite Hmax. reflexivity.
Qed.

Lemma X1_witness : 0 <= 42 <= LLONG_MAX /\ stoll (to_string 42) = inl 42.
Proof.
  assert (H : 0 <= 42 <= LLONG_MAX) by (unfold LLONG_MAX; lia).
  split; [exact H|]. apply (X1_version_text_round_trip 42 H).
Defined.

(** a message that starts with [SNAPDONE:] reaches the branch for
    acknowledgements *)
Lemma snapdone_reaches_its_branch (s : string) :
  String.eqb ("SNAPDONE:" ++ s) "CONN_READY" = false /\
  String.eqb ("SNAPDONE:" ++ s) "CONN_CLOSED" = false /\
  starts_with "READY" ("SNAPDONE:" ++ s) = false /\
  starts_with "SNAPDONE:" ("SNAPDONE:" ++ s) = true /\
  erase_front 9 ("SNAPDONE:" ++ s) = s.
Proof.
  repeat split; try reflexivity.
  - unfold starts_with. cbn. destruct s; reflexivity.
  - apply (erase_front_app "SNAPDONE:").
Qed.

Section Acknowledgement.
Context {Win Canvas Drawable : Type}.
Context {window_ops : TWebWindow Win} {canvas_ops : RCanvas Canvas Drawable}.
Abbreviation Painter := (TCanvasPainter Win Canvas).

(** an acknowledgement of a known connection, up to the push pass *)
Lemma ProcessData_snapdone (p : Painter) (connid : Z) (s : string)
    (before after : list WebConn.t) (conn : WebConn.t) :
  find_conn connid (fWebConn p) = Some (before, conn, after) ->
  ProcessData connid ("SNAPDONE:" ++ s) p =
  match stoll s with
  | inl v =>
      CheckDataToSend
        (set_fWebConn
           (before ++ WebConn.set_fDelivered (wrap64 v)
                        (WebConn.set_fDrawReady true conn) :: after) p)
  | inr exn =>
      Aborted exn
        (set_fWebConn (before ++ WebConn.set_fDrawReady true conn :: after) p)
  end.
Proof.
  intros Hfind.
  destruct (snapdone_reaches_its_branch s) as (H1 & H2 & H3 & H4 & H5).
  unfold ProcessData. rewrite H1. run_monad. rewrite Hfind.
  unfold ProcessData_branch. rewrite H2, H3, H4, H5. run_monad. fields.
  destruct (stoll s) as [v|exn]; fields.
  - f_equal.
  - reflexivity.
Qed.

(** X2: an acknowledgement whose version is beyond the largest [long long]
    (a [uint64_t] version can be) makes [std::stoll] throw: [ProcessData] ends
    with [std::out_of_range], the connection is marked as drawn, its
    acknowledged version is not changed and the push pass does not run. *)
Theorem X2_acknowledgement_out_of_range (p : Painter) (connid v : Z)
    (before after : list WebConn.t) (conn : WebConn.t) :
  find_conn connid (fWebConn p) = Some (before, conn, after) ->
  LLONG_MAX < v ->
  ProcessData connid ("SNAPDONE:" ++ to_string v) p =
  Aborted (Exception "std::out_of_range")
    (set_fWebConn (before ++ WebConn.set_fDrawReady true conn :: after) p).
Proof.
  intros Hfind Hv. rewrite (ProcessData_snapdone p connid _ before after conn Hfind).
  rewrite stoll_to_string by (unfold LLONG_MAX in Hv; lia).
  apply Z.leb_gt in Hv. rewrite Hv. reflexivity.
Qed.

End Acknowledgement.

Lemma X2_witness :
  ProcessData 1 ("SNAPDONE:" ++ to_string (2 ^ 63)) ScenarioUnknown.before =
  Aborted (Exception "std::out_of_range")
    (set_fWebConn ([] ++ WebConn.set_fDrawReady true (WebConn.make 1) :: [])
       ScenarioUnknown.before).
Proof.
  apply (X2_acknowledgement_out_of_range ScenarioUnknown.before 1 (2 ^ 63) [] []
           (WebConn.make 1)).
  - reflexivity.
  - unfold LLONG_MAX. lia.
Defined.

(** ** What holds on every painter in use *)

Lemma fold_max_start (l : list Z) (m : Z) : m <= fold_left Z.max l m.
Proof.
  revert m. induction l as [|y l IH]; intros m; simpl; [lia|].
  transitivity (Z.max m y); [lia|apply IH].
Qed.

Lemma fold_max_ge (l : list Z) (m x : Z) : In x l -> x <= fold_left Z.max l m.
Proof.
  revert m. induction l as [|y l IH]; intros m; simpl; [tauto|].
  intros [->|Hin]; [|apply IH; exact Hin].
  transitivity (Z.max m x); [lia|apply fold_max_start].
Qed.

Lemma Forall2_In_l {A B : Type} (R : A -> B -> Prop) (l : list A) (l' : list B)
    (x : A) :
  Forall2 R l l' -> In x l -> exists y, In y l' /\ R x y.
Proof.
  induction 1 as [|a b l l' Hab _ IH]; simpl; [tauto|].
  intros [->|Hin]; [exists b; auto|].
  destruct (IH Hin) as (y & Hy & Hxy). exists y. auto.
Qed.

Lemma fold_max_range (l : list Z) (m b : Z) :
  Forall (fun x => 0 <= x < b) l -> 0 <= m < b -> 0 <= fold_left Z.max l m < b.
Proof.
  intros Hl. revert m. induction Hl as [|x l Hx _ IH]; intros m Hm; simpl; [exact Hm|].
  apply IH. lia.
Qed.

Section InUse.
Context {Win Canvas Drawable : Type}.
Context {window_ops : TWebWindow Win} {canvas_ops : RCanvas Canvas Drawable}.
Abbreviation Painter := (TCanvasPainter Win Canvas).

Lemma delivered_is_maximum (p : Painter) :
  settled p -> Forall acknowledged_in_range (fWebConn p) ->
  fSnapshotDelivered p = fold_left Z.max (map WebConn.fDelivered (fWebConn p)) 0.
Proof.
  intros Hs Hr. rewrite Hs. unfold end_min_delivered.
  apply fold_next_min_delivered_max; [lia|].
  eapply Forall_impl; [|exact Hr]. unfold acknowledged_in_range. intros c Hc. lia.
Qed.

(** X3: on every painter in use, a call of a method or a message given to
    [ProcessData] ends abruptly in one case only: [std::stoll] throws on the
    version of a [SNAPDONE] message.  No method dereferences a null window,
    takes the front of an empty queue, uses a null separator or calls an
    empty callback. *)
Theorem X3_only_stoll_throws (p : Painter) (ev : Event Win Canvas) :
  reachable p ->
  match handle ev p with
  | Normal _ _ => True
  | Aborted why _ =>
      exists connid arg,
        ev = DataCallBack connid arg /\ starts_with "SNAPDONE:" arg = true /\
        stoll (erase_front 9 arg) = inr why
  end.
Proof.
  intros Hreach.
  destruct (reachable_Inv2 p Hreach) as (Hn & _).
  apply (step_shape ev p (reachable_Inv p Hreach) (Forall_numbered_named _ Hn)).
Qed.

(** X4: on every painter in use, every queued command has as identifier the
    decimal text of a number (so it is not empty, and holds no colon) and is
    bound to a connection: the value 0 of [fConnId], any connection, does
    not occur in the queue, and the push pass starts a command only for the
    connection that [DoWhenReady] made for it. *)
Theorem X4_commands_numbered_and_bound (p : Painter) :
  reachable p ->
  Forall (fun cmd =>
            (exists n, 0 <= n < 2 ^ 64 /\ WebCommand.fId cmd = to_string n) /\
            WebCommand.fConnId cmd <> 0) (fCmds p) /\
  forall conn cmd rest,
    front_to_run conn (fCmds p) = Some (cmd, rest) ->
    WebCommand.fConnId cmd = WebConn.fConnId conn.
Proof.
  intros Hreach. destruct (reachable_Inv2 p Hreach) as (Hn & Hb & _). split.
  - rewrite Forall_forall in *. intros cmd Hin. split; [apply Hn|apply Hb]; exact Hin.
  - intros conn cmd rest Hfront. apply front_to_run_Some in Hfront.
    destruct Hfront as (Hcmds & _ & _ & [H0|Hid]); [|exact Hid].
    rewrite Hcmds in Hb. inversion Hb as [|c r Hc _]; subst. contradiction.
Qed.

(** X5: on every painter in use, every acknowledged version is in the range
    of its unsigned 64-bit field, and the delivered version is the largest
    of the acknowledged versions of the connections (0 without any). *)
Theorem X5_delivered_is_maximum_in_range (p : Painter) :
  reachable p ->
  Forall (fun conn => 0 <= WebConn.fDelivered conn < 2 ^ 64) (fWebConn p) /\
  fSnapshotDelivered p = fold_left Z.max (map WebConn.fDelivered (fWebConn p)) 0 /\
  0 <= fSnapshotDelivered p < 2 ^ 64.
Proof.
  intros Hreach. destruct (reachable_Inv2 p Hreach) as (_ & _ & Hr).
  destruct (reachable_Inv p Hreach) as [_ Hs].
  split; [exact Hr|].
  pose proof (delivered_is_maximum p Hs Hr) as Hmax. split; [exact Hmax|].
  rewrite Hmax. apply fold_max_range; [|lia].
  apply Forall_map. exact Hr.
Qed.

(** an acknowledgement with a version that [std::stoll] takes, on a painter
    in use, push pass included *)
Lemma ProcessData_acknowledged (p : Painter) (connid v : Z)
    (before after : list WebConn.t) (conn : WebConn.t) :
  reachable p ->
  find_conn connid (fWebConn p) = Some (before, conn, after) ->
  0 <= v <= LLONG_MAX ->
  let conns :=
    (before ++ WebConn.set_fDelivered v (WebConn.set_fDrawReady true conn) :: after)%list in
  exists w' cmds' conns' tr,
    ProcessData connid ("SNAPDONE:" ++ to_string v) p =
    Normal tt (passed w' cmds' conns' tr (set_fWebConn conns p)) /\
    Forall2 conn_kept conns conns' /\ Forall quiet tr /\
    v <= end_min_delivered conns.
Proof.
  intros Hreach Hfind Hv conns.
  destruct (reachable_Inv p Hreach) as [H0 Hs].
  destruct (reachable_Inv2 p Hreach) as (_ & _ & Hr).
  rewrite (ProcessData_snapdone p connid _ before after conn Hfind).
  rewrite stoll_to_string by lia.
  destruct Hv as [Hv0 Hvmax]. apply Z.leb_le in Hvmax. rewrite Hvmax.
  apply Z.leb_le in Hvmax. unfold LLONG_MAX in Hvmax.
  rewrite wrap64_small by lia. fold conns.
  apply find_conn_Some in Hfind. destruct Hfind as (Hconns & _ & _).
  assert (Hne : fWebConn p <> []).
  { rewrite Hconns. destruct before; discriminate. }
  destruct (CheckDataToSend_started (set_fWebConn conns p)) as
    (w' & cmds' & conns' & tr & Heq & _ & Hkept & _ & Hq & _).
  { right. fields. apply H0. exact Hne. }
  { fields. apply H0. }
  fields_in Hkept. exists w', cmds', conns', tr.
  split; [exact Heq|]. split; [exact Hkept|]. split; [exact Hq|].
  assert (Hr1 : Forall acknowledged_in_range conns).
  { rewrite Hconns in Hr. apply Forall_app in Hr. destruct Hr as [Hb Ha].
    inversion Ha; subst. apply Forall_app. split; [exact Hb|].
    constructor; [|assumption]. unfold acknowledged_in_range. simpl. lia. }
  unfold end_min_delivered. rewrite fold_next_min_delivered_max; [|lia|].
  - apply fold_max_ge. apply in_map_iff. eexists. split; [|apply in_or_app; right; left; reflexivity].
    reflexivity.
  - eapply Forall_impl; [|exact Hr1]. unfold acknowledged_in_range. intros c Hc. lia.
Qed.

(** X6: an acknowledgement [SNAPDONE:<version>] of a known connection, with
    a version up to the largest [long long], on a painter in use:
    [ProcessData] returns, the connection is marked as drawn and has
    acknowledged the version, the delivered version is at least that
    version, and the wait function of a blocking update to that version
    reports success. *)
Theorem X6_acknowledged_version_is_delivered (p : Painter) (connid v : Z)
    (before after : list WebConn.t) (conn : WebConn.t) :
  reachable p ->
  find_conn connid (fWebConn p) = Some (before, conn, after) ->
  0 <= v <= LLONG_MAX ->
  exists q,
    ProcessData connid ("SNAPDONE:" ++ to_string v) p = Normal tt q /\
    Forall2 conn_kept
      (before ++ WebConn.set_fDelivered v (WebConn.set_fDrawReady true conn) :: after)
      (fWebConn q) /\
    v <= fSnapshotDelivered q /\
    CheckDeliveredVersion v q = 1.
Proof.
  intros Hreach Hfind Hv.
  destruct (ProcessData_acknowledged p connid v before after conn Hreach Hfind Hv)
    as (w' & cmds' & conns' & tr & Heq & Hkept & _ & Hge).
  eexists. split; [exact Heq|].
  unfold CheckDeliveredVersion, passed, pushed. fields.
  split; [exact Hkept|]. split; [exact Hge|].
  rewrite (Forall2_empty _ _ _ Hkept).
  replace (empty (before ++ _ :: after)) with false by (destruct before; reflexivity).
  cbn [andb].
  match goal with |- (if ?a >=? v then _ else _) = _ =>
    destruct (Z.geb_spec a v); [reflexivity|lia] end.
Qed.

End InUse.

Lemma X3_witness :
  match handle (DataCallBack 1 "SNAPDONE:abc") ScenarioUnknown.before with
  | Normal _ _ => True
  | Aborted why _ =>
      exists connid arg,
        (DataCallBack 1 "SNAPDONE:abc" : Event Demo.Window Demo.Canvas)
        = DataCallBack connid arg /\
        starts_with "SNAPDONE:" arg = true /\ stoll (erase_front 9 arg) = inr why
  end.
Proof.
  apply (X3_only_stoll_throws ScenarioUnknown.before (DataCallBack 1 "SNAPDONE:abc")).
  unfold ScenarioUnknown.before, run. cbn [fold_left].
  repeat apply reachable_step. apply reachable_new.
Defined.

Lemma X4_witness :
  Forall (fun cmd =>
            (exists n, 0 <= n < 2 ^ 64 /\ WebCommand.fId cmd = to_string n) /\
            WebCommand.fConnId cmd <> 0) (fCmds ScenarioStaleReply.before).
Proof.
  apply (X4_commands_numbered_and_bound ScenarioStaleReply.before).
  unfold ScenarioStaleReply.before, run. cbn [fold_left].
  repeat apply reachable_step. apply reachable_new.
Defined.

Lemma X5_witness :
  fSnapshotDelivered ScenarioD.after =
  fold_left Z.max (map WebConn.fDelivered (fWebConn ScenarioD.after)) 0.
Proof.
  apply (X5_delivered_is_maximum_in_range ScenarioD.after).
  unfold ScenarioD.after, ScenarioD.events, run. cbn [fold_left].
  repeat apply reachable_step. apply reachable_new.
Defined.

Lemma X6_witness :
  exists q,
    ProcessData 1 ("SNAPDONE:" ++ to_string 3) ScenarioUnknown.before = Normal tt q /\
    CheckDeliveredVersion 3 q = 1.
Proof.
  destruct (X6_acknowledged_version_is_delivered ScenarioUnknown.before 1 3 [] []
              (WebConn.make 1)) as (q & Heq & _ & _ & Hcheck).
  - unfold ScenarioUnknown.before, run. cbn [fold_left].
    repeat apply reachable_step. apply reachable_new.
  - reflexivity.
  - unfold LLONG_MAX. lia.
  - exists q. auto.
Defined.

(** ** The order of the queue *)

Lemma subseq_refl {A : Type} (l : list A) : subseq l l.
Proof. induction l; constructor; assumption. Qed.

Lemma subseq_trans {A : Type} (l1 l2 l3 : list A) :
  subseq l1 l2 -> subseq l2 l3 -> subseq l1 l3.
Proof.
  intros H12 H23. revert l1 H12.
  induction H23 as [|x l2 l3 _ IH|x l2 l3 _ IH]; intros l1 H12.
  - exact H12.
  - apply subseq_skip. apply IH. exact H12.
  - inversion H12; subst.
    + apply subseq_skip. apply IH. assumption.
    + apply subseq_take. apply IH. assumption.
Qed.

Lemma subseq_filter {A B : Type} (f : A -> B) (g : A -> bool) (l : list A) :
  subseq (map f (filter g l)) (map f l).
Proof.
  induction l as [|x l IH]; simpl; [constructor|].
  destruct (g x); simpl; [apply subseq_take|apply subseq_skip]; exact IH.
Qed.

Lemma subseq_Forall {A : Type} (P : A -> Prop) (l1 l2 : list A) :
  subseq l1 l2 -> Forall P l2 -> Forall P l1.
Proof.
  induction 1 as [|x l1 l2 _ IH|x l1 l2 _ IH]; intros H2; [constructor| |];
    inversion H2; subst; [|constructor]; auto.
Qed.

Lemma subseq_sorted {A : Type} (R : A -> A -> Prop) (l1 l2 : list A) :
  subseq l1 l2 -> StronglySorted R l2 -> StronglySorted R l1.
Proof.
  induction 1 as [|x l1 l2 Hs IH|x l1 l2 Hs IH]; intros H2; [constructor| |];
    inversion H2; subst; [auto|].
  constructor; [auto|]. eapply subseq_Forall; eauto.
Qed.

Lemma subseq_map_inv {A B : Type} (f : A -> B) (l' : list B) (l : list A) :
  subseq l' (map f l) -> exists l0, l' = map f l0 /\ subseq l0 l.
Proof.
  revert l'. induction l as [|x l IH]; intros l' H; simpl in H.
  - inversion H; subst. exists []. split; [reflexivity|constructor].
  - inversion H; subst.
    + destruct (IH _ H2) as (l0 & -> & Hs). exists l0. split; [reflexivity|].
      apply subseq_skip. exact Hs.
    + destruct (IH _ H2) as (l0 & -> & Hs). exists (x :: l0). split; [reflexivity|].
      apply subseq_take. exact Hs.
Qed.

Lemma sorted_snoc (l : list Z) (x : Z) :
  StronglySorted Z.lt l -> Forall (fun y => y < x) l -> StronglySorted Z.lt (l ++ [x]).
Proof.
  induction 1 as [|y l Hs IH Hy]; intros Hx; simpl.
  - constructor; constructor.
  - inversion Hx; subst. constructor; [auto|].
    apply Forall_app. split; [exact Hy|]. constructor; [assumption|constructor].
Qed.

Lemma sorted_NoDup (l : list Z) : StronglySorted Z.lt l -> NoDup l.
Proof.
  induction 1 as [|y l Hs IH Hy]; constructor; [|exact IH].
  intros Hin. rewrite Forall_forall in Hy. specialize (Hy y Hin). lia.
Qed.

Lemma NoDup_to_string (l : list Z) :
  Forall (fun n => 0 <= n) l -> NoDup l -> NoDup (map to_string l).
Proof.
  induction 1 as [|x l Hx Hl IH]; intros Hnd; simpl; [constructor|].
  inversion Hnd; subst. constructor; [|auto].
  intros Hin. apply in_map_iff in Hin. destruct Hin as (y & Heq & Hy).
  rewrite Forall_forall in Hl.
  apply to_string_inj in Heq; [subst; contradiction|auto|exact Hx].
Qed.

Section QueueOrder.
Context {Win Canvas Drawable : Type}.
Context {window_ops : TWebWindow Win} {canvas_ops : RCanvas Canvas Drawable}.
Abbreviation Painter := (TCanvasPainter Win Canvas).

Lemma queue_step_ids (p q : Painter) :
  queue_step p q ->
  (fCmdsCnt q = fCmdsCnt p /\ subseq (ids (fCmds q)) (ids (fCmds p))) \/
  (fCmdsCnt q = wrap64 (fCmdsCnt p + 1) /\
   ids (fCmds q) = (ids (fCmds p) ++ [to_string (fCmdsCnt q)])%list).
Proof.
  intros (l & gone & conns & Hchange & Hst & _). unfold ids.
  rewrite (started_ids _ _ _ Hst).
  remember (fCmdsCnt q) as cnt'. remember (fCmds p) as l0.
  destruct Hchange as [|name arg cb connid _|connid|cmd rest result -> _].
  - left. split; [reflexivity|apply subseq_refl].
  - right. split; [reflexivity|]. rewrite map_app. reflexivity.
  - left. split; [reflexivity|apply subseq_filter].
  - left. split; [reflexivity|]. simpl. apply subseq_skip, subseq_refl.
Qed.

Lemma step_ordered (p : Painter) (ev : Event Win Canvas) :
  reachable p -> ordered p -> fCmdsCnt p + 1 < 2 ^ 64 ->
  ordered (step p ev) /\ fCmdsCnt (step p ev) <= fCmdsCnt p + 1.
Proof.
  intros Hreach (Hcnt & ns & Hids & Hsorted & Hrange) Hsmall.
  destruct (reachable_Inv2 p Hreach) as (Hn & _).
  destruct (step_shape ev p (reachable_Inv p Hreach) (Forall_numbered_named _ Hn))
    as (_ & Hq & _).
  apply queue_step_ids in Hq. unfold ordered.
  destruct Hq as [[Hc Hsub]|[Hc Hnew]].
  - rewrite Hc. split; [|lia]. split; [exact Hcnt|].
    rewrite Hids in Hsub. apply subseq_map_inv in Hsub.
    destruct Hsub as (ns' & Hids' & Hsub). exists ns'.
    split; [exact Hids'|]. split; [eapply subseq_sorted; eauto|].
    eapply subseq_Forall; eauto.
  - rewrite wrap64_small in Hc by lia. rewrite Hc in *. split; [|lia].
    split; [lia|]. exists (ns ++ [fCmdsCnt p + 1])%list.
    split; [rewrite Hnew, Hids, map_app; reflexivity|]. split.
    + apply sorted_snoc; [exact Hsorted|].
      eapply Forall_impl; [|exact Hrange]. intros n Hn'. simpl in Hn'. lia.
    + apply Forall_app. split.
      * eapply Forall_impl; [|exact Hrange]. intros n Hn'. simpl in Hn'. lia.
      * constructor; [lia|constructor].
Qed.

Lemma reachable_run (evs : list (Event Win Canvas)) (p : Painter) :
  reachable p -> reachable (run evs p).
Proof.
  revert p. induction evs as [|ev evs IH]; intros p Hp; [exact Hp|].
  apply (IH (step p ev)). apply reachable_step. exact Hp.
Qed.

Lemma run_ordered (evs : list (Event Win Canvas)) (p : Painter) :
  reachable p -> ordered p ->
  fCmdsCnt p + Z.of_nat (List.length evs) < 2 ^ 64 ->
  ordered (run evs p).
Proof.
  revert p. induction evs as [|ev evs IH]; intros p Hreach Hord Hsmall; [exact Hord|].
  cbn [List.length] in Hsmall. rewrite Nat2Z.inj_succ in Hsmall.
  destruct (step_ordered p ev Hreach Hord) as [Hord' Hcnt]; [lia|].
  apply (IH (step p ev)); [apply reachable_step; exact Hreach|exact Hord'|lia].
Qed.

(** X7: as long as the 64-bit command counter has not wrapped around (here:
    after fewer than 2^64 calls and messages), the identifiers of the
    queued commands are the decimal texts of strictly increasing numbers
    between 1 and the counter; so no two queued commands have the same
    identifier. *)
Theorem X7_command_identifiers_increase (canv : Canvas)
    (evs : list (Event Win Canvas)) :
  Z.of_nat (List.length evs) < 2 ^ 64 ->
  exists ns,
    map WebCommand.fId (fCmds (run evs (new_TCanvasPainter canv))) = map to_string ns /\
    StronglySorted Z.lt ns /\
    Forall (fun n => 0 < n <= fCmdsCnt (run evs (new_TCanvasPainter canv))) ns /\
    NoDup (map WebCommand.fId (fCmds (run evs (new_TCanvasPainter canv)))).
Proof.
  intros Hlen.
  destruct (run_ordered evs (new_TCanvasPainter canv)) as (_ & ns & Hids & Hs & Hr).
  - apply reachable_new.
  - split; [simpl; lia|]. exists []. repeat split; constructor.
  - simpl. exact Hlen.
  - exists ns. unfold ids in Hids. split; [exact Hids|]. split; [exact Hs|].
    split; [exact Hr|]. rewrite Hids. apply NoDup_to_string; [|apply sorted_NoDup, Hs].
    eapply Forall_impl; [|exact Hr]. intros n Hn'. simpl in Hn'. lia.
Qed.

(** X8: a call of a method or a message never changes the order of the
    queue and never puts a command anywhere but behind the others: the
    identifiers of the queue afterwards are, in order, identifiers of the
    queue before, or these followed by the one new identifier, the text of
    the advanced counter. *)
Theorem X8_queue_is_first_in_first_out (p : Painter) (ev : Event Win Canvas) :
  reachable p ->
  (fCmdsCnt (step p ev) = fCmdsCnt p /\
   subseq (map WebCommand.fId (fCmds (step p ev))) (map WebCommand.fId (fCmds p))) \/
  (fCmdsCnt (step p ev) = wrap64 (fCmdsCnt p + 1) /\
   map WebCommand.fId (fCmds (step p ev)) =
   (map WebCommand.fId (fCmds p) ++ [to_string (fCmdsCnt (step p ev))])%list).
Proof.
  intros Hreach.
  destruct (reachable_Inv2 p Hreach) as (Hn & _).
  destruct (step_shape ev p (reachable_Inv p Hreach) (Forall_numbered_named _ Hn))
    as (_ & Hq & _).
  apply queue_step_ids in Hq. exact Hq.
Qed.

End QueueOrder.

Lemma X7_witness :
  NoDup (map WebCommand.fId
           (fCmds (run [CallDoWhenReady "PNG" "/tmp/out.png" true (Some 7%nat);
                        CallDoWhenReady "SVG" "/tmp/out.svg" true (Some 8%nat)]
                     (new_TCanvasPainter Demo.canvas)))).
Proof.
  destruct (X7_command_identifiers_increase (Win := Demo.Window) Demo.canvas
              [CallDoWhenReady "PNG" "/tmp/out.png" true (Some 7%nat);
               CallDoWhenReady "SVG" "/tmp/out.svg" true (Some 8%nat)])
    as (ns & _ & _ & _ & Hnodup).
  - simpl. lia.
  - exact Hnodup.
Defined.

Lemma X8_witness :
  (fCmdsCnt (step ScenarioC.before (DataCallBack 1 "REPLY:1:abcd"))
   = fCmdsCnt ScenarioC.before /\
   subseq (map WebCommand.fId
             (fCmds (step ScenarioC.before (DataCallBack 1 "REPLY:1:abcd"))))
     (map WebCommand.fId (fCmds ScenarioC.before))) \/
  (fCmdsCnt (step ScenarioC.before (DataCallBack 1 "REPLY:1:abcd"))
   = wrap64 (fCmdsCnt ScenarioC.before + 1) /\
   map WebCommand.fId (fCmds (step ScenarioC.before (DataCallBack 1 "REPLY:1:abcd")))
   = (map WebCommand.fId (fCmds ScenarioC.before) ++
      [to_string (fCmdsCnt (step ScenarioC.before (DataCallBack 1 "REPLY:1:abcd")))])%list).
Proof.
  apply (X8_queue_is_first_in_first_out ScenarioC.before (DataCallBack 1 "REPLY:1:abcd")).
  unfold ScenarioC.before. apply reachable_run, reachable_new.
Defined.

(** ** Replies *)

(** the text of a reply to the command with the identifier [id] *)
Lemma reply_text (id body : string) :
  only_digits id = true ->
  starts_with "REPLY:" ("REPLY:" ++ id ++ ":" ++ body) = true /\
  find_char ":" (c_str (erase_front 6 ("REPLY:" ++ id ++ ":" ++ body)))
  = Some (String.length id) /\
  substring 0 (String.length id) (c_str (erase_front 6 ("REPLY:" ++ id ++ ":" ++ body)))
  = id /\
  erase_front (String.length id + 1)
    (c_str (erase_front 6 ("REPLY:" ++ id ++ ":" ++ body)))
  = c_str body.
Proof.
  intros Hid.
  assert (Hsid : c_str (erase_front 6 ("REPLY:" ++ id ++ ":" ++ body))
                 = id ++ String ":" (c_str body)).
  { rewrite (erase_front_app "REPLY:").
    rewrite c_str_app by (apply only_digits_no_nul; exact Hid). reflexivity. }
  rewrite Hsid. split; [|split; [|split]].
  - unfold starts_with. cbn. generalize (id ++ String ":" body).
    intros s. destruct s; reflexivity.
  - apply find_char_app. apply find_char_digits; [reflexivity|exact Hid].
  - apply substring_front.
  - apply erase_front_sep.
Qed.

Section Replies.
Context {Win Canvas Drawable : Type}.
Context {window_ops : TWebWindow Win} {canvas_ops : RCanvas Canvas Drawable}.
Abbreviation Painter := (TCanvasPainter Win Canvas).

(** a reply to the running head of the queue, on a painter in use:
    [FrontCommandReplied] gets the text behind the second colon, up to its
    first NUL, and the push pass follows *)
Lemma ProcessData_replied (p : Painter) (connid : Z)
    (front : WebCommand.t) (rest : list WebCommand.t) (body : string) :
  reachable p ->
  (exists c, In c (fWebConn p) /\ WebConn.fConnId c = connid) ->
  fCmds p = front :: rest -> WebCommand.fRunning front = true ->
  exists (result : bool) (tr : list Effect) (q1 : Painter)
         (w' : option Win) (cmds' : list WebCommand.t) (conns' : list WebConn.t)
         (tr' : list Effect),
    q1 = set_fReleased
           (fReleased p ++
            [WebCommand.set_fCallback None
               (WebCommand.set_fResult result (WebCommand.set_fReady true front))])
           (set_fTrace (fTrace p ++ tr ++ fire (WebCommand.fCallback front) result)
              (set_fCmds rest p)) /\
    callbacks tr = [] /\
    FrontCommandReplied (c_str body) p = Normal tt q1 /\
    CheckDataToSend q1 = Normal tt (pushed w' cmds' tr' (set_fWebConn conns' q1)) /\
    ProcessData connid ("REPLY:" ++ WebCommand.fId front ++ ":" ++ body) p
    = Normal tt (pushed w' cmds' tr' (set_fWebConn conns' q1)) /\
    started (fWebConn p) rest cmds' /\ Forall quiet tr' /\
    Forall2 conn_kept (fWebConn p) conns' /\
    result = reply_result (WebCommand.fName front) (c_str body).
Proof.
  intros Hreach Hknown Hcmds Hrun.
  destruct (reachable_Inv p Hreach) as [H0 Hs].
  destruct (reachable_Inv2 p Hreach) as (Hn & _).
  assert (Hid : only_digits (WebCommand.fId front) = true).
  { rewrite Hcmds in Hn. inversion Hn as [|c r (n & _ & Hc) _]; subst.
    rewrite Hc. apply only_digits_to_string. }
  destruct (reply_text (WebCommand.fId front) body Hid) as (Hreply & Hsep & Hsub & Hrest).
  rewrite (ProcessData_accepted_reply p connid _ front rest
             (String.length (WebCommand.fId front)) Hknown Hreply Hcmds Hrun Hsep
             (eq_sym Hsub)).
  rewrite Hrest.
  destruct (FrontCommandReplied_popped (c_str body) p front rest Hcmds)
    as (result & tr & Heq & Hsilent & Hverb).
  assert (Hresult : result = reply_result (WebCommand.fName front) (c_str body)).
  { unfold reply_result.
    destruct (String.eqb (WebCommand.fName front) "SVG" ||
              String.eqb (WebCommand.fName front) "PNG" ||
              String.eqb (WebCommand.fName front) "JPEG")%bool.
    - destruct (Nat.eqb (String.length (c_str body)) 0); apply Hverb.
    - destruct (starts_with "ADDPANEL:" (WebCommand.fName front)); apply Hverb. }
  unfold bind. rewrite Heq.
  match type of Heq with _ = Normal tt ?s => set (q1 := s) in * end.
  assert (Hne : fWebConn p <> []).
  { destruct Hknown as (c & Hin & _). intros Hnil. rewrite Hnil in Hin. exact Hin. }
  destruct (CheckDataToSend_started q1) as
    (w' & cmds' & conns' & tr' & Heq' & _ & Hkept & Hst & Hq & _).
  { right. subst q1. fields. apply H0. exact Hne. }
  { subst q1. fields. apply H0. }
  assert (Hpass : passed w' cmds' conns' tr' q1
                  = pushed w' cmds' tr' (set_fWebConn conns' q1)).
  { unfold passed, pushed. subst q1. fields.
    unfold settled in Hs. rewrite Hs, settle_settled. fields. painter_eq.
    symmetry. exact Hs. }
  rewrite Hpass in Heq'.
  exists result, tr, q1, w', cmds', conns', tr'.
  split; [reflexivity|]. split; [exact Hsilent|]. split; [reflexivity|].
  split; [exact Heq'|]. split; [exact Heq'|].
  subst q1. fields_in Hst. fields_in Hkept. auto.
Qed.

(** X9: a reply [REPLY:<id>:<text>] with the identifier of the running head
    of the queue is accepted from every known connection, whether or not
    the command was sent to it: the head leaves the queue and is handed to
    [FrontCommandReplied] with the text behind the second colon, up to its
    first NUL, which stores the result in the command and calls its
    callback once, with that result; the push pass that follows calls no
    callback, releases nothing more and may start the next command; the
    pending updates stay. *)
Theorem X9_reply_is_accepted_from_any_connection (p : Painter) (connid : Z)
    (front : WebCommand.t) (rest : list WebCommand.t) (body : string) :
  reachable p ->
  (exists c, In c (fWebConn p) /\ WebConn.fConnId c = connid) ->
  fCmds p = front :: rest -> WebCommand.fRunning front = true ->
  exists (q1 q : Painter) (result : bool),
    FrontCommandReplied (c_str body) p = Normal tt q1 /\
    CheckDataToSend q1 = Normal tt q /\
    ProcessData connid ("REPLY:" ++ WebCommand.fId front ++ ":" ++ body) p
    = Normal tt q /\
    fCmds q1 = rest /\
    fReleased q1 =
      (fReleased p ++
       [WebCommand.set_fCallback None
          (WebCommand.set_fResult result (WebCommand.set_fReady true front))])%list /\
    callbacks (fTrace q1) =
      (callbacks (fTrace p) ++ callbacks (fire (WebCommand.fCallback front) result))%list /\
    fReleased q =
      (fReleased p ++
       [WebCommand.set_fCallback None
          (WebCommand.set_fResult result (WebCommand.set_fReady true front))])%list /\
    callbacks (fTrace q) =
      (callbacks (fTrace p) ++ callbacks (fire (WebCommand.fCallback front) result))%list /\
    started (fWebConn p) rest (fCmds q) /\
    fUpdatesLst q = fUpdatesLst p.
Proof.
  intros Hreach Hknown Hcmds Hrun.
  destruct (ProcessData_replied p connid front rest body Hreach Hknown Hcmds Hrun)
    as (result & tr & q1 & w' & cmds' & conns' & tr' & Hq1 & Hsilent & Hfront & Hpass
        & Heq & Hst & Hq & _).
  exists q1, (pushed w' cmds' tr' (set_fWebConn conns' q1)), result.
  split; [exact Hfront|]. split; [exact Hpass|]. split; [exact Heq|].
  unfold pushed. rewrite Hq1. fields.
  rewrite !callbacks_app, Hsilent, (callbacks_quiet tr' Hq), !app_nil_r.
  repeat split; try reflexivity. exact Hst.
Qed.

End Replies.

Lemma X9_witness :
  exists (q1 q : TCanvasPainter Demo.Window Demo.Canvas) (result : bool),
    FrontCommandReplied (c_str "abcd") ScenarioC.before = Normal tt q1 /\
    CheckDataToSend q1 = Normal tt q /\
    ProcessData 1 ("REPLY:" ++ WebCommand.fId ScenarioC.head ++ ":" ++ "abcd")
      ScenarioC.before = Normal tt q /\
    fReleased q1 =
      (fReleased ScenarioC.before ++
       [WebCommand.set_fCallback None
          (WebCommand.set_fResult result
             (WebCommand.set_fReady true ScenarioC.head))])%list /\
    callbacks (fTrace q) =
      (callbacks (fTrace ScenarioC.before) ++
       callbacks (fire (WebCommand.fCallback ScenarioC.head) result))%list.
Proof.
  assert (Hreach : reachable ScenarioC.before).
  { unfold ScenarioC.before. apply reachable_run, reachable_new. }
  destruct (X9_reply_is_accepted_from_any_connection ScenarioC.before 1
              ScenarioC.head [] "abcd" Hreach)
    as (q1 & q & result & H1 & H2 & H3 & _ & H4 & _ & _ & H5 & _).
  - eexists. split; [vm_compute; left; reflexivity|reflexivity].
  - reflexivity.
  - reflexivity.
  - exists q1, q, result. auto.
Defined.

(** ** Cancelling *)

Lemma filter_cancels_all (l : list WebCommand.t) :
  filter (cancels 0) l = l /\ filter (fun c => negb (cancels 0 c)) l = [].
Proof.
  induction l as [|c l [IH1 IH2]]; [split; reflexivity|].
  cbn [filter]. change (cancels 0 c) with true. cbn [negb].
  rewrite IH1, IH2. split; reflexivity.
Qed.

Lemma filter_Forall_false {A : Type} (f : A -> bool) (l : list A) :
  Forall (fun x => f x = false) l -> filter f l = [] /\ filter (fun x => negb (f x)) l = l.
Proof.
  induction 1 as [|x l Hx _ [IH1 IH2]]; [split; reflexivity|].
  simpl. rewrite Hx, IH1, IH2. split; reflexivity.
Qed.

Section Cancelling.
Context {Win Canvas Drawable : Type}.
Context {window_ops : TWebWindow Win} {canvas_ops : RCanvas Canvas Drawable}.
Abbreviation Painter := (TCanvasPainter Win Canvas).

(** X10: [CancelCommands] never fails.  It keeps, in their order, exactly
    the commands that are bound to another connection, calls the callback
    of every other command (when it has one) with [false], in the order of
    the queue, and leaves these commands ready, not running and without
    callback.  With the connection 0 it empties the queue; for a connection
    that no command is bound to it changes nothing. *)
Theorem X10_cancel_commands (p : Painter) (connid : Z) :
  let gone := filter (fun c => ((connid =? 0) || (WebCommand.fConnId c =? connid))%bool)
                (fCmds p) in
  exists q,
    CancelCommands connid p = Normal tt q /\
    fCmds q = filter (fun c => negb ((connid =? 0) || (WebCommand.fConnId c =? connid))%bool)
                (fCmds p) /\
    fTrace q = (fTrace p ++ flat_map (fun c => fire (WebCommand.fCallback c) false) gone)%list /\
    fReleased q =
      (fReleased p ++
       map (fun c => WebCommand.set_fRunning false
                       (WebCommand.set_fReady true (WebCommand.set_fCallback None c)))
         gone)%list /\
    (connid = 0 -> fCmds q = [] /\ gone = fCmds p) /\
    (connid <> 0 -> Forall (fun c => WebCommand.fConnId c <> connid) (fCmds p) ->
     q = p).
Proof.
  intros gone. rewrite CancelCommands_eq. eexists. split; [reflexivity|]. fields.
  split; [reflexivity|]. split; [reflexivity|]. split; [reflexivity|]. split.
  - intros ->. subst gone. split; apply filter_cancels_all.
  - intros Hne Hall.
    assert (Hnone : Forall (fun c => cancels connid c = false) (fCmds p)).
    { eapply Forall_impl; [|exact Hall]. intros c Hc. unfold cancels.
      apply Z.eqb_neq in Hne, Hc. rewrite Hne, Hc. reflexivity. }
    apply filter_Forall_false in Hnone. destruct Hnone as [Hnil Hsame].
    painter_eq.
    + exact Hsame.
    + fold (cancels connid). rewrite Hnil. apply app_nil_r.
    + fold (cancels connid). rewrite Hnil. apply app_nil_r.
Qed.

(** X11: a message [CONN_CLOSED] of a known connection, on a painter in use:
    the first record of the connection leaves the list and the other
    records keep their order; the commands bound to the connection are
    cancelled as by [CancelCommands], their callbacks called with [false]
    before anything else happens, the other commands stay in their order;
    the push pass that follows may start the head of what is left, for one
    of the connections that are left. *)
Theorem X11_disconnect_cancels_its_commands (p : Painter) (connid : Z)
    (before after : list WebConn.t) (conn : WebConn.t) :
  reachable p ->
  find_conn connid (fWebConn p) = Some (before, conn, after) ->
  exists (q : Painter) (tr : list Effect),
    ProcessData connid "CONN_CLOSED" p = Normal tt q /\
    Forall2 conn_kept (before ++ after) (fWebConn q) /\
    started (before ++ after)
      (filter (fun c => negb (cancels connid c)) (fCmds p)) (fCmds q) /\
    fTrace q =
      (fTrace p ++
       flat_map (fun c => fire (WebCommand.fCallback c) false)
         (filter (cancels connid) (fCmds p)) ++ tr)%list /\
    fReleased q = (fReleased p ++ map cancelled (filter (cancels connid) (fCmds p)))%list.
Proof.
  intros Hreach Hfind.
  destruct (reachable_Inv p Hreach) as [(Hsf & Hconn & Hcb) Hs].
  unfold ProcessData. change (String.eqb "CONN_CLOSED" "CONN_READY") with false.
  run_monad. rewrite Hfind. unfold ProcessData_branch.
  change (String.eqb "CONN_CLOSED" "CONN_CLOSED") with true. run_monad. fields.
  rewrite CancelCommands_eq. fields.
  apply find_conn_Some in Hfind. destruct Hfind as (Hconns & _ & _).
  assert (Hne : fWebConn p <> []).
  { rewrite Hconns. destruct before; discriminate. }
  match goal with
  | |- context [CheckDataToSend ?s] => set (q1 := s)
  end.
  destruct (CheckDataToSend_started q1) as
    (w' & cmds' & conns' & tr' & Heq' & _ & Hkept & Hst & _).
  { right. subst q1. fields. apply Hconn. exact Hne. }
  { subst q1. fields. exact Hcb. }
  rewrite Heq'. eexists _, _. split; [reflexivity|].
  unfold passed, pushed. subst q1. fields. fields_in Hst. fields_in Hkept.
  split; [exact Hkept|]. split; [exact Hst|]. split; [|reflexivity].
  rewrite <- !app_assoc. reflexivity.
Qed.

(** X12: the teardown of a painter in use never fails.  It calls with
    [false] the callbacks of all queued commands, in the order of the queue,
    and then these of all pending updates, in their order; it empties the
    queue and the pending updates, sets the delivered version to 0, closes
    the connections of the window when there is one and keeps the list of
    connections. *)
Theorem X12_teardown_cancels_everything (p : Painter) :
  reachable p ->
  exists q,
    destructor p = Normal tt q /\
    fCmds q = [] /\ fUpdatesLst q = [] /\ fSnapshotDelivered q = 0 /\
    fWindow q = option_map CloseConnections (fWindow p) /\
    fWebConn q = fWebConn p /\
    fTrace q =
      (fTrace p ++
       flat_map (fun c => fire (WebCommand.fCallback c) false) (fCmds p) ++
       flat_map (fun u => fire (WebUpdate.fCallback u) false) (fUpdatesLst p))%list /\
    fReleased q = (fReleased p ++ map cancelled (fCmds p))%list.
Proof.
  intros Hreach. destruct (reachable_Inv p Hreach) as [(_ & _ & Hcb) _].
  unfold destructor. run_monad.
  rewrite CancelCommands_eq. rewrite CancelUpdates_eq by (fields; exact Hcb).
  fields. eexists. split; [reflexivity|]. fields.
  destruct (filter_cancels_all (fCmds p)) as [-> ->].
  repeat split. rewrite <- app_assoc. reflexivity.
Qed.

End Cancelling.

Lemma X10_witness :
  exists q : TCanvasPainter Demo.Window Demo.Canvas,
    CancelCommands 0 ScenarioC.before = Normal tt q /\ fCmds q = [].
Proof.
  destruct (X10_cancel_commands ScenarioC.before 0) as (q & Heq & _ & _ & _ & H0 & _).
  exists q. split; [exact Heq|]. apply H0. reflexivity.
Defined.

Lemma X11_witness :
  exists (q : TCanvasPainter Demo.Window Demo.Canvas) (tr : list Effect),
    ProcessData 1 "CONN_CLOSED" ScenarioC.before = Normal tt q /\
    fReleased q =
      (fReleased ScenarioC.before ++
       map cancelled (filter (cancels 1) (fCmds ScenarioC.before)))%list.
Proof.
  assert (Hreach : reachable ScenarioC.before).
  { unfold ScenarioC.before. apply reachable_run, reachable_new. }
  destruct (X11_disconnect_cancels_its_commands ScenarioC.before 1 [] []
              (WebConn.Build 1 true "" 0 0) Hreach)
    as (q & tr & H1 & _ & _ & _ & H2).
  - reflexivity.
  - exists q, tr. auto.
Defined.

Lemma X12_witness :
  exists q : TCanvasPainter Demo.Window Demo.Canvas,
    destructor ScenarioLostViewer.after = Normal tt q /\
    fCmds q = [] /\ fUpdatesLst q = [].
Proof.
  assert (Hreach : reachable ScenarioLostViewer.after).
  { unfold ScenarioLostViewer.after. apply reachable_run, reachable_new. }
  destruct (X12_teardown_cancels_everything ScenarioLostViewer.after Hreach)
    as (q & H1 & H2 & H3 & _).
  exists q. auto.
Defined.

(** ** The JSON dump *)

Lemma exported_app (tr1 tr2 : list Effect) :
  exported (tr1 ++ tr2) = (exported tr1 ++ exported tr2)%list.
Proof. unfold exported. apply flat_map_app. Qed.

Lemma exported_quiet (tr : list Effect) : Forall quiet tr -> exported tr = [].
Proof.
  induction 1 as [|e tr He _ IH]; [reflexivity|].
  destruct e; simpl in He; try contradiction; exact IH.
Qed.

Lemma exported_fire_all {A : Type} (get : A -> CanvasCallback_t) (res : bool)
    (l : list A) :
  exported (flat_map (fun x => fire (get x) res) l) = [].
Proof.
  induction l as [|x l IH]; [reflexivity|].
  simpl. rewrite exported_app, IH. destruct (get x); reflexivity.
Qed.

Lemma exported_settle (delivered : Z) (conns : list WebConn.t)
    (upds : list WebUpdate.t) :
  exported (snd (settle delivered conns upds)) = [].
Proof.
  unfold settle.
  destruct (empty conns && negb (delivered =? 0))%bool;
    cbn [snd]; [apply exported_fire_all|].
  destruct (negb (delivered =? end_min_delivered conns));
    cbn [snd]; [apply exported_fire_all|reflexivity].
Qed.

Section Dump.
Context {Win Canvas Drawable : Type}.
Context {window_ops : TWebWindow Win} {canvas_ops : RCanvas Canvas Drawable}.
Abbreviation Painter := (TCanvasPainter Win Canvas).

(** X13: [DoWhenReady("JSON", file)] only notes the file name: it makes no
    window and no command and never calls the callback it was given.  The
    next [CanvasUpdated] that makes a snapshot exports it to that file,
    once, and forgets the name; a [CanvasUpdated] for a version that is
    delivered already makes no snapshot and keeps the name for later. *)
Theorem X13_dump_is_served_by_the_next_snapshot (p : Painter) (file : string)
    (async async' : bool) (callback callback' : CanvasCallback_t) (ver : Z) :
  reachable p -> file <> "" ->
  let p1 := step p (CallDoWhenReady "JSON" file async callback) in
  let q := step p1 (CallCanvasUpdated ver async' callback') in
  p1 = set_fNextDumpName file p /\
  if delivered_already ver p
  then exported (fTrace q) = exported (fTrace p) /\ fNextDumpName q = file
  else exported (fTrace q) = (exported (fTrace p) ++ [c_str file])%list /\
       fNextDumpName q = "".
Proof.
  intros Hreach Hfile p1 q.
  assert (Hp1 : p1 = set_fNextDumpName file p) by reflexivity.
  split; [exact Hp1|].
  assert (Hreach1 : reachable p1) by (apply reachable_step; exact Hreach).
  destruct (reachable_Inv p1 Hreach1) as [H0 Hs].
  subst q. unfold step. cbn [handle]. unfold CanvasUpdated. run_monad. fields.
  replace (fSnapshotDelivered p1) with (fSnapshotDelivered p) by (rewrite Hp1; reflexivity).
  fold (delivered_already ver p).
  destruct (delivered_already ver p).
  - destruct callback' as [cb|]; cbn [final]; fields; rewrite Hp1; fields;
      rewrite ?exported_app, ?app_nil_r; split; reflexivity.
  - unfold CreateSnapshot. run_monad. fields.
    replace (fNextDumpName p1) with file by (rewrite Hp1; reflexivity).
    destruct (String.eqb_spec file "") as [Hempty|_]; [contradiction|].
    cbn [negb]. fields.
    assert (Htrace : fTrace p1 = fTrace p) by (rewrite Hp1; reflexivity).
    destruct (match option_map Sync (fWindow p1) with
              | Some w => negb (IsShown w)
              | None => true
              end).
    + destruct callback' as [cb|]; cbn [final]; fields;
        rewrite ?exported_app, Htrace, ?app_nil_r; split; reflexivity.
    + match goal with
      | |- context [CheckDataToSend ?s] => set (q1 := s)
      end.
      destruct (CheckDataToSend_started q1) as
        (w' & cmds' & conns' & tr' & Heq' & _ & _ & _ & Hq & _).
      { destruct (fWebConn p1) eqn:Hc; [left; subst q1; fields; exact Hc|right].
        subst q1. fields. apply option_map_not_None. apply H0. rewrite Hc. discriminate. }
      { subst q1. fields. apply H0. }
      rewrite Heq'. unfold passed, pushed. subst q1.
      destruct callback' as [cb|]; cbn [final]; fields;
        rewrite !exported_app, Htrace, (exported_quiet tr' Hq), exported_settle,
          !app_nil_r; split; reflexivity.
Qed.

End Dump.

Lemma X13_witness :
  exported (fTrace (step (step ScenarioUnknown.before
                            (CallDoWhenReady "JSON" "canvas.json" true None))
                      (CallCanvasUpdated 1 true None)))
  = (exported (fTrace ScenarioUnknown.before) ++ [c_str "canvas.json"])%list.
Proof.
  assert (Hreach : reachable ScenarioUnknown.before).
  { unfold ScenarioUnknown.before. apply reachable_run, reachable_new. }
  assert (Hfile : "canvas.json" <> "") by discriminate.
  destruct (X13_dump_is_served_by_the_next_snapshot ScenarioUnknown.before
              "canvas.json" true true None None 1 Hreach Hfile) as [_ H].
  change (delivered_already 1 ScenarioUnknown.before) with false in H.
  apply H.
Defined.

(** ** What the methods leave alone *)

Section LeftAlone.
Context {Win Canvas Drawable : Type}.
Context {window_ops : TWebWindow Win} {canvas_ops : RCanvas Canvas Drawable}.
Abbreviation Painter := (TCanvasPainter Win Canvas).

(** X14: from any state and however the method ends, a painter that has a
    window keeps having one, and a painter that had a connection keeps
    knowing it: no method resets [fWindow] or [fHadWebConn]. *)
Theorem X14_window_and_connection_flag_stay (p : Painter) (ev : Event Win Canvas) :
  (fWindow p <> None -> fWindow (step p ev) <> None) /\
  (fHadWebConn p = true -> fHadWebConn (step p ev) = true).
Proof.
  apply (relates_handle
           (fun p q : Painter =>
              (fWindow p <> None -> fWindow q <> None) /\
              (fHadWebConn p = true -> fHadWebConn q = true)));
    try (intros; fields; split; auto; discriminate).
  - intros p0 q0 r0 [H1 H2] [H3 H4]. auto.
  - intros p0 f. fields. split; [apply option_map_not_None|auto].
Qed.

(** X15: from any state and however the method ends: the snapshot and its
    version are changed by [CanvasUpdated] only; the command counter by
    [DoWhenReady] only, on its own or inside [AddPanel]; the canvas by a
    message to [ProcessData] or by its user only; and a message to
    [ProcessData] does not change the name of the next dump. *)
Theorem X15_fields_left_alone (p : Painter) (ev : Event Win Canvas) :
  match ev with
  | CallCanvasUpdated _ _ _ => True
  | _ => fSnapshotVersion (step p ev) = fSnapshotVersion p /\
         fSnapshot (step p ev) = fSnapshot p
  end /\
  match ev with
  | CallDoWhenReady _ _ _ _ | CallAddPanel _ => True
  | _ => fCmdsCnt (step p ev) = fCmdsCnt p
  end /\
  match ev with
  | DataCallBack _ _ | CanvasChanged _ => True
  | _ => fCanvas (step p ev) = fCanvas p
  end /\
  match ev with
  | DataCallBack _ _ => fNextDumpName (step p ev) = fNextDumpName p
  | _ => True
  end.
Proof.
  pose (R1 := fun p q : Painter =>
                fSnapshotVersion q = fSnapshotVersion p /\ fSnapshot q = fSnapshot p).
  pose (R2 := fun p q : Painter => fCmdsCnt q = fCmdsCnt p).
  pose (R3 := fun p q : Painter => fCanvas q = fCanvas p).
  pose (R4 := fun p q : Painter => fNextDumpName q = fNextDumpName p).
  assert (T1 : forall p q r : Painter, R1 p q -> R1 q r -> R1 p r).
  { unfold R1. intros ? ? ? [H1 H2] [H3 H4]. split; congruence. }
  assert (T2 : forall p q r : Painter, R2 p q -> R2 q r -> R2 p r).
  { unfold R2. intros. congruence. }
  assert (T3 : forall p q r : Painter, R3 p q -> R3 q r -> R3 p r).
  { unfold R3. intros. congruence. }
  assert (T4 : forall p q r : Painter, R4 p q -> R4 q r -> R4 p r).
  { unfold R4. intros. congruence. }
  unfold step.
  destruct ev as [ver async callback|name arg async callback|name arg res|where_
                 |win|connid arg|f|can];
    (split; [|split; [|split]]); try exact I.
  - apply (relates_CanvasUpdated R2); auto; unfold R2; intros; reflexivity.
  - apply (relates_CanvasUpdated R3); auto; unfold R3; intros; reflexivity.
  - apply (relates_DoWhenReady R1); auto; unfold R1; intros; split; reflexivity.
  - apply (relates_DoWhenReady R3); auto; unfold R3; intros; reflexivity.
  - apply (relates_DoWhenReady_done R1); auto; unfold R1; intros; split; reflexivity.
  - apply (relates_DoWhenReady_done R2); auto; unfold R2; intros; reflexivity.
  - apply (relates_DoWhenReady_done R3); auto; unfold R3; intros; reflexivity.
  - apply (relates_NewDisplay R1); auto; unfold R1; intros; split; reflexivity.
  - apply (relates_NewDisplay R2); auto; unfold R2; intros; reflexivity.
  - apply (relates_NewDisplay R3); auto; unfold R3; intros; reflexivity.
  - apply (relates_call_AddPanel R1); auto; unfold R1; intros; split; reflexivity.
  - apply (relates_call_AddPanel R3); auto; unfold R3; intros; reflexivity.
  - apply (relates_data_callback R1); auto; unfold R1; intros; split; reflexivity.
  - apply (relates_data_callback R2); auto; unfold R2; intros; reflexivity.
  - apply (relates_data_callback R4); auto; unfold R4; intros; reflexivity.
  - apply (relates_window_activity R1); auto; unfold R1; intros; split; reflexivity.
  - apply (relates_window_activity R2); auto; unfold R2; intros; reflexivity.
  - apply (relates_window_activity R3); auto; unfold R3; intros; reflexivity.
  - apply (relates_canvas_changed R1); auto; unfold R1; intros; split; reflexivity.
  - apply (relates_canvas_changed R2); auto; unfold R2; intros; reflexivity.
Qed.

End LeftAlone.

(** ** Drawables and files named in a message *)

Section Separators.
Context {Win Canvas Drawable : Type}.
Context {window_ops : TWebWindow Win} {canvas_ops : RCanvas Canvas Drawable}.
Abbreviation Painter := (TCanvasPainter Win Canvas).

(** X16: [FindDrawable] looks for the identifier up to the first [#]: a
    specifier behind [#] is ignored, and an identifier without [#] is looked
    for as it is. *)
Theorem X16_specifier_is_ignored (can : Canvas) (id spec : string) :
  find_char "#" id = None ->
  FindDrawable can (id ++ "#" ++ spec) = CanvasFindDrawable can id /\
  FindDrawable can id = CanvasFindDrawable can id.
Proof.
  intros Hid. unfold FindDrawable. rewrite Hid. split; [|reflexivity].
  change (id ++ "#" ++ spec) with (id ++ String "#" spec).
  rewrite (find_char_app "#" id spec Hid), substring_front. reflexivity.
Qed.

(** X17: [SaveCreatedFile] on [<name>:<content>], with a name that is not
    empty: the decoded content (up to its first NUL, as [c_str] gives it to
    the decoder) is written to the file with that name, and nothing else
    changes but the log.  Without a colon, or with nothing in front of it,
    only an error is logged and no file is written. *)
Theorem X17_saved_file (p : Painter) (fname content reply : string) :
  (fname <> "" -> find_char ":" fname = None ->
   exists msg,
     SaveCreatedFile (fname ++ ":" ++ content) p =
     Normal tt
       (set_fTrace
          (fTrace p ++ [WriteFile (c_str fname) (TBase64_Decode (c_str content));
                        InfoLog msg]) p)) /\
  (find_char ":" reply = None \/ find_char ":" reply = Some O ->
   SaveCreatedFile reply p =
   Normal tt
     (set_fTrace
        (fTrace p ++ [ErrorLog "SaveCreatedFile does not found ':' separator"]) p)).
Proof.
  split.
  - intros Hne Hcolon. unfold SaveCreatedFile.
    change (fname ++ ":" ++ content) with (fname ++ String ":" content).
    rewrite (find_char_app ":" fname content Hcolon).
    destruct (String.length fname) as [|n] eqn:Hlen.
    { destruct fname; [contradiction|discriminate]. }
    rewrite <- Hlen, substring_front, erase_front_sep. run_monad.
    eexists. f_equal. painter_eq.
  - intros [Hnone|Hzero]; unfold SaveCreatedFile; [rewrite Hnone|rewrite Hzero];
      reflexivity.
Qed.

End Separators.

Lemma X16_witness :
  FindDrawable Demo.canvas ("obj1" ++ "#" ++ "axis") = CanvasFindDrawable Demo.canvas "obj1".
Proof.
  apply (X16_specifier_is_ignored Demo.canvas "obj1" "axis"). reflexivity.
Defined.

Lemma X17_witness :
  (exists msg,
     SaveCreatedFile ("plot.png" ++ ":" ++ "abcd") Demo.painter =
     Normal tt
       (set_fTrace
          (fTrace Demo.painter ++
           [WriteFile (c_str "plot.png") (TBase64_Decode (c_str "abcd"));
            InfoLog msg]) Demo.painter)) /\
  SaveCreatedFile "abcd" Demo.painter =
  Normal tt
    (set_fTrace
       (fTrace Demo.painter ++
        [ErrorLog "SaveCreatedFile does not found ':' separator"]) Demo.painter).
Proof.
  destruct (X17_saved_file Demo.painter "plot.png" "abcd" "abcd") as [H1 H2].
  split.
  - apply H1; [discriminate|reflexivity].
  - apply H2. left. reflexivity.
Defined.

(** ** Commands on their way into the queue *)

Section Submitting.
Context {Win Canvas Drawable : Type}.
Context {window_ops : TWebWindow Win} {canvas_ops : RCanvas Canvas Drawable}.
Abbreviation Painter := (TCanvasPainter Win Canvas).

(** X18: [DoWhenReady] for a command (any name but [JSON]) on a painter in
    use.  When the window gives no batch connection, the callback is called
    with [false] at once, and nothing is queued or counted.  Otherwise the
    counter advances, the command is put behind the queue with the text of
    the counter as identifier, not running, bound to the batch connection;
    its callback is not called in this call, no pending update changes, and
    the push pass of this call may start the head of the queue. *)
Theorem X18_command_is_queued_behind (p : Painter) (name arg : string)
    (async : bool) (callback : CanvasCallback_t) :
  reachable p -> name <> "JSON" ->
  let connid := fst (MakeBatch (window_or_new p)) in
  exists q,
    DoWhenReady name arg async callback p = Normal tt q /\
    if connid =? 0 then
      q = set_fTrace (fTrace p ++ fire callback false)
            (set_fWindow (Some (snd (MakeBatch (window_or_new p)))) p)
    else
      fCmdsCnt q = wrap64 (fCmdsCnt p + 1) /\
      started (fWebConn p)
        (fCmds p ++ [WebCommand.make (to_string (fCmdsCnt q)) name arg callback connid])
        (fCmds q) /\
      callbacks (fTrace q) = callbacks (fTrace p) /\
      fUpdatesLst q = fUpdatesLst p.
Proof.
  intros Hreach Hname connid. apply String.eqb_neq in Hname.
  destruct (reachable_Inv p Hreach) as [(Hsf & Hconn & Hcb) Hs].
  rewrite (DoWhenReady_eq name arg async callback p Hname). cbv zeta. fold connid.
  destruct (connid =? 0).
  - destruct callback as [cb|]; eexists; (split; [reflexivity|]); painter_eq.
  - match goal with
    | |- context [CheckDataToSend ?s] => set (q1 := s)
    end.
    destruct (CheckDataToSend_started q1) as
      (w' & cmds' & conns' & tr' & Heq' & _ & _ & Hst & Hq & _).
    { right. subst q1. fields. discriminate. }
    { subst q1. fields. exact Hcb. }
    rewrite Heq'. eexists. split; [reflexivity|].
    unfold passed, pushed. subst q1. fields. fields_in Hst.
    unfold settled in Hs. rewrite Hs, settle_settled. fields.
    split; [reflexivity|]. split; [exact Hst|]. split; [|reflexivity].
    rewrite app_nil_r, callbacks_app, (callbacks_quiet tr' Hq). apply app_nil_r.
Qed.

(** X19: [AddPanel] on a painter in use returns [false], with one error
    line and no other change, when there is no window, or the window is not
    shown, or it gives no address for the panel; else it returns [true],
    after [DoWhenReady] for the command [ADDPANEL:<address>] without
    callback, also when that call could not queue the command. *)
Theorem X19_panel_is_added_through_a_command (p : Painter) (win : Win) :
  reachable p ->
  exists (b : bool) (q : Painter),
    AddPanel win p = Normal b q /\
    (b = true <->
     exists w, fWindow p = Some w /\ IsShown w = true /\ RelativeAddr w win <> "") /\
    (b = false -> exists msg, q = set_fTrace (fTrace p ++ [ErrorLog msg]) p) /\
    (b = true ->
     forall w, fWindow p = Some w ->
       DoWhenReady ("ADDPANEL:" ++ RelativeAddr w win) "AddPanel" true None p
       = Normal tt q).
Proof.
  intros Hreach. pose proof (reachable_Inv p Hreach) as Hinv.
  unfold AddPanel. run_monad.
  destruct (fWindow p) as [w|] eqn:Hw.
  - destruct (IsShown w) eqn:Hshown; cbn [negb].
    + destruct (Nat.eqb (String.length (RelativeAddr w win)) 0) eqn:Hlen.
      * eexists false, _. split; [reflexivity|]. split; [|split].
        -- split; [discriminate|]. intros (w0 & [= <-] & _ & Haddr).
           apply length_zero_iff in Hlen. contradiction.
        -- intros _. eexists. reflexivity.
        -- discriminate.
      * destruct (DoWhenReady_good 0%nat ("ADDPANEL:" ++ RelativeAddr w win)
                    "AddPanel" true None p Hinv) as (q & Heq & _).
        rewrite Heq. exists true, q. split; [reflexivity|]. split; [|split].
        -- split; [|reflexivity]. intros _. exists w.
           split; [reflexivity|]. split; [exact Hshown|].
           intros Haddr. rewrite Haddr in Hlen. discriminate.
        -- discriminate.
        -- intros _ w0 [= <-]. exact Heq.
    + eexists false, _. split; [reflexivity|]. split; [|split].
      * split; [discriminate|]. intros (w0 & [= <-] & Hs & _). congruence.
      * intros _. eexists. reflexivity.
      * discriminate.
  - eexists false, _. split; [reflexivity|]. split; [|split].
    + split; [discriminate|]. intros (w0 & Hw0 & _). discriminate.
    + intros _. eexists. reflexivity.
    + discriminate.
Qed.

End Submitting.

Lemma X18_witness :
  exists q : TCanvasPainter Demo.Window Demo.Canvas,
    DoWhenReady "SVG" "/tmp/out.svg" true (Some 9%nat) ScenarioC.before = Normal tt q /\
    fCmdsCnt q = wrap64 (fCmdsCnt ScenarioC.before + 1) /\
    callbacks (fTrace q) = callbacks (fTrace ScenarioC.before).
Proof.
  assert (Hreach : reachable ScenarioC.before).
  { unfold ScenarioC.before. apply reachable_run, reachable_new. }
  assert (Hname : "SVG" <> "JSON") by discriminate.
  destruct (X18_command_is_queued_behind ScenarioC.before "SVG" "/tmp/out.svg" true
              (Some 9%nat) Hreach Hname) as (q & Heq & H).
  change (fst (MakeBatch (window_or_new ScenarioC.before)) =? 0) with false in H.
  destruct H as (Hcnt & _ & Hcalls & _).
  exists q. auto.
Defined.

Lemma X19_witness :
  exists (b : bool) (q : TCanvasPainter Demo.Window Demo.Canvas),
    AddPanel Demo.ManagerWindow ScenarioUnknown.before = Normal b q.
Proof.
  assert (Hreach : reachable ScenarioUnknown.before).
  { unfold ScenarioUnknown.before. apply reachable_run, reachable_new. }
  destruct (X19_panel_is_added_through_a_command ScenarioUnknown.before
              Demo.ManagerWindow Hreach) as (b & q & Heq & _).
  exists b, q. exact Heq.
Defined.

(** ** Updates on their way to the viewers *)

Section Updates.
Context {Win Canvas Drawable : Type}.
Context {window_ops : TWebWindow Win} {canvas_ops : RCanvas Canvas Drawable}.
Abbreviation Painter := (TCanvasPainter Win Canvas).

(** X20: an acknowledgement of a known connection for a version beyond the
    delivered one (and up to the largest [long long]), on a painter in use:
    the delivered version becomes at least that version, and the push pass
    of the same call completes every pending update up to the new delivered
    version: its callback is called with [true], in the order of the list,
    and it leaves the list; the other updates stay, in their order. *)
Theorem X20_acknowledgement_completes_updates (p : Painter) (connid v : Z)
    (before after : list WebConn.t) (conn : WebConn.t) :
  reachable p ->
  find_conn connid (fWebConn p) = Some (before, conn, after) ->
  0 <= v <= LLONG_MAX -> fSnapshotDelivered p < v ->
  exists (q : Painter) (tr : list Effect),
    ProcessData connid ("SNAPDONE:" ++ to_string v) p = Normal tt q /\
    v <= fSnapshotDelivered q /\
    fUpdatesLst q =
      filter (fun u => negb (WebUpdate.fVersion u <=? fSnapshotDelivered q))
        (fUpdatesLst p) /\
    fTrace q =
      (fTrace p ++ tr ++
       flat_map (fun u => fire (WebUpdate.fCallback u) true)
         (filter (fun u => WebUpdate.fVersion u <=? fSnapshotDelivered q)
            (fUpdatesLst p)))%list /\
    callbacks tr = [].
Proof.
  intros Hreach Hfind Hv Hless.
  destruct (ProcessData_acknowledged p connid v before after conn Hreach Hfind Hv)
    as (w' & cmds' & conns' & tr & Heq & _ & Hq & Hge).
  eexists _, tr. split; [exact Heq|].
  revert Hge. unfold passed, pushed, settle. fields.
  set (m := end_min_delivered _). intros Hge.
  replace (empty (before ++ _ :: after)) with false by (destruct before; reflexivity).
  cbn [andb].
  destruct (Z.eqb_spec (fSnapshotDelivered p) m) as [Heq'|_]; [lia|].
  cbn [negb fst snd]. unfold reached. split; [exact Hge|].
  split; [reflexivity|]. split; [reflexivity|].
  apply callbacks_quiet. exact Hq.
Qed.

(** X21: [CanvasUpdated] on a painter in use whose window is shown, for a
    version that is not delivered already: the method returns; the snapshot
    is the JSON text of the canvas up to its first NUL, as [CreateSnapshot]
    returns it, and has the version; the callback is not called in this
    call, nor is any other; and the update is put behind the pending updates
    when it has a callback, and is not kept when it has none. *)
Theorem X21_update_waits_for_its_acknowledgement (p : Painter) (ver : Z)
    (async : bool) (callback : CanvasCallback_t) (w : Win) :
  reachable p ->
  fWindow p = Some w -> IsShown (Sync w) = true ->
  delivered_already ver p = false ->
  exists q,
    CanvasUpdated ver async callback p = Normal tt q /\
    fSnapshotVersion q = ver /\ fSnapshot q = c_str (ToJSON (fCanvas p)) /\
    callbacks (fTrace q) = callbacks (fTrace p) /\
    fUpdatesLst q =
      match callback with
      | Some _ => (fUpdatesLst p ++ [WebUpdate.Build ver callback])%list
      | None => fUpdatesLst p
      end.
Proof.
  intros Hreach Hw Hshown Hnot.
  destruct (reachable_Inv p Hreach) as [H0 Hs].
  unfold CanvasUpdated. run_monad. fields. fold (delivered_already ver p).
  rewrite Hnot.
  match goal with
  | |- context [CreateSnapshot ?s] =>
      destruct (CreateSnapshot_eq s) as (tr & -> & Htr)
  end.
  fields. rewrite Hw. cbn [option_map]. rewrite Hshown. cbn [negb].
  match goal with
  | |- context [CheckDataToSend ?s] => set (q1 := s)
  end.
  destruct (CheckDataToSend_started q1) as
    (w' & cmds' & conns' & tr' & Heq' & _ & _ & _ & Hq & _).
  { right. subst q1. fields. discriminate. }
  { subst q1. fields. apply H0. }
  rewrite Heq'.
  assert (Hsilent : callbacks tr = []).
  { destruct Htr as [->| ->]; reflexivity. }
  destruct callback as [cb|]; (eexists; split; [reflexivity|]);
    unfold passed, pushed; subst q1; fields;
    unfold settled in Hs; rewrite Hs, settle_settled; fields;
    repeat split;
    rewrite app_nil_r, !callbacks_app, Hsilent, (callbacks_quiet tr' Hq), !app_nil_r;
    reflexivity.
Qed.

(** X22: a message [CONN_READY] on a painter in use puts a new record for
    the connection behind the others (also when the list has a record with
    that number already), not yet drawn, with nothing sent or acknowledged;
    the painter then knows that it had a connection, no callback is called,
    and the wait function of a blocking update no longer reports that all
    connections are gone. *)
Theorem X22_new_connection_is_listed_last (p : Painter) (connid : Z) :
  reachable p -> fWindow p <> None ->
  exists q,
    ProcessData connid "CONN_READY" p = Normal tt q /\
    Forall2 conn_kept (fWebConn p ++ [WebConn.make connid]) (fWebConn q) /\
    fHadWebConn q = true /\
    callbacks (fTrace q) = callbacks (fTrace p) /\
    fUpdatesLst q = fUpdatesLst p /\
    forall ver, CheckDeliveredVersion ver q <> -1.
Proof.
  intros Hreach Hwin.
  destruct (reachable_Inv p Hreach) as [H0 Hs].
  destruct (reachable_Inv2 p Hreach) as (_ & _ & Hr).
  unfold ProcessData. change (String.eqb "CONN_READY" "CONN_READY") with true.
  run_monad. fields.
  match goal with
  | |- context [CheckDataToSend ?s] => set (q1 := s)
  end.
  destruct (CheckDataToSend_started q1) as
    (w' & cmds' & conns' & tr' & Heq' & _ & Hkept & _ & Hq & _).
  { right. subst q1. fields. exact Hwin. }
  { subst q1. fields. apply H0. }
  rewrite Heq'. eexists. split; [reflexivity|].
  assert (Hsame : end_min_delivered (fWebConn p ++ [WebConn.make connid])
                  = end_min_delivered (fWebConn p)).
  { unfold end_min_delivered. rewrite fold_left_app. reflexivity. }
  unfold passed, pushed, CheckDeliveredVersion. subst q1. fields. fields_in Hkept.
  unfold settled in Hs. rewrite Hs, <- Hsame, settle_settled. fields.
  split; [exact Hkept|]. split; [reflexivity|]. split; [|split; [reflexivity|]].
  - rewrite app_nil_r, callbacks_app, (callbacks_quiet tr' Hq). apply app_nil_r.
  - intros ver. rewrite (Forall2_empty _ _ _ Hkept).
    replace (empty (fWebConn p ++ [WebConn.make connid])) with false
      by (destruct (fWebConn p); reflexivity).
    cbn [andb]. destruct (_ >=? ver); discriminate.
Qed.

End Updates.

Lemma X20_witness :
  exists (q : TCanvasPainter Demo.Window Demo.Canvas) (tr : list Effect),
    ProcessData 1 ("SNAPDONE:" ++ to_string 5)
      (run [CallNewDisplay ""; DataCallBack 1 "CONN_READY";
            CallCanvasUpdated 5 true (Some 7%nat)] Demo.painter) = Normal tt q /\
    5 <= fSnapshotDelivered q.
Proof.
  destruct (X20_acknowledgement_completes_updates
              (run [CallNewDisplay ""; DataCallBack 1 "CONN_READY";
                    CallCanvasUpdated 5 true (Some 7%nat)] Demo.painter)
              1 5 [] [] (WebConn.Build 1 false "" 5 0))
    as (q & tr & Heq & Hge & _).
  - apply reachable_run, reachable_new.
  - reflexivity.
  - unfold LLONG_MAX. lia.
  - vm_compute. reflexivity.
  - exists q, tr. auto.
Defined.

Lemma X21_witness :
  exists q : TCanvasPainter Demo.Window Demo.Canvas,
    CanvasUpdated 1 true (Some 7%nat) ScenarioUnknown.before = Normal tt q /\
    fSnapshotVersion q = 1 /\
    fSnapshot q = c_str (ToJSON (fCanvas ScenarioUnknown.before)) /\
    callbacks (fTrace q) = callbacks (fTrace ScenarioUnknown.before).
Proof.
  destruct (X21_update_waits_for_its_acknowledgement ScenarioUnknown.before 1 true
              (Some 7%nat) (Demo.BuildWindow true [] 1 []))
    as (q & Heq & Hver & Hsnap & Hcalls & _).
  - unfold ScenarioUnknown.before. apply reachable_run, reachable_new.
  - reflexivity.
  - reflexivity.
  - reflexivity.
  - exists q. auto.
Defined.

Lemma X22_witness :
  exists q : TCanvasPainter Demo.Window Demo.Canvas,
    ProcessData 2 "CONN_READY" ScenarioUnknown.before = Normal tt q /\
    fHadWebConn q = true.
Proof.
  destruct (X22_new_connection_is_listed_last ScenarioUnknown.before 2)
    as (q & Heq & _ & Hhad & _).
  - unfold ScenarioUnknown.before. apply reachable_run, reachable_new.
  - discriminate.
  - exists q. auto.
Defined.

(** ** Executing on a drawable *)

Lemma executed_app (tr1 tr2 : list Effect) :
  executed (tr1 ++ tr2) = (executed tr1 ++ executed tr2)%list.
Proof. unfold executed. apply flat_map_app. Qed.

Lemma executed_quiet (tr : list Effect) : Forall quiet tr -> executed tr = [].
Proof.
  induction 1 as [|e tr He _ IH]; [reflexivity|].
  destruct e; simpl in He; try contradiction; exact IH.
Qed.

(** a message that starts with [OBJEXEC:] reaches the branch that executes
    on a drawable *)
Lemma objexec_reaches_its_branch (s : string) :
  String.eqb ("OBJEXEC:" ++ s) "CONN_READY" = false /\
  String.eqb ("OBJEXEC:" ++ s) "CONN_CLOSED" = false /\
  starts_with "READY" ("OBJEXEC:" ++ s) = false /\
  starts_with "SNAPDONE:" ("OBJEXEC:" ++ s) = false /\
  starts_with "RREADY:" ("OBJEXEC:" ++ s) = false /\
  starts_with "GETMENU:" ("OBJEXEC:" ++ s) = false /\
  String.eqb ("OBJEXEC:" ++ s) "QUIT" = false /\
  String.eqb ("OBJEXEC:" ++ s) "RELOAD" = false /\
  String.eqb ("OBJEXEC:" ++ s) "INTERRUPT" = false /\
  starts_with "REPLY:" ("OBJEXEC:" ++ s) = false /\
  starts_with "SAVE:" ("OBJEXEC:" ++ s) = false /\
  starts_with "OBJEXEC:" ("OBJEXEC:" ++ s) = true /\
  erase_front 8 ("OBJEXEC:" ++ s) = s.
Proof.
  repeat split; try reflexivity.
  - unfold starts_with. cbn. destruct s; reflexivity.
  - apply (erase_front_app "OBJEXEC:").
Qed.

Section Executing.
Context {Win Canvas Drawable : Type}.
Context {window_ops : TWebWindow Win} {canvas_ops : RCanvas Canvas Drawable}.
Abbreviation Painter := (TCanvasPainter Win Canvas).

(** X23: a message [OBJEXEC:<id>:<command>] of a known connection, with an
    identifier and a command that are not empty, on a painter in use: the
    command is executed on the drawable that [FindDrawable] gives for the
    identifier, once; when the canvas has no such drawable nothing is
    executed and the canvas stays as it is.  No callback is called, and the
    queue changes only by what the push pass may start. *)
Theorem X23_command_is_executed_on_its_drawable (p : Painter) (connid : Z)
    (id cdata : string) :
  reachable p ->
  (exists c, In c (fWebConn p) /\ WebConn.fConnId c = connid) ->
  id <> "" -> find_char ":" id = None -> cdata <> "" ->
  exists q,
    ProcessData connid ("OBJEXEC:" ++ id ++ ":" ++ cdata) p = Normal tt q /\
    fCanvas q =
      match FindDrawable (fCanvas p) id with
      | Some drawable => Execute (fCanvas p) drawable cdata
      | None => fCanvas p
      end /\
    executed (fTrace q) =
      (executed (fTrace p) ++
       match FindDrawable (fCanvas p) id with
       | Some _ => [(id, cdata)]
       | None => []
       end)%list /\
    callbacks (fTrace q) = callbacks (fTrace p) /\
    started (fWebConn p) (fCmds p) (fCmds q).
Proof.
  intros Hreach (c & Hin & Hc) Hid Hcolon Hcdata.
  destruct (reachable_Inv p Hreach) as [H0 Hs].
  destruct (objexec_reaches_its_branch (id ++ ":" ++ cdata))
    as (H1 & H2 & H3 & H4 & H5 & H6 & H7 & H8 & H9 & H10 & H11 & H12 & H13).
  unfold ProcessData. rewrite H1. run_monad.
  destruct (find_conn connid (fWebConn p)) as [[[before conn] after]|] eqn:Hfind.
  2:{ apply find_conn_None in Hfind. rewrite Forall_forall in Hfind.
      exfalso. exact (Hfind c Hin Hc). }
  unfold ProcessData_branch.
  rewrite H2, H3, H4, H5, H6, H7, H8, H9, H10, H11, H12, H13.
  change (id ++ ":" ++ cdata) with (id ++ String ":" cdata).
  rewrite (find_char_app ":" id cdata Hcolon).
  destruct (String.length id) as [|n] eqn:Hlen.
  { destruct id; [contradiction|discriminate]. }
  rewrite <- Hlen, substring_front, erase_front_sep. run_monad.
  assert (Hne : fWebConn p <> []).
  { intros Hnil. rewrite Hnil in Hin. exact Hin. }
  assert (Hlen' : Nat.eqb (String.length cdata) 0 = false).
  { destruct cdata; [contradiction|reflexivity]. }
  assert (Hpass : forall tr can,
            callbacks tr = [] ->
            exists q,
              CheckDataToSend (set_fTrace (fTrace p ++ tr) (set_fCanvas can p))
              = Normal tt q /\
              fCanvas q = can /\
              (exists tr', fTrace q = (fTrace p ++ tr ++ tr')%list /\ Forall quiet tr') /\
              started (fWebConn p) (fCmds p) (fCmds q)).
  { intros tr can Htr.
    destruct (CheckDataToSend_started (set_fTrace (fTrace p ++ tr) (set_fCanvas can p)))
      as (w' & cmds' & conns' & tr' & Heq' & _ & _ & Hst & Hq & _).
    { right. fields. apply H0. exact Hne. }
    { fields. apply H0. }
    eexists. split; [exact Heq'|]. unfold passed, pushed. fields. fields_in Hst.
    unfold settled in Hs. rewrite Hs, settle_settled. fields.
    split; [reflexivity|]. split; [|exact Hst].
    exists tr'. rewrite app_nil_r, <- app_assoc. auto. }
  fields.
  destruct (FindDrawable (fCanvas p) id) as [drawable|].
  - rewrite Hlen'. cbn [negb]. fields.
    destruct (Hpass [DebugLog ("execute " ++ cdata ++ " for drawable " ++ id);
                     ExecuteOn id cdata] (Execute (fCanvas p) drawable cdata) eq_refl)
      as (q & Heq & Hcan & (tr' & Htrace & Hq) & Hst).
    match goal with
    | |- context [CheckDataToSend ?s] =>
        replace s with
          (set_fTrace
             (fTrace p ++ [DebugLog ("execute " ++ cdata ++ " for drawable " ++ id);
                           ExecuteOn id cdata])
             (set_fCanvas (Execute (fCanvas p) drawable cdata) p)) by painter_eq
    end.
    rewrite Heq. exists q. split; [reflexivity|]. split; [exact Hcan|].
    rewrite Htrace. split; [|split; [|exact Hst]].
    + rewrite !executed_app, (executed_quiet tr' Hq). reflexivity.
    + rewrite !callbacks_app, (callbacks_quiet tr' Hq). cbn. rewrite !app_nil_r.
      reflexivity.
  - destruct (String.eqb id "canvas").
    + destruct (Hpass [DebugLog ("execute " ++ cdata ++ " for canvas itself (ignored)")]
                  (fCanvas p) eq_refl)
        as (q & Heq & Hcan & (tr' & Htrace & Hq) & Hst).
      match goal with
      | |- context [CheckDataToSend ?s] =>
          replace s with
            (set_fTrace
               (fTrace p ++ [DebugLog ("execute " ++ cdata ++ " for canvas itself (ignored)")])
               (set_fCanvas (fCanvas p) p)) by painter_eq
      end.
      rewrite Heq. exists q. split; [reflexivity|]. split; [exact Hcan|].
      rewrite Htrace. split; [|split; [|exact Hst]].
      * rewrite !executed_app, (executed_quiet tr' Hq). cbn. rewrite !app_nil_r. reflexivity.
      * rewrite !callbacks_app, (callbacks_quiet tr' Hq). cbn. rewrite !app_nil_r.
        reflexivity.
    + destruct (Hpass [] (fCanvas p) eq_refl)
        as (q & Heq & Hcan & (tr' & Htrace & Hq) & Hst).
      match goal with
      | |- context [CheckDataToSend ?s] =>
          replace s with
            (set_fTrace (fTrace p ++ []) (set_fCanvas (fCanvas p) p)) by painter_eq
      end.
      rewrite Heq. exists q. split; [reflexivity|]. split; [exact Hcan|].
      rewrite Htrace. split; [|split; [|exact Hst]].
      * rewrite !executed_app, (executed_quiet tr' Hq). cbn. rewrite !app_nil_r. reflexivity.
      * rewrite !callbacks_app, (callbacks_quiet tr' Hq). cbn. rewrite !app_nil_r.
        reflexivity.
Qed.

End Executing.

Lemma X23_witness :
  exists q : TCanvasPainter Demo.Window Demo.Canvas,
    ProcessData 1 ("OBJEXEC:" ++ "obj1" ++ ":" ++ "SetLogx(1)") ScenarioUnknown.before
    = Normal tt q /\
    callbacks (fTrace q) = callbacks (fTrace ScenarioUnknown.before).
Proof.
  destruct (X23_command_is_executed_on_its_drawable ScenarioUnknown.before 1
              "obj1" "SetLogx(1)") as (q & Heq & _ & _ & Hcalls & _).
  - unfold ScenarioUnknown.before. apply reachable_run, reachable_new.
  - eexists. split; [vm_compute; left; reflexivity|reflexivity].
  - discriminate.
  - reflexivity.
  - discriminate.
  - exists q. auto.
Defined.

(** ** Waiting for a command *)

Lemma started_waiting (conns : list WebConn.t) (l l' : list WebCommand.t) :
  started conns l l' -> Forall waiting l -> Forall waiting l'.
Proof.
  intros [->|(cmd & rest & conn & _ & Hfront & ->)] Hl; [exact Hl|].
  apply front_to_run_Some in Hfront. destruct Hfront as (-> & _).
  inversion Hl; subst. constructor; assumption.
Qed.

Lemma queue_change_waiting (cnt cnt' : Z) (l l' gone : list WebCommand.t) :
  queue_change cnt l cnt' l' gone ->
  Forall waiting l -> Forall waiting l' /\ Forall finished gone.
Proof.
  intros [|name arg cb connid Hconnid|connid|cmd rest result -> Hrun] Hl.
  - split; [exact Hl|constructor].
  - split; [|constructor]. apply Forall_app. split; [exact Hl|].
    constructor; [|constructor]. split; reflexivity.
  - split; [apply Forall_filter_kept; exact Hl|].
    apply Forall_map. apply Forall_filter_kept.
    eapply Forall_impl; [|exact Hl]. intros c [_ Hres].
    unfold finished, cancelled. simpl. auto.
  - inversion Hl; subst. split; [assumption|].
    constructor; [|constructor]. unfold finished. simpl.
    split; [reflexivity|]. split; [reflexivity|]. congruence.
Qed.

Section Waiting.
Context {Win Canvas Drawable : Type}.
Context {window_ops : TWebWindow Win} {canvas_ops : RCanvas Canvas Drawable}.
Abbreviation Painter := (TCanvasPainter Win Canvas).

Lemma reachable_Inv3 (p : Painter) : reachable p -> Inv3 p.
Proof.
  induction 1 as [canv|p ev Hp [Hw Hf]].
  - split; constructor.
  - destruct (reachable_Inv2 p Hp) as (Hn & _).
    destruct (step_shape ev p (reachable_Inv p Hp) (Forall_numbered_named _ Hn))
      as (_ & (l & gone & conns & Hchange & Hst & Hrel) & _).
    destruct (queue_change_waiting _ _ _ _ _ Hchange Hw) as [Hw' Hgone].
    split.
    + eapply started_waiting; eauto.
    + rewrite Hrel. apply Forall_app. auto.
Qed.

(** X24: the function that a blocking [DoWhenReady] gives to [WaitFor], on
    a painter in use.  For a command that left the queue it answers at once:
    1 when the reply gave the result [true], and -1 else, so always -1 for a
    cancelled command.  For a command that is still queued it answers -2
    when its connection is gone, else -3 after more than 100 seconds, else 0
    (keep waiting).  A command that left the queue has no callback left. *)
Theorem X24_wait_ends_when_the_command_left (p : Painter) (cmd : WebCommand.t)
    (w : Win) (tm : Q) :
  reachable p ->
  (In cmd (fReleased p) ->
   WebCommand.fCallback cmd = None /\
   DoWhenReady_poll cmd w tm = (if WebCommand.fResult cmd then 1 else -1) /\
   (WebCommand.fRunning cmd = false -> DoWhenReady_poll cmd w tm = -1)) /\
  (In cmd (fCmds p) ->
   DoWhenReady_poll cmd w tm =
   if negb (HasConnection w (WebCommand.fConnId cmd)) then -2
   else if negb (Qle_bool tm 100) then -3 else 0).
Proof.
  intros Hreach. destruct (reachable_Inv3 p Hreach) as [Hw Hf].
  rewrite Forall_forall in Hw, Hf. unfold DoWhenReady_poll. split.
  - intros Hin. destruct (Hf cmd Hin) as (Hready & Hcb & Hres).
    rewrite Hready. split; [exact Hcb|]. split; [reflexivity|].
    intros Hrun. rewrite (Hres Hrun). reflexivity.
  - intros Hin. destruct (Hw cmd Hin) as [Hready _]. rewrite Hready. reflexivity.
Qed.

End Waiting.

Lemma X24_witness :
  DoWhenReady_poll (cancelled ScenarioC.head) Demo.ManagerWindow 0 = -1.
Proof.
  destruct (X24_wait_ends_when_the_command_left
              (step ScenarioC.before (DataCallBack 1 "CONN_CLOSED"))
              (cancelled ScenarioC.head) Demo.ManagerWindow 0) as [H _].
  - apply reachable_step. unfold ScenarioC.before. apply reachable_run, reachable_new.
  - apply H; [vm_compute; left; reflexivity|reflexivity].
Defined.

(** ** The snapshot on its way to a single viewer *)

(** the text of a snapshot message as the window gets it: the header is
    whole, the snapshot ends at its first NUL *)
Lemma snapshot_text (ver : Z) (snap : string) :
  c_str ("SNAP:" ++ to_string ver ++ ":" ++ snap)
  = "SNAP:" ++ to_string ver ++ ":" ++ c_str snap.
Proof.
  change ("SNAP:" ++ to_string ver ++ ":" ++ snap)
    with ("SNAP:" ++ (to_string ver ++ String ":" snap)).
  rewrite (c_str_app "SNAP:") by reflexivity.
  rewrite c_str_app by (apply only_digits_no_nul, only_digits_to_string).
  reflexivity.
Qed.

Section SingleViewer.
Context {Win Canvas Drawable : Type}.
Context {window_ops : TWebWindow Win} {canvas_ops : RCanvas Canvas Drawable}.
Abbreviation Painter := (TCanvasPainter Win Canvas).

(** the push pass for one connection that can take data, has no command to
    run and no menu to get *)
Lemma CheckDataToSend_single (p : Painter) (conn : WebConn.t) (w : Win) :
  fWebConn p = [conn] -> fWindow p = Some w ->
  CanSend w (WebConn.fConnId conn) = true ->
  front_to_run conn (fCmds p) = None -> WebConn.fGetMenu conn = "" ->
  settled p ->
  CheckDataToSend p =
  Normal tt
    (if WebConn.fSend conn =? fSnapshotVersion p then p
     else
       let buf := "SNAP:" ++ to_string (fSnapshotVersion p) ++ ":" ++ c_str (fSnapshot p) in
       set_fWebConn [WebConn.set_fSend (fSnapshotVersion p) conn]
         (set_fTrace (fTrace p ++ [SendTo (WebConn.fConnId conn) buf])
            (set_fWindow (Some (Send w (WebConn.fConnId conn) buf)) p))).
Proof.
  intros Hconns Hw Hcan Hfront Hmenu Hs. unfold settled, end_min_delivered in Hs.
  rewrite Hconns in Hs. cbn [fold_left] in Hs.
  unfold CheckDataToSend. run_monad. rewrite Hconns.
  cbn [CheckDataToSend_loop]. unfold CheckDataToSend_conn, window. run_monad.
  rewrite Hw, Hcan. cbn [negb]. unfold choose_payload. run_monad.
  rewrite Hfront, Hmenu. change (negb (String.eqb "" "")) with false. cbv beta iota.
  destruct (WebConn.fSend conn =? fSnapshotVersion p); cbn [negb]; fields.
  - change (0 <? Z.of_nat (String.length "")) with false. cbv beta iota. fields.
    rewrite Hs, Z.eqb_refl. cbn [negb empty andb]. f_equal. painter_eq. auto.
  - rewrite buf_test. unfold send, window. run_monad. fields. rewrite Hw.
    cbv beta iota. fields.
    rewrite Hs, Z.eqb_refl. cbn [negb empty andb]. rewrite snapshot_text.
    f_equal.
Qed.

(** X25: the first viewer gets the snapshot at once.  On a painter in use
    without connections whose window can send to the new connection, the
    message [CONN_READY] lists the connection and, when a snapshot was made
    (its version is not 0), sends it [SNAP:<version>:<snapshot>] in the same
    call, the snapshot up to its first NUL, and notes the version as sent;
    when no snapshot was made yet nothing is sent. *)
Theorem X25_first_viewer_gets_the_snapshot (p : Painter) (connid : Z) (w : Win) :
  reachable p ->
  fWebConn p = [] -> fWindow p = Some w -> CanSend w connid = true ->
  exists q,
    ProcessData connid "CONN_READY" p = Normal tt q /\
    fHadWebConn q = true /\
    if fSnapshotVersion p =? 0
    then fWebConn q = [WebConn.make connid] /\ fTrace q = fTrace p
    else
      fWebConn q = [WebConn.set_fSend (fSnapshotVersion p) (WebConn.make connid)] /\
      fTrace q =
        (fTrace p ++
         [SendTo connid
            ("SNAP:" ++ to_string (fSnapshotVersion p) ++ ":" ++ c_str (fSnapshot p))])%list.
Proof.
  intros Hreach Hconns Hw Hcan.
  destruct (reachable_Inv p Hreach) as [H0 Hs].
  unfold ProcessData. change (String.eqb "CONN_READY" "CONN_READY") with true.
  run_monad. rewrite Hconns. cbn [app].
  rewrite (CheckDataToSend_single _ (WebConn.make connid) w);
    fields; try reflexivity; try assumption.
  - eexists. split; [reflexivity|].
    change (WebConn.fSend (WebConn.make connid)) with 0.
    rewrite (Z.eqb_sym 0).
    destruct (fSnapshotVersion p =? 0); fields; auto.
  - destruct (fCmds p); reflexivity.
  - unfold settled in *. fields. rewrite Hs, Hconns. reflexivity.
Qed.

(** X26: [RELOAD] makes the snapshot go out again.  On a painter in use
    with one connection that can take data, has no command to run and no
    menu to get, the message [RELOAD] of that connection sends it
    [SNAP:<version>:<snapshot>] in the same call and notes the version as
    sent, whatever was sent before; when no snapshot was made yet (version
    0) nothing is sent. *)
Theorem X26_reload_sends_the_snapshot_again (p : Painter) (conn : WebConn.t)
    (w : Win) :
  reachable p ->
  fWebConn p = [conn] -> fWindow p = Some w ->
  CanSend w (WebConn.fConnId conn) = true ->
  front_to_run conn (fCmds p) = None -> WebConn.fGetMenu conn = "" ->
  exists q,
    ProcessData (WebConn.fConnId conn) "RELOAD" p = Normal tt q /\
    fWebConn q = [WebConn.set_fSend (fSnapshotVersion p) conn] /\
    fTrace q =
      (fTrace p ++
       if fSnapshotVersion p =? 0 then []
       else [SendTo (WebConn.fConnId conn)
               ("SNAP:" ++ to_string (fSnapshotVersion p) ++ ":" ++ c_str (fSnapshot p))])%list.
Proof.
  intros Hreach Hconns Hw Hcan Hfront Hmenu.
  destruct (reachable_Inv p Hreach) as [H0 Hs].
  unfold ProcessData. change (String.eqb "RELOAD" "CONN_READY") with false.
  run_monad. rewrite Hconns. cbn [find_conn]. rewrite Z.eqb_refl.
  unfold ProcessData_branch.
  change (String.eqb "RELOAD" "CONN_CLOSED") with false.
  change (starts_with "READY" "RELOAD") with false.
  change (starts_with "SNAPDONE:" "RELOAD") with false.
  change (starts_with "RREADY:" "RELOAD") with false.
  change (starts_with "GETMENU:" "RELOAD") with false.
  change (String.eqb "RELOAD" "QUIT") with false.
  change (String.eqb "RELOAD" "RELOAD") with true.
  run_monad. fields. cbn [app].
  rewrite (CheckDataToSend_single _ (WebConn.set_fSend 0 conn) w);
    fields; try reflexivity; try assumption.
  - eexists. split; [reflexivity|].
    change (WebConn.fSend (WebConn.set_fSend 0 conn)) with 0.
    rewrite (Z.eqb_sym 0).
    destruct (Z.eqb_spec (fSnapshotVersion p) 0) as [Hzero|_]; fields.
    + split; [rewrite Hzero; reflexivity|symmetry; apply app_nil_r].
    + split; reflexivity.
  - unfold settled in *. fields. rewrite Hs, Hconns. reflexivity.
Qed.

End SingleViewer.

Lemma X25_witness :
  exists q : TCanvasPainter Demo.Window Demo.Canvas,
    ProcessData 1 "CONN_READY"
      (run [CallNewDisplay ""; CallCanvasUpdated 4 true None] Demo.painter)
    = Normal tt q /\
    fHadWebConn q = true.
Proof.
  destruct (X25_first_viewer_gets_the_snapshot
              (run [CallNewDisplay ""; CallCanvasUpdated 4 true None] Demo.painter)
              1 (Demo.BuildWindow true [] 1 [])) as (q & Heq & Hhad & _).
  - apply reachable_run, reachable_new.
  - reflexivity.
  - reflexivity.
  - reflexivity.
  - exists q. auto.
Defined.

Lemma X26_witness :
  exists q : TCanvasPainter Demo.Window Demo.Canvas,
    ProcessData 1 "RELOAD" ScenarioFastPath.before = Normal tt q /\
    fWebConn q =
      [WebConn.set_fSend (fSnapshotVersion ScenarioFastPath.before)
         (WebConn.Build 1 true "" 0 3)].
Proof.
  destruct (X26_reload_sends_the_snapshot_again ScenarioFastPath.before
              (WebConn.Build 1 true "" 0 3) (Demo.BuildWindow true [] 1 []))
    as (q & Heq & Hconns & _).
  - unfold ScenarioFastPath.before. apply reachable_run, reachable_new.
  - reflexivity.
  - reflexivity.
  - reflexivity.
  - reflexivity.
  - reflexivity.
  - exists q. auto.
Defined.

(** ** Menus and commands on their way to a single viewer *)

(** a message that starts with [GETMENU:] reaches the branch for menu
    requests *)
Lemma getmenu_reaches_its_branch (s : string) :
  String.eqb ("GETMENU:" ++ s) "CONN_READY" = false /\
  String.eqb ("GETMENU:" ++ s) "CONN_CLOSED" = false /\
  starts_with "READY" ("GETMENU:" ++ s) = false /\
  starts_with "SNAPDONE:" ("GETMENU:" ++ s) = false /\
  starts_with "RREADY:" ("GETMENU:" ++ s) = false /\
  starts_with "GETMENU:" ("GETMENU:" ++ s) = true /\
  erase_front 8 ("GETMENU:" ++ s) = s.
Proof.
  repeat split; try reflexivity.
  - unfold starts_with. cbn. destruct s; reflexivity.
  - apply (erase_front_app "GETMENU:").
Qed.

(** a message that starts with [RREADY:] reaches the branch for the first
    drawing *)
Lemma rready_reaches_its_branch (s : string) :
  String.eqb ("RREADY:" ++ s) "CONN_READY" = false /\
  String.eqb ("RREADY:" ++ s) "CONN_CLOSED" = false /\
  starts_with "READY" ("RREADY:" ++ s) = false /\
  starts_with "SNAPDONE:" ("RREADY:" ++ s) = false /\
  starts_with "RREADY:" ("RREADY:" ++ s) = true.
Proof.
  repeat split; try reflexivity.
  unfold starts_with. cbn. destruct s; reflexivity.
Qed.

Section SingleTurn.
Context {Win Canvas Drawable : Type}.
Context {window_ops : TWebWindow Win} {canvas_ops : RCanvas Canvas Drawable}.
Abbreviation Painter := (TCanvasPainter Win Canvas).

(** the push pass for one connection that can take data, when the delivered
    version is up to date: the turn of the connection, and nothing else *)
Lemma CheckDataToSend_single_turn (p : Painter) (conn : WebConn.t) (w : Win) :
  fWebConn p = [conn] -> fWindow p = Some w ->
  CanSend w (WebConn.fConnId conn) = true -> settled p ->
  exists q,
    CheckDataToSend p = Normal tt q /\
    fWebConn q = [conn_after_turn p conn] /\
    fCmds q = cmds_after_turn p conn /\
    sent (fTrace q) =
      (sent (fTrace p) ++
       match payload_by_priority p conn with
       | Some pl => [(WebConn.fConnId conn, c_str (payload_text pl))]
       | None => []
       end)%list /\
    callbacks (fTrace q) = callbacks (fTrace p) /\
    fUpdatesLst q = fUpdatesLst p.
Proof.
  intros Hconns Hw Hcan Hs.
  destruct (CheckDataToSend_conn_turn conn 0 p w Hw Hcan)
    as (p' & Heq & Hcmds & Hsent & _ & Hupds & Hcalls).
  assert (Hdel : fSnapshotDelivered p' = fSnapshotDelivered p).
  { assert (H : relates (fun p q : Painter => fSnapshotDelivered q = fSnapshotDelivered p)
                  (CheckDataToSend_conn conn 0)).
    { apply relates_CheckDataToSend_conn; intros; fields; congruence. }
    specialize (H p). rewrite Heq in H. exact H. }
  unfold settled, end_min_delivered in Hs. rewrite Hconns in Hs. cbn [fold_left] in Hs.
  unfold CheckDataToSend. run_monad. rewrite Hconns.
  cbn [CheckDataToSend_loop]. unfold bind, ret. rewrite Heq. fields.
  rewrite Hdel, Hs, Z.eqb_refl. cbn [empty andb negb].
  eexists. split; [reflexivity|]. fields. auto.
Qed.

(** X27: a menu request is answered in the same call.  On a painter in use
    with one connection that can take data and has no command to run, the
    message [GETMENU:<target>] of that connection (target not empty) sends
    it [MENU:<target>:<items>] for the drawable that [FindDrawable] gives for
    the target, and nothing when the canvas has no such drawable; the
    request is cleared in both cases, no snapshot is sent in this call, and
    no callback is called. *)
Theorem X27_menu_request_is_answered (p : Painter) (conn : WebConn.t) (w : Win)
    (target : string) :
  reachable p ->
  fWebConn p = [conn] -> fWindow p = Some w ->
  CanSend w (WebConn.fConnId conn) = true ->
  front_to_run conn (fCmds p) = None -> target <> "" ->
  exists q,
    ProcessData (WebConn.fConnId conn) ("GETMENU:" ++ target) p = Normal tt q /\
    fWebConn q = [WebConn.set_fGetMenu "" conn] /\
    sent (fTrace q) =
      (sent (fTrace p) ++
       match FindDrawable (fCanvas p) target with
       | Some drawable =>
           [(WebConn.fConnId conn,
             c_str ("MENU:" ++ target ++ ":" ++ ProduceJSON drawable))]
       | None => []
       end)%list /\
    callbacks (fTrace q) = callbacks (fTrace p) /\
    fCmds q = fCmds p.
Proof.
  intros Hreach Hconns Hw Hcan Hfront Htarget.
  destruct (reachable_Inv p Hreach) as [H0 Hs].
  destruct (getmenu_reaches_its_branch target) as (H1 & H2 & H3 & H4 & H5 & H6 & H7).
  unfold ProcessData. rewrite H1. run_monad. rewrite Hconns. cbn [find_conn].
  rewrite Z.eqb_refl. unfold ProcessData_branch. rewrite H2, H3, H4, H5, H6, H7.
  run_monad. fields. cbn [app].
  set (conn1 := WebConn.set_fGetMenu target conn).
  set (p1 := set_fWebConn [conn1] p).
  destruct (CheckDataToSend_single_turn p1 conn1 w)
    as (q & Heq & Hq & Hcmds & Hsent & Hcalls & _);
    try (subst p1 conn1; fields; reflexivity || assumption).
  { unfold settled in *. subst p1 conn1. fields. rewrite Hs, Hconns. reflexivity. }
  rewrite Heq. exists q. split; [reflexivity|].
  assert (Hfront1 : front_to_run conn1 (fCmds p1) = None) by exact Hfront.
  assert (Hmenu : negb (String.eqb (WebConn.fGetMenu conn1) "") = true).
  { subst conn1. cbn [WebConn.fGetMenu WebConn.set_fGetMenu].
    destruct (String.eqb_spec target ""); [contradiction|reflexivity]. }
  revert Hq Hcmds Hsent. unfold conn_after_turn, cmds_after_turn, payload_by_priority.
  rewrite Hfront1, Hmenu. intros Hq Hcmds Hsent.
  split; [exact Hq|]. split; [|split; [exact Hcalls|exact Hcmds]].
  rewrite Hsent. subst p1 conn1. fields.
  cbn [WebConn.fGetMenu WebConn.set_fGetMenu WebConn.fConnId].
  destruct (FindDrawable (fCanvas p) target); reflexivity.
Qed.

(** X28: a command goes out when its viewer has drawn.  On a painter in use
    with one connection that can take data, whose queue has a head that is
    not running and is bound to this connection, the message [RREADY:] of
    the connection marks it as drawn and, in the same call, sends it
    [CMD:<id>:<name>] for the head and marks the head as running; no other
    command moves and no callback is called. *)
Theorem X28_command_goes_out_when_the_viewer_has_drawn (p : Painter)
    (conn : WebConn.t) (w : Win) (cmd : WebCommand.t) (rest : list WebCommand.t)
    (s : string) :
  reachable p ->
  fWebConn p = [conn] -> fWindow p = Some w ->
  CanSend w (WebConn.fConnId conn) = true ->
  fCmds p = cmd :: rest -> WebCommand.fRunning cmd = false ->
  WebCommand.fConnId cmd = WebConn.fConnId conn ->
  exists q,
    ProcessData (WebConn.fConnId conn) ("RREADY:" ++ s) p = Normal tt q /\
    fWebConn q = [WebConn.set_fDrawReady true conn] /\
    fCmds q = WebCommand.set_fRunning true cmd :: rest /\
    sent (fTrace q) =
      (sent (fTrace p) ++
       [(WebConn.fConnId conn,
         ("CMD:" ++ WebCommand.fId cmd ++ ":" ++ c_str (WebCommand.fName cmd))%string)])%list /\
    callbacks (fTrace q) = callbacks (fTrace p).
Proof.
  intros Hreach Hconns Hw Hcan Hcmds Hrun Hbound.
  destruct (reachable_Inv p Hreach) as [H0 Hs].
  destruct (reachable_Inv2 p Hreach) as (Hn & _).
  destruct (rready_reaches_its_branch s) as (H1 & H2 & H3 & H4 & H5).
  unfold ProcessData. rewrite H1. run_monad. rewrite Hconns. cbn [find_conn].
  rewrite Z.eqb_refl. unfold ProcessData_branch. rewrite H2, H3, H4, H5.
  run_monad. fields. cbn [app].
  set (conn1 := WebConn.set_fDrawReady true conn).
  set (p1 := set_fWebConn [conn1] p).
  destruct (CheckDataToSend_single_turn p1 conn1 w)
    as (q & Heq & Hq & Hcmds' & Hsent & Hcalls & _);
    try (subst p1 conn1; fields; reflexivity || assumption).
  { unfold settled in *. subst p1 conn1. fields. rewrite Hs, Hconns. reflexivity. }
  rewrite Heq. exists q. split; [reflexivity|].
  assert (Hfront : front_to_run conn1 (fCmds p1) = Some (cmd, rest)).
  { subst p1 conn1. fields. rewrite Hcmds. cbn [front_to_run].
    cbn [WebConn.fDrawReady WebConn.set_fDrawReady WebConn.fConnId].
    rewrite Hrun, Hbound, Z.eqb_refl, orb_true_r. reflexivity. }
  revert Hq Hcmds' Hsent. unfold conn_after_turn, cmds_after_turn, payload_by_priority.
  rewrite Hfront. intros Hq Hcmds' Hsent.
  split; [exact Hq|]. split; [|split; [|exact Hcalls]].
  - rewrite Hcmds'. f_equal. subst conn1.
    cbn [WebConn.fConnId WebConn.set_fDrawReady]. rewrite <- Hbound.
    destruct cmd; reflexivity.
  - rewrite Hsent. subst p1 conn1. fields.
    cbn [WebConn.fConnId WebConn.set_fDrawReady payload_text].
    rewrite Hcmds in Hn. inversion Hn as [|c r (n & _ & Hid) _]; subst.
    change ("CMD:" ++ WebCommand.fId cmd ++ ":" ++ WebCommand.fName cmd)
      with ("CMD:" ++ (WebCommand.fId cmd ++ String ":" (WebCommand.fName cmd))).
    rewrite (c_str_app "CMD:") by reflexivity.
    rewrite c_str_app by (rewrite Hid; apply only_digits_no_nul, only_digits_to_string).
    reflexivity.
Qed.

End SingleTurn.

Lemma X27_witness :
  exists q : TCanvasPainter Demo.Window Demo.Canvas,
    ProcessData 1 ("GETMENU:" ++ "obj1") ScenarioFastPath.before = Normal tt q /\
    fWebConn q = [WebConn.set_fGetMenu "" (WebConn.Build 1 true "" 0 3)].
Proof.
  destruct (X27_menu_request_is_answered ScenarioFastPath.before
              (WebConn.Build 1 true "" 0 3) (Demo.BuildWindow true [] 1 []) "obj1")
    as (q & Heq & Hconns & _).
  - unfold ScenarioFastPath.before. apply reachable_run, reachable_new.
  - reflexivity.
  - reflexivity.
  - reflexivity.
  - reflexivity.
  - discriminate.
  - exists q. auto.
Defined.

Lemma X28_witness :
  exists q : TCanvasPainter Demo.Window Demo.Canvas,
    ProcessData 1 ("RREADY:" ++ "") ScenarioStaleReply.before = Normal tt q /\
    fCmds q = [WebCommand.set_fRunning true ScenarioStaleReply.head].
Proof.
  destruct (X28_command_goes_out_when_the_viewer_has_drawn ScenarioStaleReply.before
              (WebConn.Build 1 true "" 0 0) (Demo.BuildWindow false [] 2 [])
              ScenarioStaleReply.head [] "")
    as (q & Heq & _ & Hcmds & _).
  - unfold ScenarioStaleReply.before. apply reachable_run, reachable_new.
  - reflexivity.
  - reflexivity.
  - reflexivity.
  - reflexivity.
  - reflexivity.
  - reflexivity.
  - exists q. auto.
Defined.

(** ** An update without any viewer (C8) *)

Section NoViewer.
Context {Win Canvas Drawable : Type}.
Context {window_ops : TWebWindow Win} {canvas_ops : RCanvas Canvas Drawable}.
Abbreviation Painter := (TCanvasPainter Win Canvas).

(** without connections and without a delivered version, the push pass does
    nothing *)
Lemma CheckDataToSend_idle (p : Painter) :
  fWebConn p = [] -> fSnapshotDelivered p = 0 -> CheckDataToSend p = Normal tt p.
Proof.
  intros Hconns Hd. unfold CheckDataToSend. run_monad. rewrite Hconns.
  cbn [CheckDataToSend_loop]. unfold ret. fields. rewrite Hd.
  change (0 =? 0) with true. cbn [negb andb empty]. f_equal. painter_eq. auto.
Qed.

Lemma idle_kept_same (p q : Painter) :
  fWebConn p = [] -> fSnapshotDelivered p = 0 ->
  fWebConn q = fWebConn p -> fSnapshotDelivered q = fSnapshotDelivered p ->
  fHadWebConn q = fHadWebConn p -> fUpdatesLst q = fUpdatesLst p ->
  idle_kept p q.
Proof.
  intros Hc Hd Hc' Hd' Hh Hu. unfold idle_kept.
  split; [congruence|]. split; [congruence|]. split; [exact Hh|].
  exists []. rewrite app_nil_r. exact Hu.
Qed.

Lemma DoWhenReady_idle (name arg : string) (async : bool)
    (callback : CanvasCallback_t) (p : Painter) :
  fWebConn p = [] -> fSnapshotDelivered p = 0 ->
  idle_kept p (final (DoWhenReady name arg async callback p)).
Proof.
  intros Hc Hd.
  destruct (String.eqb name "JSON") eqn:Hname.
  - unfold DoWhenReady. rewrite Hname. cbn [final modify].
    apply idle_kept_same; auto.
  - rewrite (DoWhenReady_eq name arg async callback p Hname). cbv zeta.
    destruct (fst (MakeBatch (window_or_new p)) =? 0).
    + destruct callback as [cb|]; cbn [call_if_set emit modify ret final];
        apply idle_kept_same; auto.
    + rewrite CheckDataToSend_idle by (fields; assumption).
      cbn [final]. apply idle_kept_same; auto.
Qed.

Lemma idle_step (p : Painter) (ev : Event Win Canvas) :
  fWebConn p = [] -> fSnapshotDelivered p = 0 -> ~ connects ev ->
  idle_kept p (step p ev).
Proof.
  intros Hc Hd Hev. unfold step.
  destruct ev as [ver async callback|name arg async callback|name arg res|where_
                 |win|connid arg|f|can]; cbn [handle].
  - unfold CanvasUpdated. run_monad. fields. rewrite Hd.
    change (0 =? 0) with true. cbn [negb]. rewrite andb_false_r. cbn [andb].
    match goal with
    | |- context [CreateSnapshot ?q] =>
        destruct (CreateSnapshot_eq q) as (tr & -> & Htr)
    end.
    fields.
    destruct (match option_map Sync (fWindow p) with
              | Some w => negb (IsShown w)
              | None => true
              end).
    + destruct callback as [cb|]; cbn [final]; apply idle_kept_same; auto.
    + rewrite CheckDataToSend_idle by (fields; assumption).
      destruct callback as [cb|]; cbn [final].
      * unfold idle_kept. fields. repeat split; auto. eexists. reflexivity.
      * apply idle_kept_same; auto.
  - apply DoWhenReady_idle; assumption.
  - unfold DoWhenReady_done. destruct (res <=? 0); run_monad; cbn [final];
      apply idle_kept_same; auto.
  - unfold NewDisplay, CreateWindow, window. run_monad.
    destruct (fWindow p) as [w|] eqn:Hw; fields; try rewrite Hw; cbn [final];
      apply idle_kept_same; auto.
  - unfold AddPanel. run_monad.
    destruct (fWindow p) as [w|] eqn:Hw.
    + destruct (IsShown w); cbn [negb].
      * destruct (Nat.eqb (String.length (RelativeAddr w win)) 0).
        -- cbn [final]. apply idle_kept_same; auto.
        -- pose proof (DoWhenReady_idle ("ADDPANEL:" ++ RelativeAddr w win)
                         "AddPanel" true None p Hc Hd) as H.
           destruct (DoWhenReady _ _ _ _ p); exact H.
      * cbn [final]. apply idle_kept_same; auto.
    + cbn [final]. apply idle_kept_same; auto.
  - run_monad.
    destruct (fWindow p) as [w|] eqn:Hw; [|apply idle_kept_same; auto].
    unfold ProcessData.
    destruct (String.eqb_spec arg "CONN_READY") as [Heq|_].
    + exfalso. apply Hev. exact Heq.
    + run_monad. rewrite Hc. cbn [find_conn final]. apply idle_kept_same; auto.
  - run_monad. cbn [final]. apply idle_kept_same; auto.
  - run_monad. cbn [final]. apply idle_kept_same; auto.
Qed.

Lemma idle_run (evs : list (Event Win Canvas)) (p : Painter) :
  fWebConn p = [] -> fSnapshotDelivered p = 0 ->
  Forall (fun ev => ~ connects ev) evs ->
  idle_kept p (run evs p).
Proof.
  revert p. induction evs as [|ev evs IH]; intros p Hc Hd Hevs.
  - cbn [run fold_left]. apply idle_kept_same; auto.
  - inversion Hevs as [|e l Hev Hrest]; subst.
    destruct (idle_step p ev Hc Hd Hev) as (Hc1 & Hd1 & Hh1 & l1 & Hu1).
    destruct (IH (step p ev) Hc1 Hd1 Hrest) as (Hc2 & Hd2 & Hh2 & l2 & Hu2).
    change (run (ev :: evs) p) with (run evs (step p ev)).
    unfold idle_kept. split; [exact Hc2|]. split; [exact Hd2|].
    split; [congruence|]. exists (l1 ++ l2)%list.
    rewrite Hu2, Hu1, app_assoc. reflexivity.
Qed.

(** [CanvasUpdated] with a callback on a painter without connection and
    without delivered version *)
Lemma CanvasUpdated_idle (p : Painter) (ver : Z) (async : bool) (cb : nat) :
  fWebConn p = [] -> fSnapshotDelivered p = 0 ->
  exists q,
    CanvasUpdated ver async (Some cb) p = Normal tt q /\
    fWebConn q = [] /\ fSnapshotDelivered q = 0 /\ fHadWebConn q = fHadWebConn p /\
    if shown_window p
    then
      callbacks (fTrace q) = callbacks (fTrace p) /\
      fUpdatesLst q = (fUpdatesLst p ++ [WebUpdate.Build ver (Some cb)])%list
    else
      callbacks (fTrace q) = (callbacks (fTrace p) ++ [(cb, false)])%list /\
      fUpdatesLst q = fUpdatesLst p.
Proof.
  intros Hconns Hs.
  unfold CanvasUpdated. run_monad. fields. rewrite Hs.
  change (0 =? 0) with true. cbn [negb]. rewrite andb_false_r. cbn [andb].
  match goal with
  | |- context [CreateSnapshot ?q] =>
      destruct (CreateSnapshot_eq q) as (tr & -> & Htr)
  end.
  fields.
  assert (Hsilent : callbacks tr = []).
  { destruct Htr as [->| ->]; reflexivity. }
  assert (Hshown : match option_map Sync (fWindow p) with
                   | Some w => negb (IsShown w)
                   | None => true
                   end = negb (shown_window p)).
  { unfold shown_window. destruct (fWindow p); reflexivity. }
  rewrite Hshown. destruct (shown_window p); cbn [negb].
  - rewrite CheckDataToSend_idle by (fields; assumption).
    eexists. split; [reflexivity|]. fields.
    split; [exact Hconns|]. split; [exact Hs|]. split; [reflexivity|].
    split; [rewrite callbacks_app, Hsilent; apply app_nil_r|reflexivity].
  - eexists. split; [reflexivity|]. fields.
    split; [exact Hconns|]. split; [exact Hs|]. split; [reflexivity|].
    split; [|reflexivity].
    rewrite !callbacks_app, Hsilent, app_nil_r. reflexivity.
Qed.

(** C8: [CanvasUpdated] with a callback, on a painter in use that has no
    connection and never had one.  The method returns, and there is still
    no connection.  When the painter has no window, or its window (synced)
    is not shown, the callback is called with [false] before the method
    returns and the update is not kept.  When the window is shown, no
    callback is called and the update is put behind the pending updates.
    Whatever is called or received from then on, as long as no viewer
    connects, the update stays pending, behind those that were pending
    before, and the wait function of a blocking update to a version above 0
    tells to go on waiting; a teardown of the painter, then or later, calls
    the callback with [false], in its turn among the queued commands and
    the pending updates. *)
Theorem C8_update_without_viewer (p : Painter) (ver : Z) (async : bool) (cb : nat) :
  reachable p ->
  fWebConn p = [] -> fHadWebConn p = false ->
  exists q,
    CanvasUpdated ver async (Some cb) p = Normal tt q /\
    fWebConn q = [] /\ fHadWebConn q = false /\
    if shown_window p
    then
      callbacks (fTrace q) = callbacks (fTrace p) /\
      fUpdatesLst q = (fUpdatesLst p ++ [WebUpdate.Build ver (Some cb)])%list /\
      forall evs : list (Event Win Canvas),
        Forall (fun ev => ~ connects ev) evs ->
        exists (l : list WebUpdate.t) (r : Painter),
          fUpdatesLst (run evs q)
          = (fUpdatesLst p ++ WebUpdate.Build ver (Some cb) :: l)%list /\
          (0 < ver -> CheckDeliveredVersion ver (run evs q) = 0) /\
          destructor (run evs q) = Normal tt r /\
          fUpdatesLst r = [] /\
          callbacks (fTrace r) =
            (callbacks (fTrace (run evs q)) ++
             callbacks (flat_map (fun c => fire (WebCommand.fCallback c) false)
                          (fCmds (run evs q))) ++
             callbacks (flat_map (fun u => fire (WebUpdate.fCallback u) false)
                          (fUpdatesLst p)) ++
             (cb, false)
             :: callbacks (flat_map (fun u => fire (WebUpdate.fCallback u) false) l))%list
    else
      callbacks (fTrace q) = (callbacks (fTrace p) ++ [(cb, false)])%list /\
      fUpdatesLst q = fUpdatesLst p.
Proof.
  intros Hreach Hconns Hhad.
  destruct (reachable_Inv p Hreach) as [_ Hs].
  unfold settled in Hs. rewrite Hconns in Hs.
  change (end_min_delivered []) with 0 in Hs.
  destruct (CanvasUpdated_idle p ver async cb Hconns Hs)
    as (q & Heq & Hc & Hd & Hh & Hrest).
  exists q. split; [exact Heq|]. split; [exact Hc|]. split; [congruence|].
  destruct (shown_window p); [|exact Hrest].
  destruct Hrest as [Hcalls Hupds].
  split; [exact Hcalls|]. split; [exact Hupds|].
  intros evs Hevs.
  assert (Hq : reachable q).
  { replace q with (step p (CallCanvasUpdated ver async (Some cb)));
      [apply reachable_step; exact Hreach|].
    unfold step. cbn [handle]. rewrite Heq. reflexivity. }
  destruct (idle_run evs q Hc Hd Hevs) as (Hc' & Hd' & Hh' & l & Hl).
  assert (Hlist : fUpdatesLst (run evs q)
                  = (fUpdatesLst p ++ WebUpdate.Build ver (Some cb) :: l)%list).
  { rewrite Hl, Hupds, <- app_assoc. reflexivity. }
  destruct (reachable_Inv (run evs q) (reachable_run evs q Hq)) as [(_ & _ & Hcb) _].
  exists l. eexists. split; [exact Hlist|]. split.
  { intros Hver. unfold CheckDeliveredVersion. rewrite Hc', Hd', Hh', Hh, Hhad.
    cbn [empty andb]. destruct (Z.geb_spec 0 ver); [lia|reflexivity]. }
  unfold destructor. run_monad. rewrite CancelCommands_eq.
  rewrite CancelUpdates_eq by (fields; exact Hcb).
  fields. split; [reflexivity|]. split; [reflexivity|]. fields.
  destruct (filter_cancels_all (fCmds (run evs q))) as [-> _].
  rewrite Hlist, flat_map_app, !callbacks_app. cbn [flat_map fire WebUpdate.fCallback].
  rewrite !callbacks_app, <- !app_assoc. reflexivity.
Qed.

End NoViewer.

(** C8 as it was stated fails: the window is shown, there is no connection
    and there never was one; the update with a callback is kept as a pending
    one, its callback is not called, and the wait function of the blocking
    call reports neither success nor failure. *)
Lemma C8_counterexample :
  fWebConn ScenarioNoViewer.before = [] /\
  fHadWebConn ScenarioNoViewer.before = false /\
  CanvasUpdated 5 false (Some 7%nat) ScenarioNoViewer.before
  = Normal tt ScenarioNoViewer.after /\
  callbacks (fTrace ScenarioNoViewer.after) = [] /\
  fUpdatesLst ScenarioNoViewer.after = [WebUpdate.Build 5 (Some 7%nat)] /\
  CheckDeliveredVersion 5 ScenarioNoViewer.after = 0.
Proof. vm_compute. repeat split. Qed.

Lemma C8_witness :
  reachable ScenarioNoViewer.before /\
  fWebConn ScenarioNoViewer.before = [] /\
  fHadWebConn ScenarioNoViewer.before = false /\
  exists q : TCanvasPainter Demo.Window Demo.Canvas,
    CanvasUpdated 5 false (Some 7%nat) ScenarioNoViewer.before = Normal tt q /\
    callbacks (fTrace q) = callbacks (fTrace ScenarioNoViewer.before) /\
    fUpdatesLst q =
      (fUpdatesLst ScenarioNoViewer.before ++ [WebUpdate.Build 5 (Some 7%nat)])%list /\
    CheckDeliveredVersion 5 (run [CallDoWhenReady "PNG" "/tmp/out.png" true None] q)
    = 0.
Proof.
  assert (Hreach : reachable ScenarioNoViewer.before).
  { unfold ScenarioNoViewer.before. apply reachable_run, reachable_new. }
  split; [exact Hreach|]. split; [reflexivity|]. split; [reflexivity|].
  destruct (C8_update_without_viewer ScenarioNoViewer.before 5 false 7%nat Hreach
              eq_refl eq_refl) as (q & Heq & _ & _ & H).
  change (shown_window ScenarioNoViewer.before) with true in H.
  destruct H as (Hcalls & Hupds & Hstays).
  exists q. split; [exact Heq|]. split; [exact Hcalls|]. split; [exact Hupds|].
  destruct (Hstays [CallDoWhenReady "PNG" "/tmp/out.png" true None])
    as (l & r & _ & Hwait & _).
  - constructor; [|constructor]. intros H. exact H.
  - apply Hwait. lia.
Defined.

(** ** Every callback, over every path (C5) *)



Section Callbacks.
Context {Win Canvas Drawable : Type}.
Context {window_ops : TWebWindow Win} {canvas_ops : RCanvas Canvas Drawable}.
Abbreviation Painter := (TCanvasPainter Win Canvas).



End Callbacks.


